(** * AI-Desktop-Pet: conversational memory and context assembly

    A shallow embedding of the profile manager, the profile extractor, the
    history windower and the prompt assembler of the repository, followed
    by the properties established about them.

    Python values are modelled as follows.
    - [str] is a sequence of Unicode code points: [list N].
    - [int] is [Z].
    - [list] is [list]; [dict] with text keys is [gmap pystr _] (keys are
      unique by construction, as in Python).
    - [float] relevance scores are the rationals they denote ([Q]); only
      comparisons are performed on them.
    - a raised exception is the left injection of a sum.
    - the values a profile holds are text where its annotations type them
      and parsed JSON values once the output of the extractor has been
      merged into it: the records of the data model are generic in the
      type of these values.
    - the outcome of a file or store operation that can fail is an
      argument of the function that performs it. *)

From Stdlib Require Import ZArith QArith String Ascii.
From stdpp Require Import base option list gmap fin_maps.

Local Open Scope Z_scope.
Local Open Scope list_scope.

(* ================================================================== *)
(** * Python strings *)
(* ================================================================== *)

Module PyStr.

Abbreviation pystr := (list N).

(** An ASCII literal as a Python string. *)
Definition lit (s : string) : pystr :=
  N_of_ascii <$> list_ascii_of_string s.

(** Truthiness of a string: non-empty. *)
Definition truthy (s : pystr) : bool :=
  match s with [] => false | _ :: _ => true end.

(** [str.isspace] for one code point (the characters [str.split] and
    [str.strip] treat as whitespace). *)
Definition isspace (c : N) : bool :=
  ((9 <=? c) && (c <=? 13) || (28 <=? c) && (c <=? 32)
   || (c =? 133) || (c =? 160) || (c =? 5760)
   || (8192 <=? c) && (c <=? 8202)
   || (c =? 8232) || (c =? 8233) || (c =? 8239) || (c =? 8287)
   || (c =? 12288))%N.

(** [s.split()]: maximal runs of non-whitespace. [w] is the word being
    read. *)
Fixpoint split_go (w s : pystr) : list pystr :=
  match s with
  | [] => if truthy w then [w] else []
  | c :: s' =>
      if isspace c
      then (if truthy w then w :: split_go [] s' else split_go [] s')
      else split_go (w ++ [c]) s'
  end.

Definition split (s : pystr) : list pystr := split_go [] s.

(** [s.startswith(p)]. *)
Fixpoint startswith (s p : pystr) : bool :=
  match p, s with
  | [], _ => true
  | _ :: _, [] => false
  | a :: p', b :: s' => (a =? b)%N && startswith s' p'
  end.

(** [s.endswith(p)]. *)
Definition endswith (s p : pystr) : bool :=
  startswith (rev s) (rev p).

(** [w in s]: [w] occurs in [s] as a contiguous substring. *)
Fixpoint contains (w s : pystr) : bool :=
  startswith s w ||
  match s with
  | [] => false
  | _ :: s' => contains w s'
  end.

Fixpoint lstrip (s : pystr) : pystr :=
  match s with
  | c :: s' => if isspace c then lstrip s' else s
  | [] => []
  end.

(** [s.strip()]. *)
Definition strip (s : pystr) : pystr :=
  rev (lstrip (rev (lstrip s))).

(** [sep.join(parts)]. *)
Fixpoint join (sep : pystr) (parts : list pystr) : pystr :=
  match parts with
  | [] => []
  | [p] => p
  | p :: ps => p ++ sep ++ join sep ps
  end.

(** [l[-n:]] for a positive literal [n]. *)
Definition slice_last {A} (n : nat) (l : list A) : list A :=
  drop (length l - n)%nat l.

(** [l[:-n]] for a positive literal [n]. *)
Definition slice_drop_last {A} (n : nat) (l : list A) : list A :=
  take (length l - n)%nat l.

(** [str.lower] restricted to the ASCII letters; used to run the model
    on concrete messages. *)
Definition ascii_lower (s : pystr) : pystr :=
  (fun c => if (65 <=? c) && (c <=? 90) then c + 32 else c)%N <$> s.

End PyStr.
Import PyStr.

(* ================================================================== *)
(** * Data model *)
(* ================================================================== *)

(** [UserProfile] (src/domain/profile/profile_manager.py), over the type
    [V] of the values it holds: text ([pystr]) in a profile as its
    annotations type it ([Optional[str]], [List[str]], [Dict[str, str]]),
    any parsed JSON value once the output of the extractor has been merged
    into it, since the merge stores whatever item it is handed. *)
Record UserProfile_ {V : Type} := mkUserProfile {
  name : option V;
  personality_traits : list V;
  preferences : gmap pystr V;
  goals : list V;
  important_dates : gmap pystr V;
  facts : list V;
  conversation_count : Z;
  last_updated : pystr;
  created_at : pystr
}.
Arguments UserProfile_ : clear implicits.
Arguments mkUserProfile {V}.

(** A profile as typed by its annotations. *)
Abbreviation UserProfile := (UserProfile_ pystr).

(** The dictionary of AI-extracted information handed to
    [update_profile_from_ai]; a key that is absent from the dictionary is
    modelled by the empty value of its type, which the merge treats in the
    same way. *)
Record ExtractionResult_ {V : Type} := mkExtraction {
  ex_name : option V;
  ex_personality_traits : list V;
  ex_preferences : gmap pystr V;
  ex_goals : list V;
  ex_important_dates : gmap pystr V;
  ex_facts : list V
}.
Arguments ExtractionResult_ : clear implicits.
Arguments mkExtraction {V}.

(** An extraction of the format that the docstring of
    [update_profile_from_ai] gives: text throughout. *)
Abbreviation ExtractionResult := (ExtractionResult_ pystr).

(** What is on disk at [profile_file]. *)
Inductive file_state_ {V : Type} :=
| Absent
| Stored (content : UserProfile_ V)
| Damaged.
Arguments file_state_ : clear implicits.

Abbreviation file_state := (file_state_ pystr).

(** [ProfileManager]: the in-memory profile and the profile file. *)
Record ProfileManager_ {V : Type} := mkProfileManager {
  profile : UserProfile_ V;
  profile_file : file_state_ V
}.
Arguments ProfileManager_ : clear implicits.
Arguments mkProfileManager {V}.

Abbreviation ProfileManager := (ProfileManager_ pystr).

(* ================================================================== *)
(** * Update cadence *)
(* ================================================================== *)

(** [ProfileManager.should_update_profile]. *)
Definition should_update_profile (pm : ProfileManager) : bool :=
  let count := conversation_count (profile pm) in
  if count <=? 0 then false
  else if count <=? 20 then count mod 5 =? 0
  else if count <=? 50 then count mod 10 =? 0
  else count mod 15 =? 0.

(* ================================================================== *)
(** * Profile merge *)
(* ================================================================== *)

(** Truthiness of an optional string ([None] and the empty string are
    false). *)
Definition truthy_opt (o : option pystr) : bool :=
  match o with Some s => truthy s | None => false end.

(** One iteration of the loops over [personality_traits], [goals] and
    [facts]: append the item if it is non-empty and not yet present. The
    state is the list being extended and the [updated] flag. *)
Definition add_item (st : list pystr * bool) (x : pystr) : list pystr * bool :=
  if truthy x && negb (bool_decide (x ∈ st.1))
  then (st.1 ++ [x], true)
  else st.

Definition add_items (st : list pystr * bool) (new : list pystr)
  : list pystr * bool :=
  foldl add_item st new.

(** One iteration of the loops over [preferences] and [important_dates]:
    write the entry if key and value are non-empty and the key is absent or
    bound to a different value. *)
Definition put_entry (k v : pystr) (st : gmap pystr pystr * bool)
  : gmap pystr pystr * bool :=
  if truthy k && truthy v && negb (bool_decide (st.1 !! k = Some v))
  then (<[k := v]> st.1, true)
  else st.

Definition put_entries (st : gmap pystr pystr * bool)
  (new : gmap pystr pystr) : gmap pystr pystr * bool :=
  map_fold put_entry st new.

(** The body of [update_profile_from_ai] up to the final test of
    [updated]: the merged profile and the value of [updated]. *)
Definition merge_fields (p : UserProfile) (e : ExtractionResult)
  : UserProfile * bool :=
  let updated := false in
  let '(name', updated) :=
    if truthy_opt (ex_name e)
    then (if negb (truthy_opt (name p)) then (ex_name e, true)
          else (name p, updated))
    else (name p, updated) in
  let '(traits', updated) :=
    add_items (personality_traits p, updated) (ex_personality_traits e) in
  let '(prefs', updated) :=
    put_entries (preferences p, updated) (ex_preferences e) in
  let '(goals', updated) :=
    add_items (goals p, updated) (ex_goals e) in
  let '(dates', updated) :=
    put_entries (important_dates p, updated) (ex_important_dates e) in
  let '(facts', updated) :=
    add_items (facts p, updated) (ex_facts e) in
  ({| name := name';
      personality_traits := traits';
      preferences := prefs';
      goals := goals';
      important_dates := dates';
      facts := facts';
      conversation_count := conversation_count p;
      last_updated := last_updated p;
      created_at := created_at p |}, updated).

(** How the file operations of one [save_profile] call turn out. *)
Inductive io_outcome := IoOk | MkdirFails | OpenFails | DumpFails.

Section ProfileFile.

Context {V : Type}.

Definition set_last_updated (now : pystr) (p : UserProfile_ V)
  : UserProfile_ V :=
  {| name := name p;
     personality_traits := personality_traits p;
     preferences := preferences p;
     goals := goals p;
     important_dates := important_dates p;
     facts := facts p;
     conversation_count := conversation_count p;
     last_updated := now;
     created_at := created_at p |}.

(** [ProfileManager.save_profile]: the directory is created, the
    timestamp refreshed, the file opened (which truncates it) and the
    profile dumped; an exception at any step is caught and [False]
    returned. [now] is [datetime.now().isoformat()]. *)
Definition save_profile (io : io_outcome) (now : pystr)
  (pm : ProfileManager_ V) : ProfileManager_ V * bool :=
  match io with
  | MkdirFails => (pm, false)
  | OpenFails =>
      ({| profile := set_last_updated now (profile pm);
          profile_file := profile_file pm |}, false)
  | DumpFails =>
      ({| profile := set_last_updated now (profile pm);
          profile_file := Damaged |}, false)
  | IoOk =>
      let p := set_last_updated now (profile pm) in
      ({| profile := p; profile_file := Stored p |}, true)
  end.

End ProfileFile.

(** A Python return value of [update_profile_from_ai]. *)
Inductive pyret := PyNone | PyBool (b : bool).

(** [ProfileManager.update_profile_from_ai]. The function has no [return]
    statement: its value is [None]. *)
Definition update_profile_from_ai (io : io_outcome) (now : pystr)
  (pm : ProfileManager) (e : ExtractionResult) : ProfileManager * pyret :=
  let '(p', updated) := merge_fields (profile pm) e in
  let pm' := {| profile := p'; profile_file := profile_file pm |} in
  if updated
  then ((save_profile io now pm').1, PyNone)
  else (pm', PyNone).

(** [ProfileManager.increment_conversation_count]. *)
Definition increment_conversation_count (pm : ProfileManager) : ProfileManager :=
  let p := profile pm in
  {| profile :=
       {| name := name p;
          personality_traits := personality_traits p;
          preferences := preferences p;
          goals := goals p;
          important_dates := important_dates p;
          facts := facts p;
          conversation_count := conversation_count p + 1;
          last_updated := last_updated p;
          created_at := created_at p |};
     profile_file := profile_file pm |}.

(** [update_profile_from_ai] once more, on values of any type [V]. This is
    the method as it runs on the output of the extractor, whose items are
    parsed JSON values that need not be text: it tests them for truth,
    looks them up with [in] and compares them with [!=], and stores them as
    they are. [bool_of], [py_in] and [py_ne] are these three operations of
    Python on the values. *)
Module Untyped.
Section Merge.

Context {V : Type}.
Context (bool_of : V → bool).
Context (py_in : V → list V → bool) (py_ne : V → V → bool).

Definition truthy_opt (o : option V) : bool :=
  match o with Some v => bool_of v | None => false end.

Definition add_item (st : list V * bool) (x : V) : list V * bool :=
  if bool_of x && negb (py_in x st.1)
  then (st.1 ++ [x], true)
  else st.

Definition add_items (st : list V * bool) (new : list V) : list V * bool :=
  foldl add_item st new.

Definition put_entry (k : pystr) (v : V) (st : gmap pystr V * bool)
  : gmap pystr V * bool :=
  if truthy k && bool_of v
     && match st.1 !! k with
        | Some old => py_ne old v
        | None => true
        end
  then (<[k := v]> st.1, true)
  else st.

Definition put_entries (st : gmap pystr V * bool) (new : gmap pystr V)
  : gmap pystr V * bool :=
  map_fold put_entry st new.

Definition merge_fields (p : UserProfile_ V) (e : ExtractionResult_ V)
  : UserProfile_ V * bool :=
  let updated := false in
  let '(name', updated) :=
    if truthy_opt (ex_name e)
    then (if negb (truthy_opt (name p)) then (ex_name e, true)
          else (name p, updated))
    else (name p, updated) in
  let '(traits', updated) :=
    add_items (personality_traits p, updated) (ex_personality_traits e) in
  let '(prefs', updated) :=
    put_entries (preferences p, updated) (ex_preferences e) in
  let '(goals', updated) :=
    add_items (goals p, updated) (ex_goals e) in
  let '(dates', updated) :=
    put_entries (important_dates p, updated) (ex_important_dates e) in
  let '(facts', updated) :=
    add_items (facts p, updated) (ex_facts e) in
  ({| name := name';
      personality_traits := traits';
      preferences := prefs';
      goals := goals';
      important_dates := dates';
      facts := facts';
      conversation_count := conversation_count p;
      last_updated := last_updated p;
      created_at := created_at p |}, updated).

Definition update_profile_from_ai (io : io_outcome) (now : pystr)
  (pm : ProfileManager_ V) (e : ExtractionResult_ V)
  : ProfileManager_ V * pyret :=
  let '(p', updated) := merge_fields (profile pm) e in
  let pm' := {| profile := p'; profile_file := profile_file pm |} in
  if updated
  then ((save_profile io now pm').1, PyNone)
  else (pm', PyNone).

End Merge.
End Untyped.

(** The entries of the extraction that the loop writes. *)
Definition writable (kv : pystr * pystr) : Prop :=
  truthy kv.1 = true ∧ truthy kv.2 = true.

(** [bool(l)] for a list. *)
Definition nonempty {A} (l : list A) : bool :=
  match l with [] => false | _ :: _ => true end.

(** The six fields the merge can change. *)
Definition same_fields (p q : UserProfile) : Prop :=
  name p = name q
  ∧ personality_traits p = personality_traits q
  ∧ preferences p = preferences q
  ∧ goals p = goals q
  ∧ important_dates p = important_dates q
  ∧ facts p = facts q.

(** The duplicate-free invariant of a profile. *)
Definition profile_inv (p : UserProfile) : Prop :=
  NoDup (personality_traits p)
  ∧ NoDup (goals p)
  ∧ NoDup (facts p)
  ∧ NoDup (map_to_list (preferences p)).*1
  ∧ NoDup (map_to_list (important_dates p)).*1.

(** [UserProfile()] with the clock reading [now]. *)
Definition empty_profile (now : pystr) : UserProfile :=
  {| name := None;
     personality_traits := [];
     preferences := ∅;
     goals := [];
     important_dates := ∅;
     facts := [];
     conversation_count := 0;
     last_updated := now;
     created_at := now |}.

Definition empty_extraction : ExtractionResult :=
  {| ex_name := None;
     ex_personality_traits := [];
     ex_preferences := ∅;
     ex_goals := [];
     ex_important_dates := ∅;
     ex_facts := [] |}.

Definition with_count (n : Z) (pm : ProfileManager) : ProfileManager :=
  let p := profile pm in
  {| profile :=
       {| name := name p;
          personality_traits := personality_traits p;
          preferences := preferences p;
          goals := goals p;
          important_dates := important_dates p;
          facts := facts p;
          conversation_count := n;
          last_updated := last_updated p;
          created_at := created_at p |};
     profile_file := profile_file pm |}.

(** The schedule as the specification words it. *)
Definition spec_schedule (count : Z) : bool :=
  if count <=? 0 then false
  else if (1 <=? count) && (count <=? 20) then count mod 5 =? 0
  else if (21 <=? count) && (count <=? 50) then count mod 10 =? 0
  else count mod 15 =? 0.

(* ================================================================== *)
(** * Sample data *)
(* ================================================================== *)

(** A manager over a new, empty profile and no profile file. *)
Definition fresh_manager (now : pystr) : ProfileManager :=
  {| profile := empty_profile now; profile_file := Absent |}.

Definition t0 : pystr := lit "2025-01-01T00:00:00".
Definition t1 : pystr := lit "2025-01-02T00:00:00".
Definition t2 : pystr := lit "2025-01-03T00:00:00".

(** The extraction [{"name": "Alex", "goals": ["learn guitar"]}]. *)
Definition alex_extraction : ExtractionResult :=
  {| ex_name := Some (lit "Alex");
     ex_personality_traits := [];
     ex_preferences := ∅;
     ex_goals := [lit "learn guitar"];
     ex_important_dates := ∅;
     ex_facts := [] |}.

(** A richer extraction with repeated items and dictionary entries. *)
Definition rich_extraction : ExtractionResult :=
  {| ex_name := Some (lit "Sam");
     ex_personality_traits := [lit "curious"; lit "curious"; []];
     ex_preferences := <[lit "music" := lit "indie rock"]> ∅;
     ex_goals := [lit "learn guitar"; lit "learn Python"];
     ex_important_dates := <[lit "birthday" := lit "1995-03-15"]> ∅;
     ex_facts := [lit "has a cat"] |}.

(** The state after one merge of [alex_extraction] into a new profile. *)
Definition alex_manager : ProfileManager :=
  (update_profile_from_ai IoOk t1 (fresh_manager t0) alex_extraction).1.

(* ================================================================== *)
(** * History window *)
(* ================================================================== *)

Inductive role := User | Assistant.

(** One entry of [conversation_history]: [{"role": ..., "content": ...}];
    [turn_proactive] is set on the turns the desktop pet starts by itself. *)
Record Turn := mkTurn {
  turn_role : role;
  turn_content : pystr;
  turn_proactive : bool
}.

(** ['hello', 'hi', U+4F60 U+597D, U+55E8, 'hey']. *)
Definition greeting_words : list pystr :=
  [lit "hello"; lit "hi"; [20320; 22909]%N; [21992]%N; lit "hey"].

(** The ASCII and the full-width question mark. *)
Definition question_mark : pystr := [63%N].
Definition fullwidth_question_mark : pystr := [65311%N].

Section History.

(** [str.lower], a total function of the Python runtime. *)
Context (lower : pystr → pystr).

Definition word_count (current_message : pystr) : nat :=
  length (split current_message).

Definition is_greeting (current_message : pystr) : bool :=
  existsb (λ word, contains word (lower current_message)) greeting_words.

Definition is_simple (current_message : pystr) : bool :=
  (word_count current_message <? 10)%nat.

Definition is_question (current_message : pystr) : bool :=
  contains question_mark current_message
  || contains fullwidth_question_mark current_message.

(** [get_relevant_history] of src/api/server.py and of
    backend/app/main.py (the two are the same text). *)
Definition get_relevant_history (history : list Turn) (current_message : pystr)
  : list Turn :=
  if is_greeting current_message
     || (is_simple current_message && negb (is_question current_message))
  then (if (3 <? length history)%nat then slice_last 3 history else history)
  else if (word_count current_message <? 30)%nat
  then (if (8 <? length history)%nat then slice_last 8 history else history)
  else (if (15 <? length history)%nat then slice_last 15 history else history).

(** [DesktopPet._get_relevant_history] of src/main.py, over
    [self.conversation_history]. *)
Definition _get_relevant_history (conversation_history : list Turn)
  (current_message : pystr) : list Turn :=
  if is_greeting current_message
     || (is_simple current_message && negb (is_question current_message))
  then slice_last 3 conversation_history
  else if (word_count current_message <? 30)%nat
  then slice_last 8 conversation_history
  else slice_last 15 conversation_history.

(** The last [n] turns, or the whole history if it is shorter. *)
Definition last_turns (n : nat) (history : list Turn) : list Turn :=
  rev (take n (rev history)).

(** The selection rule in the words of the specification. *)
Definition spec_select (history : list Turn) (current_message : pystr)
  : list Turn :=
  if is_greeting current_message
     || (is_simple current_message && negb (is_question current_message))
  then last_turns 3 history
  else if (word_count current_message <? 30)%nat
  then last_turns 8 history
  else last_turns 15 history.

End History.

(** A history of [n] alternating turns whose contents are their indices. *)
Definition sample_history (n : nat) : list Turn :=
  (λ i, mkTurn (if Nat.even i then User else Assistant) [N.of_nat i] false)
  <$> seq 0 n.

(** A message of more than thirty words with a question mark that
    contains the word `this'. *)
Definition long_question : pystr :=
  lit "Could you explain in detail how the scheduler decides which task runs next and why this choice matters so much when many tasks wait for one shared resource at once?".

(* ================================================================== *)
(** * Prompt assembly *)
(* ================================================================== *)

(** The dictionary returned by [load_character_config]; every key is
    present and holds text, the empty string when unset. *)
Record CharacterConfig := mkCharacterConfig {
  cfg_personality : pystr;
  cfg_backstory : pystr;
  cfg_traits : pystr;
  cfg_preferences : pystr;
  cfg_output_example : pystr;
  cfg_worldview_background : pystr;
  cfg_worldview_setting : pystr;
  cfg_notes : pystr
}.

(** What the prompt builder reads from [config_manager]:
    [load_character_config()], [load_personality()], [get_max_tokens()]. *)
Record ConfigManager := mkConfigManager {
  load_character_config : CharacterConfig;
  load_personality : option pystr;
  get_max_tokens : Z
}.

(** One stored turn pair of the vector store (each side cut to 500
    characters when stored). *)
Record MemoryEntry := mkMemoryEntry {
  me_user_message : pystr;
  me_ai_response : pystr
}.

(** One result of [search_relevant_conversations]. *)
Record Hit := mkHit {
  user_message : pystr;
  ai_response : pystr;
  timestamp : pystr;
  relevance_score : Q
}.

(** The per-user instance dictionary of the servers, over the type [V] of
    the values its profile holds. [ai_calls] counts the calls made to
    [ai_provider.generate_response] so far. *)
Record Instance_ {V : Type} := mkInstance {
  config_manager : ConfigManager;
  vector_store : option (list MemoryEntry);
  profile_manager : option (ProfileManager_ V);
  conversation_history : list Turn;
  ai_calls : nat
}.
Arguments Instance_ : clear implicits.
Arguments mkInstance {V}.

(** An instance whose profile is typed as its annotations have it. *)
Abbreviation Instance := (Instance_ pystr).

Definition nl : pystr := [10%N].

(** U+26A0 U+FE0F, then [" CRITICAL - "]: the marker put in front of every
    directive section. *)
Definition critical_marker : pystr := [9888; 65039]%N ++ lit " CRITICAL - ".

(** The head of the default-guidelines block. *)
Definition guidelines_head : pystr := lit "Guidelines:".

(** The float literals [0.6] and [0.7] as the rationals they denote. *)
Definition float_0_6 : Q := 5404319552844595 # 9007199254740992.
Definition float_0_7 : Q := 3152519739159347 # 4503599627370496.
(** The floats [0.8] and [0.55]. *)
Definition float_0_8 : Q := 3602879701896397 # 4503599627370496.
Definition float_0_55 : Q := 2476979795053773 # 4503599627370496.

(** [a > b] on scores. *)
Definition score_gt (a b : Q) : bool := negb (Qle_bool a b).

(** Section 1: the critical directives, and [has_output_example]. *)
Definition critical_parts (c : CharacterConfig) : list pystr * bool :=
  let parts := [] in
  let has_output_example := false in
  let '(parts, has_output_example) :=
    if truthy (cfg_output_example c)
    then (parts ++ [critical_marker
                    ++ lit "Output Example & Performance Requirements (MUST FOLLOW EXACTLY):"
                    ++ nl ++ cfg_output_example c], true)
    else (parts, has_output_example) in
  if truthy (cfg_notes c)
  then (if has_output_example
        then (parts ++ [critical_marker ++ lit "Additional Notes (MUST FOLLOW):"
                        ++ nl ++ cfg_notes c], has_output_example)
        else (parts ++ [critical_marker ++ lit "Response Guidelines (MUST FOLLOW):"
                        ++ nl ++ cfg_notes c], true))
  else (parts, has_output_example).

Definition labeled (label value : pystr) : list pystr :=
  if truthy value then [label ++ value] else [].

(** Section 2: the character description. *)
Definition character_parts (c : CharacterConfig) : list pystr :=
  labeled (lit "Personality: ") (cfg_personality c)
  ++ labeled (lit "Backstory: ") (cfg_backstory c)
  ++ labeled (lit "Traits: ") (cfg_traits c)
  ++ labeled (lit "Preferences: ") (cfg_preferences c)
  ++ labeled (lit "Worldview Background: ") (cfg_worldview_background c)
  ++ labeled (lit "Worldview Setting: ") (cfg_worldview_setting c).

(** The fallback to the simple personality, given the parts so far. *)
Definition fallback_parts (cm : ConfigManager) (parts : list pystr)
  : list pystr :=
  if negb (existsb (contains (lit "Personality:")) parts)
  then (if truthy_opt (load_personality cm)
        then [lit "Personality: " ++ default [] (load_personality cm)]
        else [lit "You are a friendly and supportive AI companion."])
  else [].

(** Section 3: the profile summary. [with_facts] tells whether the first
    five facts are listed (backend/app/main.py) or not (src/api/server.py). *)
Definition profile_parts (with_facts : bool) (pm : option ProfileManager)
  : list pystr :=
  match pm with
  | None => []
  | Some pm =>
      let p := profile pm in
      let profile_summary :=
        (if truthy_opt (name p)
         then [lit "User: " ++ default [] (name p)] else [])
        ++ (if nonempty (personality_traits p)
            then [lit "Traits: " ++ join (lit ", ") (take 3 (personality_traits p))]
            else [])
        ++ (if nonempty (goals p)
            then [lit "Goals: " ++ join (lit ", ") (take 3 (goals p))]
            else [])
        ++ (if with_facts && nonempty (facts p)
            then [lit "Important facts: " ++ join (lit ", ") (take 5 (facts p))]
            else []) in
      if nonempty profile_summary
      then [join (lit " | ") profile_summary]
      else []
  end.

(** The last user message of the history, the empty string if none. *)
Definition last_user_message (history : list Turn) : pystr :=
  match find (λ msg, if turn_role msg is User then true else false)
             (rev history) with
  | Some msg => turn_content msg
  | None => []
  end.

(** The text of the retrieved-memory section for one hit. *)
Definition memory_text (conv : Hit) : pystr :=
  lit "Relevant memory:" ++ nl
  ++ lit "U: " ++ take 100 (user_message conv) ++ lit "..." ++ nl
  ++ lit "A: " ++ take 100 (ai_response conv) ++ lit "...".

(** The default-guidelines block. *)
Definition guidelines_block (max_tokens : Z) : pystr :=
  let '(target_sentences, target_words) :=
    if max_tokens <=? 100 then (lit "1-2", lit "30-50")
    else if max_tokens <=? 200 then (lit "2-3", lit "50-80")
    else (lit "2-4", lit "80-120") in
  guidelines_head ++ nl
  ++ lit "- Use the user profile information naturally in conversation" ++ nl
  ++ lit "- Reference relevant past conversations when appropriate" ++ nl
  ++ lit "- Stay consistent with your personality" ++ nl
  ++ lit "- Be proactive and caring" ++ nl
  ++ lit "- IMPORTANT: Keep responses concise (" ++ target_sentences
  ++ lit " sentences, " ++ target_words
  ++ lit " words). Express your complete thought in these few sentences - be brief but complete. Do not start a long response that gets cut off.".

(** [[conv for conv in relevant_convs if conv.get('relevance_score', 0) >
    threshold]]; every hit the store returns carries its score. *)
Definition high_relevance (threshold : Q) (relevant_convs : list Hit)
  : list Hit :=
  filter (λ conv, score_gt (relevance_score conv) threshold = true)
         relevant_convs.

(** The last character of [label] (the first of [s]) is not a character
    of the non-empty word [w], so that no occurrence of [w] reaches across
    that end of the text. *)
Definition ends_outside (w label : pystr) : bool :=
  truthy w
  && match last label with
     | Some c => negb (bool_decide (c ∈ w))
     | None => false
     end.

Definition starts_outside (w s : pystr) : bool :=
  truthy w
  && match s with
     | c :: _ => negb (bool_decide (c ∈ w))
     | [] => false
     end.

(** The texts of the character configuration, which the builder pastes
    into the prompt as they are. *)
Definition config_texts (c : CharacterConfig) : list pystr :=
  [cfg_output_example c; cfg_notes c; cfg_personality c; cfg_backstory c;
   cfg_traits c; cfg_preferences c; cfg_worldview_background c;
   cfg_worldview_setting c].

(** The texts of the profile that the summary can show. *)
Definition profile_texts (pm : option ProfileManager) : list pystr :=
  match pm with
  | Some pm =>
      let p := profile pm in
      default [] (name p) :: personality_traits p ++ goals p ++ facts p
  | None => []
  end.

Section Prompt.

(** [VectorMemoryStore.search_relevant_conversations]: the ranking of the
    stored pairs against a query by the embedding model, best first. *)
Context (search_relevant_conversations : list MemoryEntry → pystr → nat → list Hit).

(** Section 4: the retrieved memory, filtered at [threshold]. *)
Definition memory_parts (threshold : Q) (inst : Instance) (include_rag : bool)
  : list pystr :=
  match vector_store inst with
  | Some store =>
      if include_rag && nonempty (conversation_history inst)
      then
        let last_user_msg := last_user_message (conversation_history inst) in
        if truthy last_user_msg
        then
          let relevant_convs :=
            search_relevant_conversations store last_user_msg 2 in
          let high_relevance_convs :=
            high_relevance threshold relevant_convs in
          match high_relevance_convs with
          | conv :: _ => [memory_text conv]
          | [] => []
          end
        else []
      else []
  | None => []
  end.

(** Both sides of the hits that the memory search returns for the last
    user message. *)
Definition memory_texts (inst : Instance) : list pystr :=
  match vector_store inst with
  | Some store =>
      hit ← search_relevant_conversations store
               (last_user_message (conversation_history inst)) 2;
      [user_message hit; ai_response hit]
  | None => []
  end.

(** Every text that [build_system_prompt] can paste into the prompt
    unchanged or cut short: configuration, simple personality, profile and
    retrieved memory. *)
Definition pasted_texts (inst : Instance) : list pystr :=
  config_texts (load_character_config (config_manager inst))
  ++ default [] (load_personality (config_manager inst))
     :: profile_texts (profile_manager inst)
  ++ memory_texts inst.

(** Section 5: the default guidelines. *)
Definition guideline_parts (has_output_example : bool) (cm : ConfigManager)
  : list pystr :=
  if negb has_output_example then [guidelines_block (get_max_tokens cm)] else [].

(** The list [parts] at the end of [build_system_prompt]. *)
Definition build_parts (threshold : Q) (with_facts : bool)
  (inst : Instance) (include_rag : bool) : list pystr :=
  let cm := config_manager inst in
  let character_config := load_character_config cm in
  let '(parts, has_output_example) := critical_parts character_config in
  let parts := parts ++ character_parts character_config in
  let parts := parts ++ fallback_parts cm parts in
  let parts := parts ++ profile_parts with_facts (profile_manager inst) in
  let parts := parts ++ memory_parts threshold inst include_rag in
  let parts := parts ++ guideline_parts has_output_example cm in
  parts.

Definition build_system_prompt_with (threshold : Q) (with_facts : bool)
  (inst : Instance) (include_rag : bool) : pystr :=
  join (nl ++ nl) (build_parts threshold with_facts inst include_rag).

End Prompt.

(** [build_system_prompt] of src/api/server.py. *)
Module Server.
Definition build_system_prompt := λ search, build_system_prompt_with search float_0_7 false.
End Server.

(** [build_system_prompt] of backend/app/main.py. *)
Module Backend.
Definition build_system_prompt := λ search, build_system_prompt_with search float_0_6 true.
End Backend.

(** A part that opens with the critical marker. *)
Definition is_critical (part : pystr) : bool := startswith part critical_marker.

(** A part that opens as the default-guidelines block does. *)
Definition is_guidelines (part : pystr) : bool := startswith part guidelines_head.

(** Two texts differ at a position both have. *)
Fixpoint mismatch (l m : pystr) : bool :=
  match l, m with
  | a :: l', b :: m' => negb (a =? b)%N || mismatch l' m'
  | _, _ => false
  end.

(** A part that is neither a directive nor the guidelines block. *)
Definition plain (part : pystr) : Prop :=
  is_critical part = false ∧ is_guidelines part = false.

(** The number of positions of [s] at which [w] occurs. *)
Fixpoint occurrences (w s : pystr) : nat :=
  ((if startswith s w then 1 else 0)
   + match s with
     | [] => 0
     | _ :: s' => occurrences w s'
     end)%nat.

(** A text that holds neither the word CRITICAL nor the head of the
    default-guidelines block. *)
Definition marker_free (t : pystr) : Prop :=
  contains (lit "CRITICAL") t = false ∧ contains guidelines_head t = false.

(** A fixed text that holds neither word and whose last character (first
    character) belongs to neither: a label in front of a pasted text, or
    what follows one. *)
Definition inert_label (label : pystr) : bool :=
  ends_outside (lit "CRITICAL") label && ends_outside guidelines_head label
  && negb (contains (lit "CRITICAL") label)
  && negb (contains guidelines_head label).

Definition inert_tail (s : pystr) : bool :=
  starts_outside (lit "CRITICAL") s && starts_outside guidelines_head s.

(** The number of parts that satisfy [f]. *)
Definition count_parts (f : pystr → bool) (parts : list pystr) : nat :=
  length (List.filter f parts).

(** A character configuration with an output example and no notes. *)
Definition sample_config : CharacterConfig :=
  {| cfg_personality := lit "Cheerful and curious";
     cfg_backstory := [];
     cfg_traits := lit "playful";
     cfg_preferences := [];
     cfg_output_example := lit "Keep it short. Use one emoji.";
     cfg_worldview_background := [];
     cfg_worldview_setting := [];
     cfg_notes := [] |}.

(** Two stored hits with the scores of the scenario; both sides of the
    first are longer than 100 characters. *)
Definition hit_high : Hit :=
  {| user_message := concat (replicate 30 (lit "tea "));
     ai_response := concat (replicate 30 (lit "cake "));
     timestamp := t0;
     relevance_score := float_0_8 |}.

Definition hit_low : Hit :=
  {| user_message := lit "what is the weather";
     ai_response := lit "sunny";
     timestamp := t0;
     relevance_score := float_0_55 |}.

(** A search capability that returns the two hits for every query. *)
Definition sample_search (store : list MemoryEntry) (query : pystr) (n : nat)
  : list Hit := [hit_high; hit_low].

Definition sample_instance : Instance :=
  {| config_manager :=
       {| load_character_config := sample_config;
          load_personality := None;
          get_max_tokens := 150 |};
     vector_store := Some [];
     profile_manager := Some alex_manager;
     conversation_history := [mkTurn User (lit "do you like tea?") false];
     ai_calls := 0 |}.

(** A configuration whose output example itself holds the word CRITICAL
    and a paragraph that opens as the guidelines block does. *)
Definition marked_config : CharacterConfig :=
  {| cfg_personality := lit "Cheerful and curious";
     cfg_backstory := [];
     cfg_traits := [];
     cfg_preferences := [];
     cfg_output_example :=
       lit "Never say CRITICAL aloud." ++ nl ++ nl
       ++ lit "Guidelines:" ++ nl ++ lit "- Answer in one line.";
     cfg_worldview_background := [];
     cfg_worldview_setting := [];
     cfg_notes := [] |}.

Definition marked_instance : Instance :=
  {| config_manager :=
       {| load_character_config := marked_config;
          load_personality := None;
          get_max_tokens := 150 |};
     vector_store := None;
     profile_manager := None;
     conversation_history := [];
     ai_calls := 0 |}.

(** The sentence that stands in for a persona when none is configured. *)
Definition default_persona : pystr :=
  lit "You are a friendly and supportive AI companion.".

(** Whether one of the configured texts other than [personality] that
    come before the persona fallback in the prompt holds the text
    [Personality:]. *)
Definition persona_mentioned (c : CharacterConfig) : bool :=
  existsb (contains (lit "Personality:"))
    [cfg_output_example c; cfg_notes c; cfg_backstory c; cfg_traits c;
     cfg_preferences c; cfg_worldview_background c; cfg_worldview_setting c].

(** The fixed texts with which the sections other than a persona open. *)
Definition section_heads : list pystr :=
  [critical_marker; lit "Backstory: "; lit "Traits: "; lit "Preferences: ";
   lit "Worldview Background: "; lit "Worldview Setting: "; lit "User: ";
   lit "Goals: "; lit "Important facts: "; lit "Relevant memory:";
   guidelines_head].

(** A configuration without a personality whose backstory mentions
    one. *)
Definition shy_config : CharacterConfig :=
  {| cfg_personality := [];
     cfg_backstory := lit "Her Personality: shy";
     cfg_traits := [];
     cfg_preferences := [];
     cfg_output_example := [];
     cfg_worldview_background := [];
     cfg_worldview_setting := [];
     cfg_notes := [] |}.

Definition shy_instance : Instance :=
  {| config_manager :=
       {| load_character_config := shy_config;
          load_personality := Some (lit "Calm and kind");
          get_max_tokens := 150 |};
     vector_store := None;
     profile_manager := None;
     conversation_history := [];
     ai_calls := 0 |}.

(* ================================================================== *)
(** * Profile extraction *)
(* ================================================================== *)

(** A raised exception, with [str(e)]. *)
Inductive exn :=
| JSONDecodeError (msg : pystr)
| AttributeError (msg : pystr)
| Exception (msg : pystr).

Definition str_of_exn (e : exn) : pystr :=
  match e with
  | JSONDecodeError msg | AttributeError msg | Exception msg => msg
  end.

(** A computation that returns a value or raises. *)
Abbreviation result A := (exn + A)%type.

(** [try: body except Exception as e: handler(e)]. *)
Definition try_except {A} (body : result A) (handler : exn → result A)
  : result A :=
  match body with
  | inr a => inr a
  | inl e => handler e
  end.

(** A value produced by [json.loads]; a number keeps its lexeme, an
    object its members in document order. *)
#[local] Unset Elimination Schemes.
Inductive json :=
| JNull
| JBool (b : bool)
| JNum (lexeme : pystr)
| JStr (s : pystr)
| JArr (items : list json)
| JObj (members : list (pystr * json)).
#[local] Set Elimination Schemes.

(** [d.get(key)] on a parsed object: the last member with that key, as
    [dict] keeps the last of equal keys. *)
Definition dict_get (members : list (pystr * json)) (key : pystr)
  : option json :=
  snd <$> find (λ kv, bool_decide (kv.1 = key)) (rev members).

Definition is_digit (c : N) : bool := ((48 <=? c) && (c <=? 57))%N.

(** A number is zero when its mantissa holds no digit from 1 to 9
    (underflow of a float literal to zero is not modelled). *)
Fixpoint mantissa_zero (lexeme : pystr) : bool :=
  match lexeme with
  | [] => true
  | c :: rest =>
      if (c =? 101)%N || (c =? 69)%N then true
      else if is_digit c && negb (c =? 48)%N then false
      else if (c =? 78)%N || (c =? 73)%N then false
      else mantissa_zero rest
  end.

(** Python truthiness of a parsed value. *)
Definition json_truthy (v : json) : bool :=
  match v with
  | JNull => false
  | JBool b => b
  | JNum lexeme => negb (mantissa_zero lexeme)
  | JStr s => truthy s
  | JArr items => nonempty items
  | JObj members => nonempty members
  end.

(** The dictionary built by [_validate_extraction] and by
    [_get_empty_extraction]. *)
Record RawExtraction := mkRaw {
  raw_name : json;
  raw_personality_traits : list json;
  raw_preferences : list (pystr * json);
  raw_goals : list json;
  raw_important_dates : list (pystr * json);
  raw_facts : list json
}.

(** [ProfileExtractor._get_empty_extraction]. *)
Definition _get_empty_extraction : RawExtraction :=
  {| raw_name := JNull;
     raw_personality_traits := [];
     raw_preferences := [];
     raw_goals := [];
     raw_important_dates := [];
     raw_facts := [] |}.

(** [data.get(key, [])] followed by the [isinstance(..., list)] check. *)
Definition get_list (members : list (pystr * json)) (key : pystr) : list json :=
  match dict_get members key with
  | Some (JArr items) => items
  | _ => []
  end.

(** [data.get(key, {})] followed by the [isinstance(..., dict)] check. *)
Definition get_dict (members : list (pystr * json)) (key : pystr)
  : list (pystr * json) :=
  match dict_get members key with
  | Some (JObj ms) => ms
  | _ => []
  end.

(** [ProfileExtractor._validate_extraction]. [data.get] exists only on a
    dictionary: any other value raises [AttributeError]. *)
Definition _validate_extraction (data : json) : result RawExtraction :=
  match data with
  | JObj members =>
      let name0 := default JNull (dict_get members (lit "name")) in
      let name1 :=
        if json_truthy name0
           && negb (if name0 is JStr _ then true else false)
        then JNull else name0 in
      inr {| raw_name := name1;
             raw_personality_traits := get_list members (lit "personality_traits");
             raw_preferences := get_dict members (lit "preferences");
             raw_goals := get_list members (lit "goals");
             raw_important_dates := get_dict members (lit "important_dates");
             raw_facts := get_list members (lit "facts") |}
  | _ => inl (AttributeError (lit "object has no attribute 'get'"))
  end.

(** ** Regular expressions *)

(** The fragment of [re] patterns the extractor uses. *)
Inductive regex :=
| RChar (c : N)
| RNotIn (cs : list N)
| RAny
| RSeq (r1 r2 : regex)
| RStar (r : regex).

(** Backtracking match of [r] at the head of [s], greedy stars first; [k]
    continues on the rest. Every star iteration must consume input. *)
Fixpoint rmatch (fuel : nat) (r : regex) (s : pystr)
  (k : pystr → option pystr) : option pystr :=
  match fuel with
  | O => None
  | S fuel =>
      match r with
      | RChar c =>
          match s with
          | x :: s' => if (x =? c)%N then k s' else None
          | [] => None
          end
      | RNotIn cs =>
          match s with
          | x :: s' => if existsb (N.eqb x) cs then None else k s'
          | [] => None
          end
      | RAny =>
          match s with
          | _ :: s' => k s'
          | [] => None
          end
      | RSeq r1 r2 => rmatch fuel r1 s (λ s1, rmatch fuel r2 s1 k)
      | RStar r1 =>
          match rmatch fuel r1 s
                  (λ s1, if (length s1 <? length s)%nat
                         then rmatch fuel r s1 k else None) with
          | Some rest => Some rest
          | None => k s
          end
      end
  end.

Fixpoint re_search_from (fuel : nat) (r : regex) (s : pystr) : option pystr :=
  match rmatch fuel r s Some with
  | Some rest => Some (take (length s - length rest) s)
  | None =>
      match s with
      | [] => None
      | _ :: s' => re_search_from fuel r s'
      end
  end.

(** [re.search(r, s, re.DOTALL)]: [m.group()] of the leftmost match. *)
Definition re_search (r : regex) (s : pystr) : option pystr :=
  re_search_from (2 * length s + 64) r s.

Definition lbrace : N := 123.
Definition rbrace : N := 125.

(** The first fallback pattern of [_parse_json_response]: an opening
    brace, a run of non-brace characters, any number of groups made of a
    flat brace pair and a run of non-brace characters, a closing brace. *)
Definition balanced_object_re : regex :=
  RSeq (RChar lbrace)
    (RSeq (RStar (RNotIn [lbrace; rbrace]))
       (RSeq (RStar (RSeq (RChar lbrace)
                       (RSeq (RStar (RNotIn [lbrace; rbrace]))
                          (RSeq (RChar rbrace)
                             (RStar (RNotIn [lbrace; rbrace]))))))
          (RChar rbrace))).

(** The second fallback pattern, with [re.DOTALL]: an opening brace, any
    characters, a closing brace. *)
Definition greedy_object_re : regex :=
  RSeq (RChar lbrace) (RSeq (RStar RAny) (RChar rbrace)).

(** The response after [strip], removal of the fence markers and a second
    [strip]. *)
Definition strip_fences (response : pystr) : pystr :=
  let response := strip response in
  let response :=
    if startswith response (lit "```json") then drop 7 response
    else if startswith response (lit "```") then drop 3 response
    else response in
  let response :=
    if endswith response (lit "```") then slice_drop_last 3 response
    else response in
  strip response.

Section Extractor.

(** [json.loads]. *)
Context (json_loads : pystr → result json).

(** [try: return self._validate_extraction(json.loads(text))
     except json.JSONDecodeError: <on_decode_error>]. *)
Definition parse_attempt (text : pystr)
  (on_decode_error : result RawExtraction) : result RawExtraction :=
  match json_loads text with
  | inr data => _validate_extraction data
  | inl (JSONDecodeError _) => on_decode_error
  | inl e => inl e
  end.

(** [ProfileExtractor._parse_json_response]. *)
Definition _parse_json_response (response : pystr) : result RawExtraction :=
  if negb (truthy response) || negb (truthy (strip response))
  then inr _get_empty_extraction
  else
    let response := strip_fences response in
    parse_attempt response
      match re_search balanced_object_re response with
      | Some json_match =>
          parse_attempt json_match
            match re_search greedy_object_re response with
            | Some json_match2 =>
                parse_attempt json_match2 (inr _get_empty_extraction)
            | None => inr _get_empty_extraction
            end
      | None => inr _get_empty_extraction
      end.

(** The texts handed to [json.loads] for a response, in the order tried. *)
Definition candidates (response : pystr) : list pystr :=
  let body := strip_fences response in
  body ::
  match re_search balanced_object_re body with
  | Some json_match =>
      json_match ::
      match re_search greedy_object_re body with
      | Some json_match2 => [json_match2]
      | None => []
      end
  | None => []
  end.

(** [ProfileExtractor._format_messages]. *)
Definition _format_messages (messages : list Turn) : pystr :=
  join (nl ++ nl)
    ((λ msg, (if turn_role msg is User then lit "User" else lit "Assistant")
             ++ lit ": " ++ turn_content msg) <$> messages).

(** The model capability: the outcome of the [n]-th call of
    [ai_provider.generate_response(messages, system_prompt, max_tokens)];
    [max_tokens] is [None] when the caller leaves it to the default. *)
Context (generate_response :
  nat → list Turn → pystr → option Z → result pystr).

(** The two prompts of [extract_user_info]; their wording does not bear on
    the result. *)
Context (extraction_system_prompt : pystr)
        (extraction_user_prompt : pystr → pystr).

(** [ProfileExtractor.extract_user_info], as the [n]-th call of the
    provider. *)
Definition extract_user_info (n : nat) (recent_messages : list Turn)
  : result RawExtraction :=
  let conversation_text := _format_messages recent_messages in
  let user_prompt := extraction_user_prompt conversation_text in
  try_except
    (match generate_response n [mkTurn User user_prompt false]
             extraction_system_prompt None with
     | inr response => _parse_json_response response
     | inl e => inl e
     end)
    (λ _, inr _get_empty_extraction).

End Extractor.

(* ================================================================== *)
(** * A model of [json.loads] *)
(* ================================================================== *)

(** The JSON grammar as the decoder of the Python library reads it, used
    to run the extractor on concrete responses. Numbers are kept as
    lexemes. *)
Module JsonModel.

Definition is_ws (c : N) : bool :=
  ((c =? 32) || (c =? 9) || (c =? 10) || (c =? 13))%N.

Fixpoint skip_ws (s : pystr) : pystr :=
  match s with
  | c :: s' => if is_ws c then skip_ws s' else s
  | [] => []
  end.

Definition hexval (c : N) : option N :=
  (if is_digit c then Some (c - 48)
   else if (97 <=? c) && (c <=? 102) then Some (c - 87)
   else if (65 <=? c) && (c <=? 70) then Some (c - 55)
   else None)%N.

(** Four hexadecimal digits. *)
Definition hex4 (s : pystr) : option (N * pystr) :=
  match s with
  | a :: b :: c :: d :: rest =>
      a ← hexval a; b ← hexval b; c ← hexval c; d ← hexval d;
      Some (((a * 16 + b) * 16 + c) * 16 + d, rest)%N
  | _ => None
  end.

(** The escape after [\u]: one code unit, or a surrogate pair. *)
Definition unicode_escape (s : pystr) : option (N * pystr) :=
  '(u, rest) ← hex4 s;
  if ((55296 <=? u) && (u <=? 56319))%N
  then match rest with
       | 92%N :: 117%N :: rest' =>
           match hex4 rest' with
           | Some (u2, rest'') =>
               if ((56320 <=? u2) && (u2 <=? 57343))%N
               then Some ((65536 + (u - 55296) * 1024 + (u2 - 56320))%N, rest'')
               else Some (u, rest)
           | None => Some (u, rest)
           end
       | _ => Some (u, rest)
       end
  else Some (u, rest).

Definition simple_escape (c : N) : option N :=
  (if c =? 34 then Some 34 else if c =? 92 then Some 92
   else if c =? 47 then Some 47 else if c =? 98 then Some 8
   else if c =? 102 then Some 12 else if c =? 110 then Some 10
   else if c =? 114 then Some 13 else if c =? 116 then Some 9
   else None)%N.

(** The body of a string, after the opening quote. *)
Fixpoint scanstring (fuel : nat) (s acc : pystr) : option (pystr * pystr) :=
  match fuel with
  | O => None
  | S fuel =>
      match s with
      | [] => None
      | c :: s' =>
          if (c =? 34)%N then Some (acc, s')
          else if (c =? 92)%N then
            match s' with
            | [] => None
            | e :: s'' =>
                if (e =? 117)%N
                then '(u, rest) ← unicode_escape s'';
                     scanstring fuel rest (acc ++ [u])
                else x ← simple_escape e; scanstring fuel s'' (acc ++ [x])
            end
          else if (c <? 32)%N then None
          else scanstring fuel s' (acc ++ [c])
      end
  end.

Fixpoint span_digits (s : pystr) : pystr * pystr :=
  match s with
  | c :: s' =>
      if is_digit c
      then let '(ds, rest) := span_digits s' in (c :: ds, rest)
      else ([], s)
  | [] => ([], [])
  end.

(** An optional minus sign, then zero or a run of digits that does not
    start with zero, then an optional fraction and an optional exponent. *)
Definition scan_number (s : pystr) : option (pystr * pystr) :=
  let '(sign, s1) :=
    match s with
    | c :: s' => if (c =? 45)%N then ([c], s') else ([], s)
    | [] => ([], s)
    end in
  '(int_part, s2) ←
    match s1 with
    | c :: s' =>
        if (c =? 48)%N then Some ([c], s')
        else if is_digit c then Some (span_digits s1)
        else None
    | [] => None
    end;
  let '(frac, s3) :=
    match s2 with
    | c :: s' =>
        if (c =? 46)%N
        then let '(ds, rest) := span_digits s' in
             if nonempty ds then (c :: ds, rest) else ([], s2)
        else ([], s2)
    | [] => ([], s2)
    end in
  let '(exp, s4) :=
    match s3 with
    | c :: s' =>
        if ((c =? 101) || (c =? 69))%N
        then
          let '(esign, s'') :=
            match s' with
            | d :: t => if ((d =? 43) || (d =? 45))%N then ([d], t) else ([], s')
            | [] => ([], s')
            end in
          let '(ds, rest) := span_digits s'' in
          if nonempty ds then (c :: esign ++ ds, rest) else ([], s3)
        else ([], s3)
    | [] => ([], s3)
    end in
  Some (sign ++ int_part ++ frac ++ exp, s4).

(** A literal [word] at the head of [s]. *)
Definition keyword (word : pystr) (v : json) (s : pystr)
  : option (json * pystr) :=
  if startswith s word then Some (v, drop (length word) s) else None.

Definition scan_atom (s : pystr) : option (json * pystr) :=
  match keyword (lit "null") JNull s with
  | Some r => Some r
  | None =>
  match keyword (lit "true") (JBool true) s with
  | Some r => Some r
  | None =>
  match keyword (lit "false") (JBool false) s with
  | Some r => Some r
  | None =>
  match scan_number s with
  | Some (lexeme, rest) => Some (JNum lexeme, rest)
  | None =>
  match keyword (lit "NaN") (JNum (lit "NaN")) s with
  | Some r => Some r
  | None =>
  match keyword (lit "Infinity") (JNum (lit "Infinity")) s with
  | Some r => Some r
  | None => keyword (lit "-Infinity") (JNum (lit "-Infinity")) s
  end end end end end end.

Fixpoint parse_value (fuel : nat) (s : pystr) : option (json * pystr) :=
  match fuel with
  | O => None
  | S fuel =>
      match s with
      | [] => None
      | c :: s' =>
          if (c =? 34)%N then
            '(str, rest) ← scanstring (S (length s')) s' []; Some (JStr str, rest)
          else if (c =? 123)%N then
            match skip_ws s' with
            | d :: rest =>
                if (d =? 125)%N then Some (JObj [], rest)
                else '(ms, rest') ← parse_members fuel (d :: rest);
                     Some (JObj ms, rest')
            | [] => None
            end
          else if (c =? 91)%N then
            match skip_ws s' with
            | d :: rest =>
                if (d =? 93)%N then Some (JArr [], rest)
                else '(items, rest') ← parse_elements fuel (d :: rest);
                     Some (JArr items, rest')
            | [] => None
            end
          else scan_atom s
      end
  end
with parse_members (fuel : nat) (s : pystr)
  : option (list (pystr * json) * pystr) :=
  match fuel with
  | O => None
  | S fuel =>
      match s with
      | [] => None
      | c :: s' =>
          if (c =? 34)%N then
            '(key, r1) ← scanstring (S (length s')) s' [];
            match skip_ws r1 with
            | colon :: r2 =>
                if (colon =? 58)%N then
                  '(v, r3) ← parse_value fuel (skip_ws r2);
                  match skip_ws r3 with
                  | d :: r4 =>
                      if (d =? 125)%N then Some ([(key, v)], r4)
                      else if (d =? 44)%N then
                        '(ms, r5) ← parse_members fuel (skip_ws r4);
                        Some ((key, v) :: ms, r5)
                      else None
                  | [] => None
                  end
                else None
            | [] => None
            end
          else None
      end
  end
with parse_elements (fuel : nat) (s : pystr) : option (list json * pystr) :=
  match fuel with
  | O => None
  | S fuel =>
      '(v, r1) ← parse_value fuel s;
      match skip_ws r1 with
      | d :: r2 =>
          if (d =? 93)%N then Some ([v], r2)
          else if (d =? 44)%N then
            '(items, r3) ← parse_elements fuel (skip_ws r2);
            Some (v :: items, r3)
          else None
      | [] => None
      end
  end.

(** [json.loads(s)]: one value, surrounded by whitespace only. *)
Definition json_loads (s : pystr) : result json :=
  match parse_value (S (length s)) (skip_ws s) with
  | Some (v, rest) =>
      if nonempty (skip_ws rest)
      then inl (JSONDecodeError (lit "Extra data"))
      else inr v
  | None => inl (JSONDecodeError (lit "Expecting value"))
  end.

End JsonModel.

(** A text with double quotes written as [^]. *)
Definition litq (s : string) : pystr :=
  (λ c, if (c =? 94)%N then 34%N else c) <$> lit s.

(** A fenced response whose content is chatter followed by an object. *)
Definition chatty_response : pystr :=
  lit "```json" ++ nl ++ litq "Sure! {^name^: ^Al^}" ++ nl ++ lit "```".

(** A fenced response whose content holds no object that parses. *)
Definition broken_response : pystr :=
  lit "```json" ++ nl ++ litq "{^name^: ^Al^,, ^goals^: [}" ++ nl ++ lit "```".

(** A provider that answers every call with [response]. *)
Definition constant_provider (response : pystr)
  (n : nat) (messages : list Turn) (system_prompt : pystr)
  (max_tokens : option Z) : result pystr := inr response.

(** A provider whose every call raises. *)
Definition failing_provider
  (n : nat) (messages : list Turn) (system_prompt : pystr)
  (max_tokens : option Z) : result pystr :=
  inl (Exception (lit "Connection error.")).

(** No JSON object is read from [text]. *)
Definition no_object (json_loads : pystr → result json) (text : pystr) : Prop :=
  ∀ members, json_loads text ≠ inr (JObj members).

(** An outcome that [extract_user_info] turns into the empty extraction:
    the empty extraction itself, or an exception. *)
Definition degrades (r : result RawExtraction) : Prop :=
  r = inr _get_empty_extraction ∨ ∃ e, r = inl e.

(* ================================================================== *)
(** * Tactics for concrete instances *)
(* ================================================================== *)

(** Decides the invariant on a concrete profile. *)
Ltac decide_profile_inv :=
  unfold profile_inv;
  repeat split;
  try apply NoDup_fst_map_to_list;
  apply (bool_decide_unpack _); vm_compute; exact I.

(** Decides that no candidate text of a concrete response is read as an
    object by the model parser. *)
Ltac decide_no_object :=
  let text := fresh "text" in
  let Ht := fresh "Ht" in
  let ms := fresh "ms" in
  intros text Ht ms; vm_compute in Ht;
  repeat (apply elem_of_cons in Ht as [-> | Ht]; [by vm_compute|]);
  by apply elem_of_nil in Ht.

(* ================================================================== *)
(** * Conversation sessions *)
(* ================================================================== *)

(** A profile of text read as a profile of parsed values: each text is
    the JSON string it is. *)
Definition untyped_profile (p : UserProfile) : UserProfile_ json :=
  {| name := JStr <$> name p;
     personality_traits := JStr <$> personality_traits p;
     preferences := JStr <$> preferences p;
     goals := JStr <$> goals p;
     important_dates := JStr <$> important_dates p;
     facts := JStr <$> facts p;
     conversation_count := conversation_count p;
     last_updated := last_updated p;
     created_at := created_at p |}.

Definition untyped_file (f : file_state) : file_state_ json :=
  match f with
  | Absent => Absent
  | Stored content => Stored (untyped_profile content)
  | Damaged => Damaged
  end.

Definition untyped (pm : ProfileManager) : ProfileManager_ json :=
  {| profile := untyped_profile (profile pm);
     profile_file := untyped_file (profile_file pm) |}.

Definition untyped_instance (inst : Instance) : Instance_ json :=
  {| config_manager := config_manager inst;
     vector_store := vector_store inst;
     profile_manager := untyped <$> profile_manager inst;
     conversation_history := conversation_history inst;
     ai_calls := ai_calls inst |}.

(** The dictionary [validated] as [update_profile_from_ai] reads it: all
    six keys are present, the lists and dictionaries hold whatever parsed
    values the response had, and of equal keys of an object the last one
    counts. *)
Definition extraction_of (raw : RawExtraction) : ExtractionResult_ json :=
  {| ex_name := Some (raw_name raw);
     ex_personality_traits := raw_personality_traits raw;
     ex_preferences := list_to_map (rev (raw_preferences raw));
     ex_goals := raw_goals raw;
     ex_important_dates := list_to_map (rev (raw_important_dates raw));
     ex_facts := raw_facts raw |}.

(** How [collection.add] turns out inside
    [VectorMemoryStore.add_conversation]: the record is stored, or an
    exception is raised, which [add_conversation] catches. *)
Inductive add_outcome := AddOk | AddRaises.

(** [VectorMemoryStore.add_conversation]: the store afterwards. When
    [collection.add] raises, the exception is caught, the empty string is
    returned and nothing is stored. *)
Definition add_conversation (vs : add_outcome) (store : list MemoryEntry)
  (user_message ai_response : pystr) : list MemoryEntry :=
  match vs with
  | AddOk =>
      store ++ [mkMemoryEntry (take 500 user_message) (take 500 ai_response)]
  | AddRaises => store
  end.

Record ChatRequest := mkChatRequest {
  user_id : pystr;
  message : pystr
}.

Record ChatResponse := mkChatResponse {
  response : pystr;
  conversation_id : pystr;
  message_count : nat
}.

Record HTTPException := mkHTTPException {
  status_code : Z;
  detail : pystr
}.

(** The state of [DesktopPet] that a turn reads and writes: the session
    data, whether [self.ai_provider] is set, the messages shown in the
    chat window (text, [is_user]), the thinking indicator, the history
    that the conversation-history file holds ([None] when the file is
    missing or is not readable as JSON), and the messages handed to each
    [ProfileUpdateWorker] started so far. *)
Record DesktopPet := mkDesktopPet {
  dp_instance : Instance;
  has_ai_provider : bool;
  chat_ui : list (pystr * bool);
  thinking_indicator : bool;
  history_file : option (list Turn);
  profile_workers : list (list Turn)
}.

(** The signal an [AIWorker] emits. *)
Inductive worker_signal :=
| response_ready (response : pystr)
| error_occurred (error : pystr).

Definition with_history (history : list Turn) (inst : Instance) : Instance :=
  {| config_manager := config_manager inst;
     vector_store := vector_store inst;
     profile_manager := profile_manager inst;
     conversation_history := history;
     ai_calls := ai_calls inst |}.

Definition with_calls (n : nat) (inst : Instance) : Instance :=
  {| config_manager := config_manager inst;
     vector_store := vector_store inst;
     profile_manager := profile_manager inst;
     conversation_history := conversation_history inst;
     ai_calls := n |}.

(** How the file operations of one [_save_json] call turn out: the file
    is written; [open] raises [IOError] and the file stays as it was; or
    [json.dump] raises after [open] has truncated the file. *)
Inductive write_outcome := WriteOk | WriteOpenFails | WriteDumpFails.

(** [ConfigManager._save_json]: what the file holds afterwards, and the
    value returned. *)
Definition _save_json {A} (w : write_outcome) (data : A) (file : option A)
  : option A * bool :=
  match w with
  | WriteOk => (Some data, true)
  | WriteOpenFails => (file, false)
  | WriteDumpFails => (None, false)
  end.

(** The history that [ConfigManager.save_conversation_history] hands to
    [_save_json]: the last 20 turns. *)
Definition save_conversation_history (history : list Turn) : list Turn :=
  if (20 <? length history)%nat then slice_last 20 history else history.

(** [DesktopPet._save_conversation_history]: the history is handed to
    [ConfigManager.save_conversation_history]; the value returned is
    dropped, and an exception would be caught and logged. *)
Definition _save_conversation_history (w : write_outcome) (dp : DesktopPet)
  : DesktopPet :=
  {| dp_instance := dp_instance dp;
     has_ai_provider := has_ai_provider dp;
     chat_ui := chat_ui dp;
     thinking_indicator := thinking_indicator dp;
     history_file :=
       (_save_json w
          (save_conversation_history (conversation_history (dp_instance dp)))
          (history_file dp)).1;
     profile_workers := profile_workers dp |}.

(** [DesktopPet._on_ai_error]. *)
Definition _on_ai_error (w : write_outcome) (dp : DesktopPet) (error : pystr)
  : DesktopPet :=
  let error_msg := lit "Sorry, I encountered an error: " ++ error in
  _save_conversation_history w
    {| dp_instance :=
         with_history
           (conversation_history (dp_instance dp)
            ++ [mkTurn Assistant error_msg false])
           (dp_instance dp);
       has_ai_provider := has_ai_provider dp;
       chat_ui := chat_ui dp ++ [(error_msg, false)];
       thinking_indicator := false;
       history_file := history_file dp;
       profile_workers := profile_workers dp |}.

(** [DesktopPet._on_ai_response]. Step 5 starts a [ProfileUpdateWorker]
    on the recent messages and returns; the worker runs in a thread of
    its own. *)
Definition _on_ai_response (vs : add_outcome) (w : write_outcome)
  (dp : DesktopPet) (response : pystr) : DesktopPet :=
  let inst := dp_instance dp in
  let history :=
    conversation_history inst ++ [mkTurn Assistant response false] in
  let store :=
    match vector_store inst with
    | Some store =>
        if (2 <=? length history)%nat
        then
          let user_msg := last_user_message (slice_drop_last 1 history) in
          if truthy user_msg
          then Some (add_conversation vs store user_msg response)
          else Some store
        else Some store
    | None => None
    end in
  let pm := increment_conversation_count <$> profile_manager inst in
  let workers :=
    match pm with
    | Some pm =>
        if should_update_profile pm && has_ai_provider dp
        then profile_workers dp
             ++ [if (10 <=? length history)%nat
                 then slice_last 10 history else history]
        else profile_workers dp
    | None => profile_workers dp
    end in
  let history :=
    if (20 <? length history)%nat then slice_last 20 history else history in
  _save_conversation_history w
    {| dp_instance :=
         {| config_manager := config_manager inst;
            vector_store := store;
            profile_manager := pm;
            conversation_history := history;
            ai_calls := ai_calls inst |};
       has_ai_provider := has_ai_provider dp;
       chat_ui := chat_ui dp ++ [(response, false)];
       thinking_indicator := false;
       history_file := history_file dp;
       profile_workers := workers |}.

(** The handler connected to each signal of an [AIWorker]. *)
Definition deliver (vs : add_outcome) (w : write_outcome) (dp : DesktopPet)
  (signal : worker_signal) : DesktopPet :=
  match signal with
  | response_ready response => _on_ai_response vs w dp response
  | error_occurred error => _on_ai_error w dp error
  end.

Section Session.

Context (lower : pystr → pystr).
Context (search : list MemoryEntry → pystr → nat → list Hit).
Context (json_loads : pystr → result json).
Context (generate_response : nat → list Turn → pystr → option Z → result pystr).
Context (extraction_system_prompt : pystr)
        (extraction_user_prompt : pystr → pystr).
(** Python's [v in l] on a list and [a != b], on parsed values. *)
Context (py_in : json → list json → bool) (py_ne : json → json → bool).
(** The outcome of [collection.add], of the file operations and the clock
    reading of a profile save during the turn. *)
Context (vs : add_outcome) (io : io_outcome) (now : pystr).

(** The guarded profile update of a completed turn, which is also the
    body of [ProfileUpdateWorker.run]: extraction as the [n]-th provider
    call, then the merge of what it returns; an exception is caught and
    logged. *)
Definition run_profile_update (n : nat) (pm : ProfileManager_ json)
  (recent_messages : list Turn) : ProfileManager_ json :=
  match extract_user_info json_loads generate_response
          extraction_system_prompt extraction_user_prompt n recent_messages with
  | inr extracted_data =>
      (Untyped.update_profile_from_ai json_truthy py_in py_ne io now pm
         (extraction_of extracted_data)).1
  | inl _ => pm
  end.

(** [chat] of src/api/server.py, on the instance of the requesting user.
    The instance comes with a profile of text; the one left behind holds
    whatever the profile update of the turn merged into it. *)
Definition chat (inst : Instance) (request : ChatRequest)
  : Instance_ json * (HTTPException + ChatResponse) :=
  let inst :=
    with_history
      (conversation_history inst ++ [mkTurn User (message request) false])
      inst in
  let system_prompt := Server.build_system_prompt search inst true in
  let relevant_history :=
    get_relevant_history lower (conversation_history inst) (message request) in
  let max_tokens := get_max_tokens (config_manager inst) in
  let calls := ai_calls inst in
  match generate_response calls relevant_history system_prompt
          (Some max_tokens) with
  | inl e =>
      (untyped_instance (with_calls (S calls) inst),
       inl (mkHTTPException 500
              (lit "Internal server error: " ++ str_of_exn e)))
  | inr response =>
      let calls := S calls in
      let history :=
        conversation_history inst ++ [mkTurn Assistant response false] in
      let store :=
        match vector_store inst with
        | Some store =>
            if (2 <=? length history)%nat
            then
              let user_msg :=
                default [] (turn_content <$>
                            history !! (length history - 2)%nat) in
              Some (add_conversation vs store user_msg response)
            else Some store
        | None => None
        end in
      let '(pm, calls) :=
        match profile_manager inst with
        | Some pm =>
            let pm := increment_conversation_count pm in
            if should_update_profile pm
            then (Some (run_profile_update calls (untyped pm)
                          (slice_last 10 history)),
                  S calls)
            else (Some (untyped pm), calls)
        | None => (None, calls)
        end in
      let history :=
        if (20 <? length history)%nat then slice_last 20 history
        else history in
      ({| config_manager := config_manager inst;
          vector_store := store;
          profile_manager := pm;
          conversation_history := history;
          ai_calls := calls |},
       inr {| response := response;
              conversation_id := user_id request;
              message_count := length history |})
  end.

(** [DesktopPet._on_message_sent] up to the start of the worker: the new
    state and the arguments handed to the [AIWorker]. *)
Definition _on_message_sent (w : write_outcome) (dp : DesktopPet)
  (message : pystr) : DesktopPet * (list Turn * pystr * Z) :=
  let inst :=
    with_history
      (conversation_history (dp_instance dp) ++ [mkTurn User message false])
      (dp_instance dp) in
  let dp :=
    _save_conversation_history w
      {| dp_instance := inst;
         has_ai_provider := has_ai_provider dp;
         chat_ui := chat_ui dp ++ [(message, true)];
         thinking_indicator := thinking_indicator dp;
         history_file := history_file dp;
         profile_workers := profile_workers dp |} in
  let dp :=
    {| dp_instance := dp_instance dp;
       has_ai_provider := has_ai_provider dp;
       chat_ui := chat_ui dp;
       thinking_indicator := true;
       history_file := history_file dp;
       profile_workers := profile_workers dp |} in
  let max_tokens := get_max_tokens (config_manager inst) in
  let system_prompt := Server.build_system_prompt search inst true in
  let relevant_history :=
    _get_relevant_history lower (conversation_history inst) message in
  (dp, (relevant_history, system_prompt, max_tokens)).

(** [AIWorker.run], as the [n]-th provider call: the signal emitted and
    the number of provider calls made. *)
Definition AIWorker_run (provider : bool) (n : nat)
  (messages : list Turn) (system_prompt : pystr) (max_tokens : Z)
  : worker_signal * nat :=
  if provider
  then match generate_response n messages system_prompt (Some max_tokens) with
       | inr response => (response_ready response, 1%nat)
       | inl e => (error_occurred (lit "Error: " ++ str_of_exn e), 1%nat)
       end
  else (error_occurred
          (lit "AI provider not initialized. Please check your API key in settings."),
        0%nat).

(** One turn of the desktop pet with no other event of the application in
    between: the message is sent, the worker runs and its signal is
    delivered to the connected handler. [w_sent] and [w_done] are the
    outcomes of the two writes of the history file. *)
Definition desktop_turn (w_sent w_done : write_outcome) (dp : DesktopPet)
  (message : pystr) : DesktopPet :=
  let '(dp, (messages, system_prompt, max_tokens)) :=
    _on_message_sent w_sent dp message in
  let '(signal, made) :=
    AIWorker_run (has_ai_provider dp) (ai_calls (dp_instance dp))
      messages system_prompt max_tokens in
  let dp :=
    {| dp_instance :=
         with_calls (ai_calls (dp_instance dp) + made) (dp_instance dp);
       has_ai_provider := has_ai_provider dp;
       chat_ui := chat_ui dp;
       thinking_indicator := thinking_indicator dp;
       history_file := history_file dp;
       profile_workers := profile_workers dp |} in
  deliver vs w_done dp signal.

End Session.

(** Parsed values compared by their structure. *)
Fixpoint json_eqb (a b : json) : bool :=
  let fix all2 (l m : list json) : bool :=
    match l, m with
    | [], [] => true
    | x :: l', y :: m' => json_eqb x y && all2 l' m'
    | _, _ => false
    end in
  let fix members2 (l m : list (pystr * json)) : bool :=
    match l, m with
    | [], [] => true
    | (k, x) :: l', (k', y) :: m' =>
        bool_decide (k = k') && json_eqb x y && members2 l' m'
    | _, _ => false
    end in
  match a, b with
  | JNull, JNull => true
  | JBool x, JBool y => bool_decide (x = y)
  | JNum x, JNum y => bool_decide (x = y)
  | JStr x, JStr y => bool_decide (x = y)
  | JArr x, JArr y => all2 x y
  | JObj x, JObj y => members2 x y
  | _, _ => false
  end.

(** Stand-ins for Python's [in] and [!=] in the examples: they compare
    parsed values by structure, which is what Python does on text. *)
Definition sample_in (v : json) (l : list json) : bool :=
  existsb (json_eqb v) l.

Definition sample_ne (a b : json) : bool := negb (json_eqb a b).

Definition sample_request : ChatRequest :=
  {| user_id := lit "user-1"; message := lit "and coffee?" |}.

Definition sample_desktop : DesktopPet :=
  {| dp_instance := sample_instance;
     has_ai_provider := true;
     chat_ui := [(lit "do you like tea?", true)];
     thinking_indicator := false;
     history_file := Some (conversation_history sample_instance);
     profile_workers := [] |}.

(** A provider whose first call raises and whose later calls answer. *)
Definition flaky_provider
  (n : nat) (messages : list Turn) (system_prompt : pystr)
  (max_tokens : option Z) : result pystr :=
  match n with
  | O => inl (Exception (lit "Connection error."))
  | S _ => inr (lit "Coffee is fine too.")
  end.

(* ================================================================== *)
(** * Further functions of the profile manager *)
(* ================================================================== *)

(** [UserProfile.is_empty]. *)
Definition is_empty (p : UserProfile) : bool :=
  negb (truthy_opt (name p))
  && negb (nonempty (personality_traits p))
  && bool_decide (preferences p = ∅)
  && negb (nonempty (goals p))
  && bool_decide (important_dates p = ∅)
  && negb (nonempty (facts p)).

(** [n] completed conversations: [increment_conversation_count] called
    [n] times. *)
Definition after_conversations (n : nat) (pm : ProfileManager)
  : ProfileManager :=
  Nat.iter n increment_conversation_count pm.

(* ================================================================== *)
(** * Proactive messages and stored history of the desktop pet *)
(* ================================================================== *)

(** [ConfigManager.load_conversation_history]: the last 20 turns of the
    stored history; a file that is missing or unreadable is loaded as the
    default, the empty history. *)
Definition load_conversation_history (file : option (list Turn)) : list Turn :=
  match file with
  | Some stored =>
      if (20 <? length stored)%nat then slice_last 20 stored else stored
  | None => []
  end.

(** [self.proactive_interval_minutes]. *)
Definition proactive_interval_minutes : Z := 10.

(** A turn the pet started by itself. *)
Definition is_proactive (t : Turn) : bool :=
  (if turn_role t is Assistant then true else false) && turn_proactive t.

(** The decision of [_check_and_initiate_proactive_conversation], with
    the chat window open: a provider exists, [minutes_silent] minutes have
    passed since the last user message, and the last turn is not itself a
    proactive one. *)
Definition proactive_due (dp : DesktopPet) (minutes_silent : Z) : bool :=
  has_ai_provider dp
  && (proactive_interval_minutes <=? minutes_silent)
  && negb (match last (conversation_history (dp_instance dp)) with
           | Some last_msg => is_proactive last_msg
           | None => false
           end).

(** The request that [ProactiveWorker.run] appends to the context. *)
Definition proactive_request : Turn :=
  mkTurn User
    (lit "[Generate a proactive check-in message based on our conversation context and your personality]")
    false.

Definition proactive_prompt : pystr :=
  lit "Generate a brief, natural proactive message to check in with the user. "
  ++ nl
  ++ lit "Keep it warm, caring, and not intrusive. It should feel like a friend checking in, not a notification."
  ++ nl
  ++ lit "Keep it short (1-2 sentences). Express your complete thought concisely - don't cut off mid-sentence.".

(** The signal a [ProactiveWorker] emits. *)
Inductive proactive_signal :=
| message_ready (message : pystr)
| proactive_error (error : pystr).

(** [DesktopPet._on_proactive_message]. *)
Definition _on_proactive_message (w : write_outcome) (dp : DesktopPet)
  (message : pystr) : DesktopPet :=
  _save_conversation_history w
    {| dp_instance :=
         with_history
           (conversation_history (dp_instance dp)
            ++ [mkTurn Assistant message true])
           (dp_instance dp);
       has_ai_provider := has_ai_provider dp;
       chat_ui := chat_ui dp ++ [(message, false)];
       thinking_indicator := thinking_indicator dp;
       history_file := history_file dp;
       profile_workers := profile_workers dp |}.

(** [DesktopPet._on_proactive_error]: the error is printed, the timer
    reset; the session is left as it is. *)
Definition _on_proactive_error (dp : DesktopPet) (error : pystr)
  : DesktopPet := dp.

Section Proactive.

Context (search : list MemoryEntry → pystr → nat → list Hit).
Context (generate_response : nat → list Turn → pystr → option Z → result pystr).

(** [ProactiveWorker.run], as the [n]-th provider call. *)
Definition ProactiveWorker_run (provider : bool) (n : nat)
  (conversation_history : list Turn) (system_prompt : pystr) (max_tokens : Z)
  : proactive_signal * nat :=
  if provider
  then
    let recent_context :=
      if (3 <? length conversation_history)%nat
      then slice_last 3 conversation_history else conversation_history in
    let messages := recent_context ++ [proactive_request] in
    let enhanced_system_prompt :=
      system_prompt ++ nl ++ nl ++ proactive_prompt in
    match generate_response n messages enhanced_system_prompt
            (Some max_tokens) with
    | inr response => (message_ready response, 1%nat)
    | inl e => (proactive_error (lit "Error: " ++ str_of_exn e), 1%nat)
    end
  else (proactive_error (lit "AI provider not initialized"), 0%nat).

(** One firing of the proactive timer after [minutes_silent] minutes
    without a user message, with no other event of the application in
    between: the check, and when it passes the worker and the delivery of
    its signal. [w] is the outcome of the write of the history file. *)
Definition proactive_tick (w : write_outcome) (dp : DesktopPet)
  (minutes_silent : Z) : DesktopPet :=
  if proactive_due dp minutes_silent
  then
    let system_prompt :=
      Server.build_system_prompt search (dp_instance dp) true in
    let max_tokens := get_max_tokens (config_manager (dp_instance dp)) in
    let '(signal, made) :=
      ProactiveWorker_run (has_ai_provider dp) (ai_calls (dp_instance dp))
        (conversation_history (dp_instance dp)) system_prompt max_tokens in
    let dp :=
      {| dp_instance :=
           with_calls (ai_calls (dp_instance dp) + made) (dp_instance dp);
         has_ai_provider := has_ai_provider dp;
         chat_ui := chat_ui dp;
         thinking_indicator := thinking_indicator dp;
         history_file := history_file dp;
         profile_workers := profile_workers dp |} in
    match signal with
    | message_ready message => _on_proactive_message w dp message
    | proactive_error error => _on_proactive_error dp error
    end
  else dp.

End Proactive.

(** The dictionary [validated] that [_validate_extraction] returns, as a
    parsed object with its six keys. *)
Definition raw_as_object (r : RawExtraction) : json :=
  JObj [(lit "name", raw_name r);
        (lit "personality_traits", JArr (raw_personality_traits r));
        (lit "preferences", JObj (raw_preferences r));
        (lit "goals", JArr (raw_goals r));
        (lit "important_dates", JObj (raw_important_dates r));
        (lit "facts", JArr (raw_facts r))].

(** The six keys of an extraction. *)
Definition extraction_keys : list pystr :=
  [lit "name"; lit "personality_traits"; lit "preferences"; lit "goals";
   lit "important_dates"; lit "facts"].

(** A response whose content [body] is wrapped in fence markers. *)
Definition fenced (opening body : pystr) : pystr :=
  opening ++ nl ++ body ++ nl ++ lit "```".

(* ================================================================== *)
(** * Theorems *)
(* ================================================================== *)

(** ** Update cadence *)

Lemma should_update_profile_schedule (pm : ProfileManager) :
  should_update_profile pm = spec_schedule (conversation_count (profile pm)).
Proof.
  unfold should_update_profile, spec_schedule.
  set (c := conversation_count (profile pm)).
  destruct (Z.leb_spec c 0); [done|].
  destruct (Z.leb_spec 1 c); [|lia].
  destruct (Z.leb_spec c 20); [done|].
  destruct (Z.leb_spec 21 c); [|lia].
  by destruct (Z.leb_spec c 50).
Qed.

(** ** Extending a list without duplicates *)

Lemma add_items_char (new : list pystr) : ∀ (l : list pystr) (u : bool),
  ∃ ext : list pystr,
    add_items (l, u) new = (l ++ ext, u || nonempty ext)
    ∧ (∀ x, x ∈ ext → x ∈ new ∧ truthy x = true ∧ x ∉ l)
    ∧ NoDup ext
    ∧ (∀ x, x ∈ new → truthy x = true → x ∈ l ++ ext).
Proof.
  induction new as [|x new IH]; intros l u.
  - exists []. rewrite app_nil_r, orb_false_r.
    split; [done|]. split; [|split; [constructor|]].
    + intros y Hy. by apply elem_of_nil in Hy.
    + intros y Hy. by apply elem_of_nil in Hy.
  - unfold add_items. simpl. fold (add_items (add_item (l, u) x) new).
    unfold add_item. simpl.
    destruct (truthy x) eqn:Hx; simpl.
    + case_bool_decide as Hin; simpl.
      * destruct (IH l u) as (ext & Heq & Hext & Hnd & Hcov).
        exists ext. split; [done|]. split; [|split; [done|]].
        { intros y Hy. destruct (Hext y Hy) as (? & ? & ?).
          rewrite elem_of_cons. auto. }
        intros y Hy Hty. apply elem_of_cons in Hy as [->|Hy]; [|by auto].
        apply elem_of_app. by left.
      * destruct (IH (l ++ [x]) true) as (ext & Heq & Hext & Hnd & Hcov).
        exists (x :: ext). rewrite Heq. simpl.
        rewrite <- app_assoc, orb_true_r. simpl. split; [done|].
        split; [|split].
        { intros y Hy. apply elem_of_cons in Hy as [->|Hy].
          - rewrite elem_of_cons. auto.
          - destruct (Hext y Hy) as (? & ? & Hn).
            rewrite elem_of_cons. repeat split; auto.
            intros ?. apply Hn, elem_of_app. by left. }
        { constructor; [|done]. intros Hy.
          destruct (Hext x Hy) as (_ & _ & Hn).
          apply Hn, elem_of_app. right. by left. }
        intros y Hy Hty. apply elem_of_cons in Hy as [->|Hy].
        { apply elem_of_app. right. by left. }
        specialize (Hcov y Hy Hty). rewrite <- app_assoc in Hcov. done.
    + destruct (IH l u) as (ext & Heq & Hext & Hnd & Hcov).
      exists ext. split; [done|]. split; [|split; [done|]].
      { intros y Hy. destruct (Hext y Hy) as (? & ? & ?).
        rewrite elem_of_cons. auto. }
      intros y Hy Hty. apply elem_of_cons in Hy as [->|Hy]; [congruence|by auto].
Qed.

Lemma add_items_flag (new l : list pystr) (u : bool) :
  add_items (l, u) new
  = ((add_items (l, false) new).1, u || (add_items (l, false) new).2).
Proof.
  revert l u. induction new as [|x new IH]; intros l u.
  - simpl. by rewrite orb_false_r.
  - unfold add_items. simpl. fold (add_items (add_item (l, u) x) new).
    fold (add_items (add_item (l, false) x) new).
    unfold add_item. simpl.
    destruct (truthy x && negb (bool_decide (x ∈ l))); simpl.
    + rewrite (IH (l ++ [x]) true). simpl. by rewrite orb_true_r.
    + apply IH.
Qed.

Lemma add_items_changed (new l : list pystr) :
  (add_items (l, false) new).2 = true ↔ (add_items (l, false) new).1 ≠ l.
Proof.
  destruct (add_items_char new l false) as (ext & -> & _). simpl.
  destruct ext as [|x ext]; simpl.
  - rewrite app_nil_r. split; [done|]. by intros [].
  - split; [|done]. intros _ Heq.
    apply (f_equal length) in Heq. rewrite length_app in Heq. simpl in Heq. lia.
Qed.

Lemma add_items_NoDup (new l : list pystr) (u : bool) :
  NoDup l → NoDup (add_items (l, u) new).1.
Proof.
  intros Hl. destruct (add_items_char new l u) as (ext & -> & Hext & Hnd & _).
  simpl. apply NoDup_app. split; [done|]. split; [|done].
  intros x Hx Hx'. by destruct (Hext x Hx') as (_ & _ & []).
Qed.

Lemma add_items_noop (new l : list pystr) (u : bool) :
  (∀ x, x ∈ new → truthy x = true → x ∈ l) → add_items (l, u) new = (l, u).
Proof.
  revert l u. induction new as [|x new IH]; intros l u Hall; [done|].
  unfold add_items. simpl. fold (add_items (add_item (l, u) x) new).
  unfold add_item. simpl.
  destruct (truthy x) eqn:Hx; simpl.
  - rewrite bool_decide_eq_true_2 by (apply Hall; [by left|done]). simpl.
    apply IH. intros y Hy. apply Hall. by right.
  - apply IH. intros y Hy. apply Hall. by right.
Qed.

Lemma add_items_idem (new l : list pystr) (u u' : bool) :
  add_items ((add_items (l, u) new).1, u') new = ((add_items (l, u) new).1, u').
Proof.
  destruct (add_items_char new l u) as (ext & -> & _ & _ & Hcov). simpl.
  by apply add_items_noop.
Qed.

(** ** Merging a dictionary *)

Lemma put_entries_char (new d : gmap pystr pystr) (u : bool) :
  (put_entries (d, u) new).1 = filter writable new ∪ d
  ∧ (put_entries (d, u) new).2
    = u || negb (bool_decide ((put_entries (d, u) new).1 = d)).
Proof.
  unfold put_entries.
  set (P := λ (r : gmap pystr pystr * bool) (m : gmap pystr pystr),
    r.1 = filter writable m ∪ d ∧ r.2 = u || negb (bool_decide (r.1 = d))).
  change (P (map_fold put_entry (d, u) new) new).
  apply (map_fold_weak_ind P); unfold P; clear P.
  - simpl. rewrite map_filter_empty, (left_id_L ∅ (∪)).
    split; [done|]. rewrite bool_decide_eq_true_2 by done.
    by rewrite orb_false_r.
  - intros k v m [r ur] Hk [Hr Hu]. simpl in Hr, Hu. unfold put_entry. simpl.
    assert (Hrk : r !! k = d !! k).
    { rewrite Hr. apply lookup_union_r, map_lookup_filter_None. by left. }
    destruct (truthy k) eqn:Htk, (truthy v) eqn:Htv; simpl.
    2-4: rewrite map_filter_insert_False
           by (intros [??]; simpl in *; congruence).
    2-4: by rewrite delete_id.
    rewrite map_filter_insert_True by done.
    destruct (decide (r !! k = Some v)) as [Hkv|Hkv].
    + rewrite (bool_decide_eq_true_2 (r !! k = Some v)) by done. simpl.
      rewrite <- insert_union_l, <- Hr, insert_id by done. done.
    + rewrite (bool_decide_eq_false_2 (r !! k = Some v)) by done. simpl.
      rewrite <- insert_union_l, <- Hr. split; [done|].
      rewrite bool_decide_eq_false_2, orb_true_r; [done|].
      intros Heq. apply Hkv. rewrite Hrk, <- Heq. apply lookup_insert_eq.
Qed.

Lemma put_entries_flag (new d : gmap pystr pystr) (u : bool) :
  put_entries (d, u) new
  = ((put_entries (d, false) new).1, u || (put_entries (d, false) new).2).
Proof.
  destruct (put_entries_char new d u) as [H1 H2].
  destruct (put_entries_char new d false) as [H1' H2'].
  destruct (put_entries (d, u) new) as [r ur].
  destruct (put_entries (d, false) new) as [r' ur'].
  simpl in *. subst r r'. by rewrite H2, H2'.
Qed.

Lemma put_entries_changed (new d : gmap pystr pystr) :
  (put_entries (d, false) new).2 = true ↔ (put_entries (d, false) new).1 ≠ d.
Proof.
  destruct (put_entries_char new d false) as [_ ->]. simpl.
  rewrite negb_true_iff, bool_decide_eq_false. done.
Qed.

Lemma put_entries_idem (new d : gmap pystr pystr) (u u' : bool) :
  put_entries ((put_entries (d, u) new).1, u') new
  = ((put_entries (d, u) new).1, u').
Proof.
  destruct (put_entries_char new d u) as [H1 _].
  destruct (put_entries_char new (put_entries (d, u) new).1 u') as [H1' H2'].
  destruct (put_entries ((put_entries (d, u) new).1, u') new) as [r ur].
  simpl in *.
  assert (r = (put_entries (d, u) new).1) as ->.
  { rewrite H1', H1, (assoc_L (∪)), (idemp_L (∪)). done. }
  f_equal. rewrite H2', bool_decide_eq_true_2 by done. by rewrite orb_false_r.
Qed.

(** ** The merge as a whole *)

Lemma merge_fields_unfold (p : UserProfile) (e : ExtractionResult) :
  let n := truthy_opt (ex_name e) && negb (truthy_opt (name p)) in
  let t := add_items (personality_traits p, false) (ex_personality_traits e) in
  let pr := put_entries (preferences p, false) (ex_preferences e) in
  let g := add_items (goals p, false) (ex_goals e) in
  let d := put_entries (important_dates p, false) (ex_important_dates e) in
  let f := add_items (facts p, false) (ex_facts e) in
  merge_fields p e =
  ({| name := if n then ex_name e else name p;
      personality_traits := t.1;
      preferences := pr.1;
      goals := g.1;
      important_dates := d.1;
      facts := f.1;
      conversation_count := conversation_count p;
      last_updated := last_updated p;
      created_at := created_at p |},
   n || t.2 || pr.2 || g.2 || d.2 || f.2).
Proof.
  intros n t pr g d f. unfold merge_fields.
  set (nu := if truthy_opt (ex_name e) then _ else _).
  assert (nu = (if n then ex_name e else name p, n)) as ->.
  { unfold nu, n. by destruct (truthy_opt (ex_name e)), (truthy_opt (name p)). }
  rewrite (add_items_flag (ex_personality_traits e)). fold t.
  rewrite (put_entries_flag (ex_preferences e)). fold pr.
  rewrite (add_items_flag (ex_goals e)). fold g.
  rewrite (put_entries_flag (ex_important_dates e)). fold d.
  rewrite (add_items_flag (ex_facts e)). fold f.
  done.
Qed.

Lemma merge_fields_idem (p : UserProfile) (e : ExtractionResult) :
  merge_fields (merge_fields p e).1 e = ((merge_fields p e).1, false).
Proof.
  rewrite (merge_fields_unfold p e). cbv zeta. simpl fst.
  rewrite merge_fields_unfold. cbv zeta. simpl.
  rewrite !add_items_idem, !put_entries_idem. simpl.
  assert (truthy_opt (ex_name e) &&
          negb (truthy_opt
                  (if truthy_opt (ex_name e) && negb (truthy_opt (name p))
                   then ex_name e else name p)) = false) as ->.
  { by destruct (truthy_opt (ex_name e)) eqn:He, (truthy_opt (name p)) eqn:Hp;
      simpl; rewrite ?He, ?Hp. }
  done.
Qed.

Lemma merge_fields_set_last_updated now (p : UserProfile) (e : ExtractionResult) :
  merge_fields (set_last_updated now p) e
  = (set_last_updated now (merge_fields p e).1, (merge_fields p e).2).
Proof. by rewrite !merge_fields_unfold. Qed.

Lemma merge_fields_changed (p : UserProfile) (e : ExtractionResult) :
  (merge_fields p e).2 = true ↔ ¬ same_fields p (merge_fields p e).1.
Proof.
  rewrite merge_fields_unfold. cbv zeta. simpl. unfold same_fields. simpl.
  pose proof (add_items_changed (ex_personality_traits e) (personality_traits p)) as Ht.
  pose proof (add_items_changed (ex_goals e) (goals p)) as Hg.
  pose proof (add_items_changed (ex_facts e) (facts p)) as Hf.
  pose proof (put_entries_changed (ex_preferences e) (preferences p)) as Hpr.
  pose proof (put_entries_changed (ex_important_dates e) (important_dates p)) as Hd.
  set (n := truthy_opt (ex_name e) && negb (truthy_opt (name p))).
  assert (Hn : n = true ↔ name p ≠ (if n then ex_name e else name p)).
  { unfold n. destruct (truthy_opt (ex_name e)) eqn:He,
      (truthy_opt (name p)) eqn:Hp; simpl; split; try done.
    intros _ Heq. congruence. }
  rewrite !orb_true_iff, Hn, Ht, Hg, Hf, Hpr, Hd. clear.
  split.
  - intros [[[[[H|H]|H]|H]|H]|H] (? & ? & ? & ? & ? & ?); congruence.
  - intros H.
    destruct (decide (name p = (if n then ex_name e else name p))); [|tauto].
    destruct (decide ((add_items (personality_traits p, false)
      (ex_personality_traits e)).1 = personality_traits p)); [|tauto].
    destruct (decide ((put_entries (preferences p, false)
      (ex_preferences e)).1 = preferences p)); [|tauto].
    destruct (decide ((add_items (goals p, false) (ex_goals e)).1 = goals p));
      [|tauto].
    destruct (decide ((put_entries (important_dates p, false)
      (ex_important_dates e)).1 = important_dates p)); [|tauto].
    destruct (decide ((add_items (facts p, false) (ex_facts e)).1 = facts p));
      [|tauto].
    destruct H. repeat split; congruence.
Qed.

Lemma merge_fields_meta (p : UserProfile) (e : ExtractionResult) :
  conversation_count (merge_fields p e).1 = conversation_count p
  ∧ last_updated (merge_fields p e).1 = last_updated p
  ∧ created_at (merge_fields p e).1 = created_at p.
Proof. by rewrite merge_fields_unfold. Qed.

Lemma same_fields_eq (p q : UserProfile) :
  same_fields p q → conversation_count p = conversation_count q →
  last_updated p = last_updated q → created_at p = created_at q → p = q.
Proof.
  destruct p, q. unfold same_fields. simpl.
  intros (-> & -> & -> & -> & -> & ->) -> -> ->. done.
Qed.

Lemma merge_fields_inv (p : UserProfile) (e : ExtractionResult) :
  profile_inv p → profile_inv (merge_fields p e).1.
Proof.
  intros (Ht & Hg & Hf & _ & _). rewrite merge_fields_unfold. cbv zeta.
  unfold profile_inv. simpl.
  split; [by apply add_items_NoDup|].
  split; [by apply add_items_NoDup|].
  split; [by apply add_items_NoDup|].
  split; apply NoDup_fst_map_to_list.
Qed.

(** ** Claims about the update cadence *)

(** C1 (as stated, refuted): the claim lists 65 among the counts at which
    an update is due; at 65 the schedule is in its last stage and
    65 mod 15 = 5, so no update is due. *)
Lemma should_update_profile_65_false :
  should_update_profile (with_count 65 (fresh_manager t0)) = false.
Proof. reflexivity. Qed.

(** C1 (amended): [should_update_profile] follows the piecewise modulo
    schedule (count <= 0 never; 1-20 when count mod 5 = 0; 21-50 when
    count mod 10 = 0; above 50 when count mod 15 = 0); it is true at every
    count in 5, 10, 15, 20, 30, 40, 50 and false at every count in
    1, 2, 3, 4, 21, 55, 65, 80. *)
Theorem should_update_profile_cadence :
  (∀ pm, should_update_profile pm
         = spec_schedule (conversation_count (profile pm)))
  ∧ (∀ pm, Forall (λ c, should_update_profile (with_count c pm) = true)
             [5; 10; 15; 20; 30; 40; 50])
  ∧ (∀ pm, Forall (λ c, should_update_profile (with_count c pm) = false)
             [1; 2; 3; 4; 21; 55; 65; 80]).
Proof.
  split; [apply should_update_profile_schedule|].
  split; intros pm; repeat constructor.
Qed.

(** ** Claims about the merge *)

(** C2 (as stated, refuted): merging a name and a goal into a new profile
    changes the profile, yet the value returned is [None], not [True]. *)
Lemma update_profile_from_ai_returns_none :
  ¬ same_fields (profile (fresh_manager t0)) (profile alex_manager)
  ∧ (update_profile_from_ai IoOk t1 (fresh_manager t0) alex_extraction).2
    ≠ PyBool true.
Proof.
  split; [|by vm_compute].
  intros (H & _). vm_compute in H. discriminate H.
Qed.

(** C2 (amended): [update_profile_from_ai] returns no value ([None]). Its
    local flag [updated] is true exactly when some profile field changed.
    When the flag is true [save_profile] is called, which, when its file
    operations succeed, refreshes [last_updated] and writes the merged
    profile to the profile file at once; when the flag is false the
    manager, its [last_updated] and the profile file are left as they
    were. *)
Theorem update_profile_from_ai_contract
    (io : io_outcome) (now : pystr) (pm : ProfileManager) (e : ExtractionResult) :
  let merged := (merge_fields (profile pm) e).1 in
  let updated := (merge_fields (profile pm) e).2 in
  let pm' := (update_profile_from_ai io now pm e).1 in
  (update_profile_from_ai io now pm e).2 = PyNone
  ∧ (updated = true ↔ ¬ same_fields (profile pm) merged)
  ∧ same_fields merged (profile pm')
  ∧ (updated = true → io = IoOk →
       last_updated (profile pm') = now
       ∧ profile_file pm' = Stored (profile pm'))
  ∧ (updated = false → pm' = pm).
Proof.
  intros merged updated pm'.
  pose proof (merge_fields_changed (profile pm) e) as Hch.
  pose proof (merge_fields_meta (profile pm) e) as (Hc & Hl & Hcr).
  fold merged updated in Hch. fold merged in Hc, Hl, Hcr.
  unfold pm', update_profile_from_ai.
  destruct (merge_fields (profile pm) e) as [p' u] eqn:Hm.
  simpl in merged, updated. subst merged updated.
  destruct u.
  - split; [done|]. split; [done|]. split.
    { by destruct io. }
    split; [|done]. by intros _ ->.
  - split; [done|]. split; [done|]. split; [done|]. split; [done|].
    intros _. simpl. destruct pm as [p f]. simpl in *. f_equal.
    symmetry. apply same_fields_eq; try done.
    destruct (decide (same_fields p p')) as [|Hn]; [done|].
    apply Hch in Hn. done.
Qed.

(** The contract at a concrete merge that changes the profile and whose
    write succeeds. *)
Lemma update_profile_from_ai_contract_witness :
  last_updated (profile alex_manager) = t1
  ∧ profile_file alex_manager = Stored (profile alex_manager).
Proof.
  destruct (update_profile_from_ai_contract IoOk t1 (fresh_manager t0)
              alex_extraction) as (_ & _ & _ & H & _).
  apply H; reflexivity.
Defined.

Lemma update_profile_from_ai_profile
    (io : io_outcome) (now : pystr) (pm : ProfileManager) (e : ExtractionResult) :
  profile (update_profile_from_ai io now pm e).1 = (merge_fields (profile pm) e).1
  ∨ profile (update_profile_from_ai io now pm e).1
    = set_last_updated now (merge_fields (profile pm) e).1.
Proof.
  unfold update_profile_from_ai.
  destruct (merge_fields (profile pm) e) as [p' [|]]; simpl; [|by left].
  destruct io; simpl; auto.
Qed.

(** C5: the merge is idempotent. Applying the same extraction a second
    time, right after the first, leaves name, personality_traits,
    preferences, goals, important_dates and facts as the first application
    left them; the second application sets no [updated] flag and leaves
    the whole manager state untouched. *)
Theorem update_profile_from_ai_idempotent
    (io1 io2 : io_outcome) (now1 now2 : pystr)
    (pm : ProfileManager) (e : ExtractionResult) :
  let pm1 := (update_profile_from_ai io1 now1 pm e).1 in
  let pm2 := (update_profile_from_ai io2 now2 pm1 e).1 in
  same_fields (profile pm1) (profile pm2)
  ∧ (merge_fields (profile pm1) e).2 = false
  ∧ pm2 = pm1.
Proof.
  intros pm1 pm2.
  assert (Hm : merge_fields (profile pm1) e = (profile pm1, false)).
  { destruct (update_profile_from_ai_profile io1 now1 pm e) as [H|H];
      fold pm1 in H; rewrite H.
    - apply merge_fields_idem.
    - rewrite merge_fields_set_last_updated, merge_fields_idem. done. }
  assert (H2 : pm2 = pm1).
  { unfold pm2, update_profile_from_ai. rewrite Hm. simpl. by destruct pm1. }
  rewrite H2, Hm. by repeat split.
Qed.

(** The end-to-end scenario of the specification: a new profile merged
    with [{"name": "Alex", "goals": ["learn guitar"]}] has that name and
    that single goal, and merging the same extraction again leaves the
    goals as they are. *)
Lemma alex_scenario :
  name (profile alex_manager) = Some (lit "Alex")
  ∧ goals (profile alex_manager) = [lit "learn guitar"]
  ∧ goals (profile (update_profile_from_ai IoOk t2 alex_manager
                      alex_extraction).1) = [lit "learn guitar"].
Proof. by vm_compute. Qed.

Lemma profile_inv_set_last_updated now (p : UserProfile) :
  profile_inv p → profile_inv (set_last_updated now p).
Proof. done. Qed.

(** C8: the merge preserves the duplicate-free invariant. If
    personality_traits, goals and facts of a profile hold no entry twice
    and the keys of preferences and important_dates are unique, the same
    is true of the profile after [update_profile_from_ai], for every
    extraction. *)
Theorem update_profile_from_ai_preserves_inv
    (io : io_outcome) (now : pystr) (pm : ProfileManager) (e : ExtractionResult) :
  profile_inv (profile pm) →
  profile_inv (profile (update_profile_from_ai io now pm e).1).
Proof.
  intros Hinv.
  destruct (update_profile_from_ai_profile io now pm e) as [-> | ->].
  - by apply merge_fields_inv.
  - by apply profile_inv_set_last_updated, merge_fields_inv.
Qed.

(** The invariant is kept when a richer extraction is merged into a
    profile that already holds a name and a goal. *)
Lemma update_profile_from_ai_preserves_inv_witness :
  profile_inv (profile alex_manager)
  ∧ profile_inv
      (profile (update_profile_from_ai IoOk t2 alex_manager rich_extraction).1).
Proof.
  split; [decide_profile_inv|].
  apply (update_profile_from_ai_preserves_inv IoOk t2 alex_manager rich_extraction).
  decide_profile_inv.
Defined.

(** ** History window *)

Section HistoryFacts.

Context (lower : pystr → pystr).

Lemma slice_last_last_turns (n : nat) (history : list Turn) :
  slice_last n history = last_turns n history.
Proof.
  unfold slice_last, last_turns.
  by rewrite firstn_rev, rev_involutive.
Qed.

Lemma guarded_slice_last_turns (n : nat) (history : list Turn) :
  (if (n <? length history)%nat then slice_last n history else history)
  = last_turns n history.
Proof.
  rewrite <- slice_last_last_turns.
  destruct (Nat.ltb_spec n (length history)); [done|].
  unfold slice_last. by replace (length history - n)%nat with 0%nat by lia.
Qed.

Lemma last_turns_short (n : nat) (history : list Turn) :
  (length history ≤ n)%nat → last_turns n history = history.
Proof.
  intros Hn. rewrite <- slice_last_last_turns. unfold slice_last.
  by replace (length history - n)%nat with 0%nat by lia.
Qed.

Lemma last_turns_length (n : nat) (history : list Turn) :
  (length (last_turns n history) ≤ n)%nat.
Proof.
  unfold last_turns. rewrite length_rev, length_take. lia.
Qed.

Lemma get_relevant_history_spec (history : list Turn) (msg : pystr) :
  get_relevant_history lower history msg = spec_select lower history msg.
Proof.
  unfold get_relevant_history, spec_select.
  by rewrite !guarded_slice_last_turns.
Qed.

Lemma _get_relevant_history_spec (history : list Turn) (msg : pystr) :
  _get_relevant_history lower history msg = spec_select lower history msg.
Proof.
  unfold _get_relevant_history, spec_select.
  by rewrite !slice_last_last_turns.
Qed.

(** C3: history selection returns the last 3 turns (the whole history if
    it is shorter) when the message is a greeting, or is short (fewer than
    10 words) and holds no question mark; else the last 8 turns when the
    message has fewer than 30 words; else the last 15 turns. A history of
    at most 3 turns is returned whole and unchanged. *)
Theorem get_relevant_history_selects (history : list Turn) (msg : pystr) :
  get_relevant_history lower history msg = spec_select lower history msg
  ∧ ((length history ≤ 3)%nat → get_relevant_history lower history msg = history).
Proof.
  split; [apply get_relevant_history_spec|].
  intros Hlen. rewrite get_relevant_history_spec. unfold spec_select.
  repeat case_match; apply last_turns_short; lia.
Qed.

Lemma is_greeting_substring (msg : pystr) :
  is_greeting lower msg = true
  ↔ ∃ w, w ∈ greeting_words ∧ contains w (lower msg) = true.
Proof.
  unfold is_greeting. rewrite existsb_exists.
  by setoid_rewrite list_elem_of_In.
Qed.

(** C10: a message whose lowercased text contains one of the greeting
    words anywhere as a substring is classified as a greeting, and both
    history selectors return the last 3 turns (so at most 3), whatever the
    message's word count and whether or not it holds a question mark. *)
Theorem greeting_by_substring (history : list Turn) (msg w : pystr) :
  w ∈ greeting_words → contains w (lower msg) = true →
  is_greeting lower msg = true
  ∧ get_relevant_history lower history msg = last_turns 3 history
  ∧ _get_relevant_history lower history msg = last_turns 3 history
  ∧ (length (get_relevant_history lower history msg) ≤ 3)%nat.
Proof.
  intros Hw Hc.
  assert (Hg : is_greeting lower msg = true).
  { apply is_greeting_substring. eauto. }
  rewrite get_relevant_history_spec, _get_relevant_history_spec.
  unfold spec_select. rewrite Hg. simpl.
  repeat split; try done. apply last_turns_length.
Qed.

End HistoryFacts.

(** A history of two turns is handed back whole. *)
Lemma get_relevant_history_selects_witness :
  get_relevant_history ascii_lower (sample_history 2) long_question
  = sample_history 2.
Proof.
  apply (get_relevant_history_selects ascii_lower (sample_history 2) long_question).
  vm_compute. lia.
Defined.

(** The long question has 30 words and a question mark, and is a greeting
    only because `this' contains `hi': of 20 turns, 3 are kept. *)
Lemma greeting_by_substring_witness :
  (word_count long_question = 30)%nat
  ∧ is_question long_question = true
  ∧ contains (lit "hi") (lit "this") = true
  ∧ get_relevant_history ascii_lower (sample_history 20) long_question
    = last_turns 3 (sample_history 20).
Proof.
  split; [reflexivity|]. split; [reflexivity|]. split; [reflexivity|].
  apply (greeting_by_substring ascii_lower (sample_history 20) long_question
           (lit "hi")).
  - apply (bool_decide_unpack _). vm_compute. exact I.
  - vm_compute. reflexivity.
Defined.

(** ** Prompt assembly *)

Lemma startswith_label_mismatch (label z m : pystr) :
  mismatch label m = true → startswith (label ++ z) m = false.
Proof.
  revert m. induction label as [|a label IH]; intros [|b m]; simpl; try done.
  destruct (N.eqb_spec a b) as [->|Hne]; simpl.
  - rewrite N.eqb_refl. simpl. apply IH.
  - intros _. destruct (N.eqb_spec b a) as [->|]; [done|]. done.
Qed.

Lemma label_plain (label z : pystr) :
  mismatch label critical_marker = true →
  mismatch label guidelines_head = true →
  plain (label ++ z).
Proof.
  intros H1 H2. split; by apply startswith_label_mismatch.
Qed.

Lemma labeled_plain (label v : pystr) :
  mismatch label critical_marker = true →
  mismatch label guidelines_head = true →
  Forall plain (labeled label v).
Proof.
  intros H1 H2. unfold labeled. destruct (truthy v); [|constructor].
  repeat constructor; by apply startswith_label_mismatch.
Qed.

Lemma character_parts_plain (c : CharacterConfig) :
  Forall plain (character_parts c).
Proof.
  unfold character_parts. rewrite !Forall_app.
  repeat split; by apply labeled_plain.
Qed.

Lemma fallback_parts_plain (cm : ConfigManager) (parts : list pystr) :
  Forall plain (fallback_parts cm parts).
Proof.
  unfold fallback_parts. destruct (negb _); [|constructor].
  destruct (truthy_opt _); repeat constructor.
Qed.

Lemma join_cons_app (sep p : pystr) (ps : list pystr) :
  ∃ t, join sep (p :: ps) = p ++ t.
Proof.
  destruct ps as [|q ps]; simpl.
  - exists []. by rewrite app_nil_r.
  - by eexists.
Qed.

Lemma join_label_plain (sep label z : pystr) (ps : list pystr) :
  mismatch label critical_marker = true →
  mismatch label guidelines_head = true →
  plain (join sep ((label ++ z) :: ps)).
Proof.
  intros H1 H2. destruct (join_cons_app sep (label ++ z) ps) as [t ->].
  rewrite <- app_assoc. by apply label_plain.
Qed.

Lemma profile_parts_plain (with_facts : bool) (pm : option ProfileManager) :
  Forall plain (profile_parts with_facts pm).
Proof.
  destruct pm as [pm|]; [|constructor]. unfold profile_parts.
  destruct (truthy_opt (name (profile pm))),
    (nonempty (personality_traits (profile pm))),
    (nonempty (goals (profile pm))),
    (with_facts && nonempty (facts (profile pm))); simpl;
    repeat constructor; by apply join_label_plain || by apply label_plain.
Qed.

Lemma memory_text_plain (conv : Hit) : plain (memory_text conv).
Proof. unfold memory_text. by apply label_plain. Qed.

Lemma guidelines_block_is (max_tokens : Z) :
  is_guidelines (guidelines_block max_tokens) = true
  ∧ is_critical (guidelines_block max_tokens) = false.
Proof.
  unfold guidelines_block.
  by destruct (max_tokens <=? 100), (max_tokens <=? 200).
Qed.

Lemma count_parts_app (f : pystr → bool) (l1 l2 : list pystr) :
  count_parts f (l1 ++ l2) = (count_parts f l1 + count_parts f l2)%nat.
Proof. unfold count_parts. by rewrite List.filter_app, length_app. Qed.

Lemma count_parts_plain (l : list pystr) :
  Forall plain l → count_parts is_critical l = 0%nat
                   ∧ count_parts is_guidelines l = 0%nat.
Proof.
  unfold count_parts.
  induction 1 as [|p l [Hc Hg] _ [IH1 IH2]]; [done|]. simpl.
  by rewrite Hc, Hg.
Qed.

Lemma critical_parts_count (c : CharacterConfig) :
  count_parts is_critical (critical_parts c).1
  = ((if truthy (cfg_output_example c) then 1 else 0)
     + (if truthy (cfg_notes c) then 1 else 0))%nat
  ∧ count_parts is_guidelines (critical_parts c).1 = 0%nat
  ∧ (critical_parts c).2 = truthy (cfg_output_example c) || truthy (cfg_notes c).
Proof.
  unfold critical_parts.
  by destruct (truthy (cfg_output_example c)), (truthy (cfg_notes c)).
Qed.

Section PromptFacts.

Context (search : list MemoryEntry → pystr → nat → list Hit).

Lemma memory_parts_plain (threshold : Q) (inst : Instance) (include_rag : bool) :
  Forall plain (memory_parts search threshold inst include_rag).
Proof.
  unfold memory_parts. repeat case_match; repeat constructor;
    apply memory_text_plain.
Qed.

(** How many directive sections and guidelines blocks a prompt holds. *)
Lemma build_parts_counts (threshold : Q) (with_facts : bool)
    (inst : Instance) (include_rag : bool) :
  let c := load_character_config (config_manager inst) in
  let parts := build_parts search threshold with_facts inst include_rag in
  count_parts is_critical parts
  = ((if truthy (cfg_output_example c) then 1 else 0)
     + (if truthy (cfg_notes c) then 1 else 0))%nat
  ∧ count_parts is_guidelines parts
    = (if truthy (cfg_output_example c) || truthy (cfg_notes c) then 0 else 1)%nat.
Proof.
  intros c parts. unfold parts, build_parts. fold c.
  destruct (critical_parts_count c) as (Hc & Hg & Hf).
  destruct (critical_parts c) as [cp flag]. simpl in Hc, Hg, Hf. subst flag.
  rewrite !count_parts_app, Hc, Hg.
  destruct (count_parts_plain _ (character_parts_plain c)) as [-> ->].
  destruct (count_parts_plain _
    (fallback_parts_plain (config_manager inst) (cp ++ character_parts c)))
    as [-> ->].
  destruct (count_parts_plain _
    (profile_parts_plain with_facts (profile_manager inst))) as [-> ->].
  destruct (count_parts_plain _
    (memory_parts_plain threshold inst include_rag)) as [-> ->].
  unfold guideline_parts.
  destruct (guidelines_block_is (get_max_tokens (config_manager inst)))
    as [Hb1 Hb2].
  destruct (truthy (cfg_output_example c)), (truthy (cfg_notes c)); simpl;
    unfold count_parts; simpl; rewrite ?Hb1, ?Hb2; simpl; split; lia.
Qed.

End PromptFacts.

(** ** Occurrences of a word in the assembled text *)

Lemma contains_occurrences (w s : pystr) :
  contains w s = negb (occurrences w s =? 0)%nat.
Proof.
  induction s as [|c s IH]; cbn [contains occurrences].
  - by destruct (startswith [] w).
  - destruct (startswith (c :: s) w); simpl; [done|exact IH].
Qed.

Lemma contains_false_occurrences (w s : pystr) :
  contains w s = false ↔ occurrences w s = 0%nat.
Proof.
  rewrite contains_occurrences, negb_false_iff. apply Nat.eqb_eq.
Qed.

Lemma startswith_sep (a b w : pystr) (c : N) :
  c ∉ w → startswith (a ++ c :: b) w = startswith a w.
Proof.
  revert w. induction a as [|y a IH]; intros [|x w] Hc; simpl; try done.
  - destruct (N.eqb_spec x c) as [->|]; [|done].
    exfalso. apply Hc. by left.
  - rewrite IH; [done|]. intros ?. apply Hc. by right.
Qed.

Lemma occurrences_nil (w : pystr) : truthy w = true → occurrences w [] = 0%nat.
Proof. by destruct w. Qed.

Lemma occurrences_sep (a b w : pystr) (c : N) :
  truthy w = true → c ∉ w →
  occurrences w (a ++ c :: b)
  = (occurrences w a + occurrences w (c :: b))%nat.
Proof.
  intros Hw Hc. remember (occurrences w (c :: b)) as r eqn:Hr.
  induction a as [|y a IH].
  - by rewrite (occurrences_nil w Hw), Hr.
  - change (occurrences w ((y :: a) ++ c :: b))
      with ((if startswith ((y :: a) ++ c :: b) w then 1 else 0)
            + occurrences w (a ++ c :: b))%nat.
    change (occurrences w (y :: a))
      with ((if startswith (y :: a) w then 1 else 0) + occurrences w a)%nat.
    rewrite IH, (startswith_sep (y :: a) b w c Hc). lia.
Qed.

Lemma occurrences_before (w t v : pystr) :
  starts_outside w v = true →
  occurrences w (t ++ v) = (occurrences w t + occurrences w v)%nat.
Proof.
  unfold starts_outside. intros [Hw Hv]%andb_true_iff.
  destruct v as [|c v]; [done|].
  apply occurrences_sep; [done|].
  by apply negb_true_iff, bool_decide_eq_false in Hv.
Qed.

Lemma occurrences_label (w label v : pystr) :
  ends_outside w label = true →
  occurrences w (label ++ v)
  = (occurrences w label + occurrences w v)%nat.
Proof.
  unfold ends_outside. intros [Hw Hl]%andb_true_iff.
  destruct (last label) as [c|] eqn:Hlast; [|done].
  apply negb_true_iff, bool_decide_eq_false in Hl.
  apply last_Some in Hlast as [l' ->].
  rewrite <- app_assoc. simpl.
  rewrite !(occurrences_sep l' _ w c Hw Hl).
  assert (Hhead : ∀ x, occurrences w (c :: x) = occurrences w x).
  { intros x. cbn [occurrences]. destruct w as [|a w]; [done|]. simpl.
    destruct (N.eqb_spec a c) as [->|]; [|done].
    exfalso. apply Hl. by left. }
  rewrite !Hhead, (occurrences_nil w Hw). lia.
Qed.

Lemma occurrences_app_le (w a b : pystr) :
  (occurrences w a ≤ occurrences w (a ++ b))%nat.
Proof.
  assert (Hs : ∀ a, startswith a w = true → startswith (a ++ b) w = true).
  { clear a. intros a. revert w. induction a as [|y a IH]; intros [|x w];
      simpl; try done.
    - by destruct b.
    - intros [-> ?]%andb_true_iff. simpl. by apply IH. }
  induction a as [|y a IH].
  - destruct w as [|x w]; [destruct b; simpl; lia|simpl; lia].
  - change (occurrences w ((y :: a) ++ b))
      with ((if startswith ((y :: a) ++ b) w then 1 else 0)
            + occurrences w (a ++ b))%nat.
    change (occurrences w (y :: a))
      with ((if startswith (y :: a) w then 1 else 0) + occurrences w a)%nat.
    destruct (startswith (y :: a) w) eqn:H1.
    + rewrite (Hs _ H1). lia.
    + destruct (startswith _ w); lia.
Qed.

Lemma occurrences_take (w t : pystr) (n : nat) :
  occurrences w t = 0%nat → occurrences w (take n t) = 0%nat.
Proof.
  intros H. pose proof (occurrences_app_le w (take n t) (drop n t)) as Hle.
  rewrite take_drop in Hle. lia.
Qed.

Lemma occurrences_join (w sep : pystr) (parts : list pystr) :
  starts_outside w sep = true → ends_outside w sep = true →
  occurrences w sep = 0%nat →
  occurrences w (join sep parts) = sum_list_with (occurrences w) parts.
Proof.
  intros Hs He H0.
  assert (Hw : truthy w = true) by by apply andb_true_iff in Hs as [? _].
  induction parts as [|p ps IH]; [by apply occurrences_nil|].
  destruct ps as [|q ps]; [simpl; lia|].
  change (join sep (p :: q :: ps)) with (p ++ sep ++ join sep (q :: ps)).
  rewrite occurrences_before.
  - rewrite (occurrences_label w sep _ He), H0, IH. simpl. lia.
  - unfold starts_outside in *.
    destruct sep; [by rewrite andb_false_r in Hs|exact Hs].
Qed.

Lemma sum_list_with_count (w : pystr) (f : pystr → bool) (parts : list pystr) :
  Forall (λ part, occurrences w part = if f part then 1%nat else 0%nat) parts →
  sum_list_with (occurrences w) parts = count_parts f parts.
Proof.
  unfold count_parts. induction 1 as [|p ps Hp _ IH]; [done|]. simpl.
  rewrite Hp, IH. by destruct (f p).
Qed.

Lemma sum_list_with_zero (w : pystr) (parts : list pystr) :
  Forall (λ part, occurrences w part = 0%nat) parts →
  sum_list_with (occurrences w) parts = 0%nat.
Proof. induction 1 as [|p ps Hp _ IH]; [done|]. simpl. lia. Qed.

Lemma marker_free_occurrences (t : pystr) :
  marker_free t ↔ occurrences (lit "CRITICAL") t = 0%nat
                  ∧ occurrences guidelines_head t = 0%nat.
Proof. unfold marker_free. by rewrite !contains_false_occurrences. Qed.

Lemma inert_label_marker_free (label : pystr) :
  inert_label label = true → marker_free label.
Proof.
  unfold inert_label, marker_free.
  intros [[_ H1%negb_true_iff]%andb_true_iff H2%negb_true_iff]%andb_true_iff.
  done.
Qed.

Lemma marker_free_label (label v : pystr) :
  inert_label label = true → marker_free v → marker_free (label ++ v).
Proof.
  intros Hl. pose proof (inert_label_marker_free label Hl) as Hf.
  unfold inert_label in Hl.
  apply andb_true_iff in Hl as [[[H1 H2]%andb_true_iff _]%andb_true_iff _].
  revert Hf. rewrite !marker_free_occurrences. intros [Hl1 Hl2] [Hv1 Hv2].
  rewrite !occurrences_label by done. lia.
Qed.

Lemma marker_free_before (t v : pystr) :
  inert_tail v = true →
  marker_free t → marker_free v → marker_free (t ++ v).
Proof.
  unfold inert_tail. intros [H1 H2]%andb_true_iff.
  rewrite !marker_free_occurrences. intros [Hl1 Hl2] [Hv1 Hv2].
  rewrite !occurrences_before by done. lia.
Qed.

Lemma marker_free_take (n : nat) (t : pystr) :
  marker_free t → marker_free (take n t).
Proof.
  rewrite !marker_free_occurrences. intros [H1 H2].
  split; by apply occurrences_take.
Qed.

Lemma marker_free_join (sep : pystr) (parts : list pystr) :
  inert_label sep = true → inert_tail sep = true →
  Forall marker_free parts → marker_free (join sep parts).
Proof.
  intros Hl Ht Hall.
  pose proof (inert_label_marker_free sep Hl) as [H1 H2]%marker_free_occurrences.
  unfold inert_label in Hl. unfold inert_tail in Ht.
  apply andb_true_iff in Hl as [[[He1 He2]%andb_true_iff _]%andb_true_iff _].
  apply andb_true_iff in Ht as [Hs1 Hs2].
  apply marker_free_occurrences.
  rewrite !occurrences_join by done.
  split; apply sum_list_with_zero; eapply Forall_impl; try exact Hall;
    by intros t [? ?]%marker_free_occurrences.
Qed.

Lemma labeled_marker_free (label v : pystr) :
  inert_label label = true → marker_free v →
  Forall marker_free (labeled label v).
Proof.
  intros. unfold labeled. destruct (truthy v); [|constructor].
  apply Forall_singleton. by apply marker_free_label.
Qed.

Lemma character_parts_marker_free (c : CharacterConfig) :
  Forall marker_free (config_texts c) →
  Forall marker_free (character_parts c).
Proof.
  unfold config_texts. rewrite !Forall_cons.
  intros (_ & _ & Hp & Hb & Ht & Hpr & Hwb & Hws & _).
  unfold character_parts. rewrite !Forall_app.
  repeat split; by apply labeled_marker_free; [vm_compute|].
Qed.

Lemma fallback_parts_marker_free (cm : ConfigManager) (parts : list pystr) :
  marker_free (default [] (load_personality cm)) →
  Forall marker_free (fallback_parts cm parts).
Proof.
  intros Hp. unfold fallback_parts. destruct (negb _); [|constructor].
  destruct (truthy_opt _); apply Forall_singleton.
  - by apply marker_free_label; [vm_compute|].
  - apply inert_label_marker_free. by vm_compute.
Qed.

Lemma summary_item_marker_free (label : pystr) (n : nat) (items : list pystr) :
  inert_label label = true → Forall marker_free items →
  marker_free (label ++ join (lit ", ") (take n items)).
Proof.
  intros Hl Hall. apply marker_free_label; [done|].
  apply marker_free_join; [by vm_compute|by vm_compute|].
  by apply Forall_take.
Qed.

Lemma profile_parts_marker_free (with_facts : bool)
    (pm : option ProfileManager) :
  Forall marker_free (profile_texts pm) →
  Forall marker_free (profile_parts with_facts pm).
Proof.
  destruct pm as [pm|]; [|constructor]. unfold profile_texts, profile_parts.
  rewrite Forall_cons, !Forall_app. intros (Hn & Ht & Hg & Hf).
  match goal with |- context [nonempty ?l] =>
    destruct (nonempty l); [|constructor] end.
  apply Forall_singleton.
  apply marker_free_join; [by vm_compute|by vm_compute|].
  rewrite !Forall_app. repeat split.
  - destruct (truthy_opt _); [|constructor]. apply Forall_singleton.
    by apply marker_free_label; [vm_compute|].
  - destruct (nonempty (personality_traits _)); [|constructor].
    apply Forall_singleton. by apply summary_item_marker_free; [vm_compute|].
  - destruct (nonempty (goals _)); [|constructor].
    apply Forall_singleton. by apply summary_item_marker_free; [vm_compute|].
  - destruct (with_facts && _); [|constructor].
    apply Forall_singleton. by apply summary_item_marker_free; [vm_compute|].
Qed.

Lemma memory_text_marker_free (conv : Hit) :
  marker_free (user_message conv) → marker_free (ai_response conv) →
  marker_free (memory_text conv).
Proof.
  intros Hu Ha.
  replace (memory_text conv)
    with ((lit "Relevant memory:" ++ nl ++ lit "U: ")
          ++ take 100 (user_message conv)
          ++ (lit "..." ++ nl ++ lit "A: ")
          ++ take 100 (ai_response conv) ++ lit "...")
    by (unfold memory_text; by rewrite <- !app_assoc).
  apply marker_free_label; [by vm_compute|].
  apply marker_free_before; [by vm_compute|by apply marker_free_take|].
  apply marker_free_label; [by vm_compute|].
  apply marker_free_before; [by vm_compute|by apply marker_free_take|].
  apply inert_label_marker_free. by vm_compute.
Qed.

Lemma critical_parts_occurrences (c : CharacterConfig) :
  marker_free (cfg_output_example c) → marker_free (cfg_notes c) →
  sum_list_with (occurrences (lit "CRITICAL")) (critical_parts c).1
  = ((if truthy (cfg_output_example c) then 1 else 0)
     + (if truthy (cfg_notes c) then 1 else 0))%nat
  ∧ sum_list_with (occurrences guidelines_head) (critical_parts c).1 = 0%nat.
Proof.
  intros [Ho1 Ho2]%marker_free_occurrences [Hn1 Hn2]%marker_free_occurrences.
  assert (Hhead : ∀ (w title v : pystr),
    ends_outside w (critical_marker ++ title ++ nl) = true →
    occurrences w (critical_marker ++ title ++ nl ++ v)
    = (occurrences w (critical_marker ++ title ++ nl) + occurrences w v)%nat).
  { intros w title v He.
    rewrite <- (occurrences_label w _ v He). by rewrite <- !app_assoc. }
  unfold critical_parts.
  destruct (truthy (cfg_output_example c)), (truthy (cfg_notes c)); simpl;
    rewrite ?Hhead by (by vm_compute); rewrite ?Ho1, ?Ho2, ?Hn1, ?Hn2;
    split; by vm_compute.
Qed.

Lemma guidelines_block_occurrences (max_tokens : Z) :
  occurrences (lit "CRITICAL") (guidelines_block max_tokens) = 0%nat
  ∧ occurrences guidelines_head (guidelines_block max_tokens) = 1%nat.
Proof.
  unfold guidelines_block.
  destruct (max_tokens <=? 100), (max_tokens <=? 200); split; by vm_compute.
Qed.

Lemma sum_list_with_marker_free (parts : list pystr) :
  Forall marker_free parts →
  sum_list_with (occurrences (lit "CRITICAL")) parts = 0%nat
  ∧ sum_list_with (occurrences guidelines_head) parts = 0%nat.
Proof.
  intros Hall. split; apply sum_list_with_zero; eapply Forall_impl;
    try exact Hall; by intros t [? ?]%marker_free_occurrences.
Qed.

Section PromptText.

Context (search : list MemoryEntry → pystr → nat → list Hit).

Lemma memory_parts_marker_free (threshold : Q) (inst : Instance)
    (include_rag : bool) :
  Forall marker_free (memory_texts search inst) →
  Forall marker_free (memory_parts search threshold inst include_rag).
Proof.
  unfold memory_texts, memory_parts. rewrite Forall_forall.
  destruct (vector_store inst) as [store|]; [|constructor].
  intros Hall.
  destruct (include_rag && _); [|constructor].
  destruct (truthy _); [|constructor].
  destruct (high_relevance _ _) as [|conv rest] eqn:Hh; [constructor|].
  apply Forall_singleton.
  assert (Hin : conv ∈ search store
                  (last_user_message (conversation_history inst)) 2%nat).
  { assert (conv ∈ high_relevance threshold
              (search store (last_user_message (conversation_history inst))
                 2%nat)) as Hc by (rewrite Hh; by left).
    unfold high_relevance in Hc. by apply list_elem_of_filter in Hc as [_ ?]. }
  apply memory_text_marker_free; apply Hall, list_elem_of_bind;
    exists conv; (split; [|done]); set_solver.
Qed.

(** In a prompt built from texts that hold neither word, the word
    CRITICAL occurs once for each directive section and the head of the
    guidelines block once if the block is there. *)
Lemma build_system_prompt_occurrences (threshold : Q) (with_facts : bool)
    (inst : Instance) (include_rag : bool) :
  let c := load_character_config (config_manager inst) in
  let text :=
    build_system_prompt_with search threshold with_facts inst include_rag in
  Forall marker_free (pasted_texts search inst) →
  occurrences (lit "CRITICAL") text
  = ((if truthy (cfg_output_example c) then 1 else 0)
     + (if truthy (cfg_notes c) then 1 else 0))%nat
  ∧ occurrences guidelines_head text
    = (if truthy (cfg_output_example c) || truthy (cfg_notes c)
       then 0 else 1)%nat.
Proof.
  intros c text. unfold pasted_texts. fold c.
  rewrite Forall_app, Forall_cons. intros (Hc & Hp & Hrest).
  apply Forall_app in Hrest as [Hprof Hmem].
  assert (Hoe : marker_free (cfg_output_example c)).
  { by apply Forall_cons in Hc as [? _]. }
  assert (Hno : marker_free (cfg_notes c)).
  { by apply Forall_cons in Hc as [_ [? _]%Forall_cons]. }
  unfold text, build_system_prompt_with.
  rewrite !occurrences_join by (by vm_compute).
  unfold build_parts. fold c.
  destruct (critical_parts_occurrences c Hoe Hno) as [Hc1 Hc2].
  destruct (critical_parts_count c) as (_ & _ & Hflag).
  destruct (critical_parts c) as [cp flag]. simpl in Hc1, Hc2, Hflag.
  subst flag. rewrite !sum_list_with_app, Hc1, Hc2.
  destruct (sum_list_with_marker_free _ (character_parts_marker_free c Hc))
    as [-> ->].
  destruct (sum_list_with_marker_free _
    (fallback_parts_marker_free (config_manager inst)
       (cp ++ character_parts c) Hp)) as [-> ->].
  destruct (sum_list_with_marker_free _
    (profile_parts_marker_free with_facts (profile_manager inst) Hprof))
    as [-> ->].
  destruct (sum_list_with_marker_free _
    (memory_parts_marker_free threshold inst include_rag Hmem)) as [-> ->].
  unfold guideline_parts.
  destruct (guidelines_block_occurrences (get_max_tokens (config_manager inst)))
    as [Hg1 Hg2].
  destruct (truthy (cfg_output_example c)), (truthy (cfg_notes c)); simpl;
    rewrite ?Hg1, ?Hg2; split; lia.
Qed.

End PromptText.

(** C7 (as stated, refuted): with [output_example] set and [notes] unset
    the assembled text can hold the word CRITICAL twice, and the head of
    the guidelines block as well: the builder pastes [output_example]
    into the prompt as it is, and here the example itself holds both,
    while the prompt still has a single directive section. *)
Lemma build_system_prompt_marker_in_example :
  truthy (cfg_output_example marked_config) = true
  ∧ cfg_notes marked_config = []
  ∧ occurrences (lit "CRITICAL")
      (Server.build_system_prompt sample_search marked_instance true) = 2%nat
  ∧ contains guidelines_head
      (Server.build_system_prompt sample_search marked_instance true) = true
  ∧ count_parts is_critical
      (build_parts sample_search float_0_7 false marked_instance true) = 1%nat.
Proof. repeat split; by vm_compute. Qed.

(** C7 (amended): with [output_example] set and [notes] unset, exactly one
    section of the assembled prompt opens with the CRITICAL marker and
    none is the default-guidelines block; and whenever the
    default-guidelines block is emitted, neither [output_example] nor
    [notes] is set. In the assembled text itself the same holds of the
    word CRITICAL and of the head of the guidelines block, provided that
    none of the texts pasted into the prompt (character configuration,
    simple personality, profile, retrieved memory) holds them: then the
    word occurs exactly once, the head does not occur, and the head occurs
    only when neither [output_example] nor [notes] is set. This holds for
    the prompt builders of both servers (any threshold, with or without
    facts). *)
Theorem build_system_prompt_directives
    (search : list MemoryEntry → pystr → nat → list Hit)
    (threshold : Q) (with_facts : bool) (inst : Instance) (include_rag : bool) :
  let c := load_character_config (config_manager inst) in
  let parts := build_parts search threshold with_facts inst include_rag in
  let text :=
    build_system_prompt_with search threshold with_facts inst include_rag in
  text = join (nl ++ nl) parts
  ∧ (truthy (cfg_output_example c) = true → cfg_notes c = [] →
       count_parts is_critical parts = 1%nat
       ∧ count_parts is_guidelines parts = 0%nat)
  ∧ (count_parts is_guidelines parts ≠ 0%nat →
       cfg_output_example c = [] ∧ cfg_notes c = [])
  ∧ (Forall marker_free (pasted_texts search inst) →
       (truthy (cfg_output_example c) = true → cfg_notes c = [] →
          occurrences (lit "CRITICAL") text = 1%nat
          ∧ contains guidelines_head text = false)
       ∧ (contains guidelines_head text = true →
            cfg_output_example c = [] ∧ cfg_notes c = [])).
Proof.
  intros c parts text.
  destruct (build_parts_counts search threshold with_facts inst include_rag)
    as [Hc Hg].
  fold c parts in Hc, Hg. split; [done|]. split; [|split].
  - intros Hoe Hn. rewrite Hc, Hg, Hoe, Hn. done.
  - rewrite Hg. destruct (cfg_output_example c), (cfg_notes c); simpl; done.
  - intros Hfree.
    destruct (build_system_prompt_occurrences search threshold with_facts
                inst include_rag Hfree) as [Ht1 Ht2].
    fold c text in Ht1, Ht2. split.
    + intros Hoe Hn. rewrite Hoe, Hn in Ht1, Ht2. split; [exact Ht1|].
      by apply contains_false_occurrences.
    + rewrite contains_occurrences, Ht2.
      destruct (cfg_output_example c), (cfg_notes c); simpl; done.
Qed.

(** The server prompt for the sample configuration, whose texts hold
    neither word: one directive section and no guidelines block; in its
    text the word CRITICAL occurs once and the guidelines head does not
    occur. *)
Lemma build_system_prompt_directives_witness :
  (count_parts is_critical
     (build_parts sample_search float_0_7 false sample_instance true) = 1%nat
   ∧ count_parts is_guidelines
       (build_parts sample_search float_0_7 false sample_instance true) = 0%nat)
  ∧ occurrences (lit "CRITICAL")
      (Server.build_system_prompt sample_search sample_instance true) = 1%nat
  ∧ contains guidelines_head
      (Server.build_system_prompt sample_search sample_instance true) = false.
Proof.
  destruct (build_system_prompt_directives sample_search float_0_7 false
              sample_instance true) as (_ & H & _ & Htext).
  split; [apply H; reflexivity|].
  apply Htext; [|reflexivity|reflexivity].
  apply (bool_decide_unpack _). by vm_compute.
Defined.

Lemma last_user_message_nonempty (history : list Turn) :
  truthy (last_user_message history) = true → nonempty history = true.
Proof. by destruct history. Qed.

Lemma float_scores_against_threshold :
  score_gt float_0_8 float_0_6 = true ∧ score_gt float_0_55 float_0_6 = false.
Proof. by vm_compute. Qed.

(** C6: when the memory search returns two hits with relevance scores
    0.8 and 0.55 and the threshold is 0.6 (backend/app/main.py), the
    retrieved-memory section of the prompt is built from the 0.8 hit
    alone: its user side and its assistant side, each cut to at most 100
    characters and labelled [U:] and [A:]. *)
Theorem build_system_prompt_memory_section
    (search : list MemoryEntry → pystr → nat → list Hit)
    (inst : Instance) (store : list MemoryEntry) (h1 h2 : Hit) :
  vector_store inst = Some store →
  truthy (last_user_message (conversation_history inst)) = true →
  search store (last_user_message (conversation_history inst)) 2%nat = [h1; h2] →
  relevance_score h1 = float_0_8 →
  relevance_score h2 = float_0_55 →
  Backend.build_system_prompt search inst true
  = join (nl ++ nl) (build_parts search float_0_6 true inst true)
  ∧ high_relevance float_0_6 [h1; h2] = [h1]
  ∧ memory_parts search float_0_6 inst true
    = [lit "Relevant memory:" ++ nl
       ++ lit "U: " ++ take 100 (user_message h1) ++ lit "..." ++ nl
       ++ lit "A: " ++ take 100 (ai_response h1) ++ lit "..."]
  ∧ (length (take 100 (user_message h1)) ≤ 100)%nat
  ∧ (length (take 100 (ai_response h1)) ≤ 100)%nat
  ∧ memory_parts search float_0_6 inst true
    ⊆ build_parts search float_0_6 true inst true.
Proof.
  intros Hs Hl Hq H1 H2.
  assert (Hh : high_relevance float_0_6 [h1; h2] = [h1]).
  { unfold high_relevance.
    rewrite filter_cons_True
      by (rewrite H1; apply float_scores_against_threshold).
    rewrite filter_cons_False; [done|].
    rewrite H2. by destruct float_scores_against_threshold as [_ ->]. }
  split; [done|]. split; [done|]. split; [|split; [|split]].
  - unfold memory_parts. rewrite Hs, Hl, Hq, Hh.
    by rewrite (last_user_message_nonempty _ Hl).
  - rewrite length_take. lia.
  - rewrite length_take. lia.
  - unfold build_parts. destruct (critical_parts _) as [cp flag].
    intros x Hx. rewrite !elem_of_app. auto.
Qed.

(** The scenario on the sample instance: the section shows the first hit,
    cut to 100 characters a side. *)
Lemma build_system_prompt_memory_section_witness :
  memory_parts sample_search float_0_6 sample_instance true
  = [lit "Relevant memory:" ++ nl
     ++ lit "U: " ++ take 100 (user_message hit_high) ++ lit "..." ++ nl
     ++ lit "A: " ++ take 100 (ai_response hit_high) ++ lit "..."]
  ∧ (length (user_message hit_high) = 120)%nat
  ∧ (length (ai_response hit_high) = 150)%nat.
Proof.
  split; [|split; reflexivity].
  apply (build_system_prompt_memory_section sample_search sample_instance
           [] hit_high hit_low eq_refl eq_refl eq_refl eq_refl eq_refl).
Defined.

(** ** Profile extraction *)

Section ExtractorFacts.

Context (json_loads : pystr → result json).
Context (generate_response : nat → list Turn → pystr → option Z → result pystr).
Context (extraction_system_prompt : pystr)
        (extraction_user_prompt : pystr → pystr).

Lemma parse_attempt_no_object (text : pystr) (fallback : result RawExtraction) :
  no_object json_loads text → degrades fallback →
  degrades (parse_attempt json_loads text fallback).
Proof.
  intros Hno Hfb. unfold parse_attempt.
  destruct (json_loads text) as [[msg|msg|msg]|data] eqn:Hj.
  - done.
  - right. eauto.
  - right. eauto.
  - destruct data; simpl; try (right; eauto).
    by destruct (Hno members).
Qed.

Lemma _parse_json_response_no_object (response : pystr) :
  (∀ text, text ∈ candidates response → no_object json_loads text) →
  degrades (_parse_json_response json_loads response).
Proof.
  intros Hall. unfold _parse_json_response.
  destruct (negb (truthy response) || negb (truthy (strip response)));
    [by left|].
  unfold candidates in Hall.
  apply parse_attempt_no_object; [apply Hall; by left|].
  destruct (re_search balanced_object_re (strip_fences response))
    as [m1|]; [|by left].
  apply parse_attempt_no_object; [apply Hall; right; by left|].
  destruct (re_search greedy_object_re (strip_fences response))
    as [m2|]; [|by left].
  apply parse_attempt_no_object; [|by left].
  apply Hall. right. right. by left.
Qed.

(** C4 (amended): [extract_user_info] never raises to its caller; when the
    model call raises it returns the empty extraction; and when no JSON
    object is read from any of the texts handed to [json.loads] (the
    response with its fence markers stripped, the balanced-brace match and
    the first-brace-to-last-brace match) it returns the empty extraction:
    name null, the three lists empty, the two mappings empty. *)
Theorem extract_user_info_degrades (n : nat) (recent_messages : list Turn) :
  let extract :=
    extract_user_info json_loads generate_response
      extraction_system_prompt extraction_user_prompt n recent_messages in
  let call :=
    generate_response n
      [mkTurn User (extraction_user_prompt (_format_messages recent_messages))
         false]
      extraction_system_prompt None in
  (∃ r, extract = inr r)
  ∧ (∀ e, call = inl e → extract = inr _get_empty_extraction)
  ∧ (∀ response, call = inr response →
       (∀ text, text ∈ candidates response → no_object json_loads text) →
       extract = inr _get_empty_extraction).
Proof.
  intros extract call. unfold extract, extract_user_info. fold call.
  split; [|split].
  - destruct call as [e|response]; simpl; [by eexists|].
    destruct (_parse_json_response json_loads response); simpl; by eexists.
  - by intros e ->.
  - intros response -> Hall.
    by destruct (_parse_json_response_no_object response Hall) as [->|[e ->]].
Qed.

End ExtractorFacts.

(** C4 (as stated, refuted): the content of this fenced response is not
    valid JSON, yet the balanced-brace fallback finds the object inside it
    and the extraction carries the name, so it is not the empty
    extraction. *)
Lemma extract_user_info_fallback_finds_object :
  JsonModel.json_loads (strip_fences chatty_response)
  = inl (JSONDecodeError (lit "Expecting value"))
  ∧ extract_user_info JsonModel.json_loads (constant_provider chatty_response)
      [] id 0 []
    = inr {| raw_name := JStr (lit "Al");
             raw_personality_traits := [];
             raw_preferences := [];
             raw_goals := [];
             raw_important_dates := [];
             raw_facts := [] |}
  ∧ extract_user_info JsonModel.json_loads (constant_provider chatty_response)
      [] id 0 []
    ≠ inr _get_empty_extraction.
Proof. split; [|split]; by vm_compute. Qed.

(** A fenced response with broken JSON, and a provider that raises, both
    yield the empty extraction. *)
Lemma extract_user_info_degrades_witness :
  extract_user_info JsonModel.json_loads (constant_provider broken_response)
    [] id 0 [] = inr _get_empty_extraction
  ∧ extract_user_info JsonModel.json_loads failing_provider [] id 0 []
    = inr _get_empty_extraction.
Proof.
  split.
  - destruct (extract_user_info_degrades JsonModel.json_loads
                (constant_provider broken_response) [] id 0 [])
      as (_ & _ & H).
    apply (H broken_response); [reflexivity|decide_no_object].
  - destruct (extract_user_info_degrades JsonModel.json_loads
                failing_provider [] id 0 []) as (_ & H & _).
    by apply (H (Exception (lit "Connection error."))).
Defined.

(** ** Model-call failure *)

Section SessionFacts.

Context (lower : pystr → pystr).
Context (search : list MemoryEntry → pystr → nat → list Hit).
Context (json_loads : pystr → result json).
Context (generate_response : nat → list Turn → pystr → option Z → result pystr).
Context (extraction_system_prompt : pystr)
        (extraction_user_prompt : pystr → pystr).
Context (py_in : json → list json → bool) (py_ne : json → json → bool).
Context (vs : add_outcome) (io : io_outcome) (now : pystr).
Context (w_sent w_done : write_outcome).

Lemma desktop_turn_failure (dp : DesktopPet) (message : pystr) (e : exn) :
  has_ai_provider dp = true →
  (∀ messages system_prompt max_tokens,
     generate_response (ai_calls (dp_instance dp)) messages system_prompt
       max_tokens = inl e) →
  desktop_turn lower search generate_response vs w_sent w_done dp message
  = _on_ai_error w_done
      {| dp_instance :=
           with_calls (S (ai_calls (dp_instance dp)))
             (with_history
                (conversation_history (dp_instance dp)
                 ++ [mkTurn User message false]) (dp_instance dp));
         has_ai_provider := true;
         chat_ui := chat_ui dp ++ [(message, true)];
         thinking_indicator := true;
         history_file :=
           (_save_json w_sent
              (save_conversation_history
                 (conversation_history (dp_instance dp)
                  ++ [mkTurn User message false]))
              (history_file dp)).1;
         profile_workers := profile_workers dp |}
      (lit "Error: " ++ str_of_exn e).
Proof.
  intros Hp Hfail. unfold desktop_turn, _on_message_sent, AIWorker_run.
  simpl. rewrite Hp, Hfail. simpl. by rewrite Nat.add_1_r.
Qed.

(** C9 (amended): when the model call of a turn fails, the desktop pet
    appends a synthetic assistant turn that carries a user-visible error
    message in place of a generated response and shows it in the chat
    window, while the API server raises an HTTP 500 error whose detail
    carries the error text and appends no assistant turn; in both the
    provider is called exactly once for the turn, so no retry is made.
    The history file of the desktop pet is what the two writes of the
    turn, however they turn out, leave of the history. *)
Theorem model_failure_is_surfaced
    (dp : DesktopPet) (inst : Instance) (request : ChatRequest)
    (text : pystr) (e : exn) :
  let turn :=
    desktop_turn lower search generate_response vs w_sent w_done dp text in
  let served :=
    chat lower search json_loads generate_response
      extraction_system_prompt extraction_user_prompt py_in py_ne vs io now
      inst request in
  let error_msg :=
    lit "Sorry, I encountered an error: " ++ lit "Error: " ++ str_of_exn e in
  (has_ai_provider dp = true →
   (∀ messages system_prompt max_tokens,
      generate_response (ai_calls (dp_instance dp)) messages system_prompt
        max_tokens = inl e) →
   conversation_history (dp_instance turn)
   = conversation_history (dp_instance dp)
     ++ [mkTurn User text false; mkTurn Assistant error_msg false]
   ∧ chat_ui turn = chat_ui dp ++ [(text, true); (error_msg, false)]
   ∧ history_file turn
     = (_save_json w_done
          (save_conversation_history (conversation_history (dp_instance turn)))
          (_save_json w_sent
             (save_conversation_history
                (conversation_history (dp_instance dp)
                 ++ [mkTurn User text false]))
             (history_file dp)).1).1
   ∧ ai_calls (dp_instance turn) = S (ai_calls (dp_instance dp)))
  ∧ ((∀ messages system_prompt max_tokens,
        generate_response (ai_calls inst) messages system_prompt
          max_tokens = inl e) →
     served.2
     = inl (mkHTTPException 500
              (lit "Internal server error: " ++ str_of_exn e))
     ∧ conversation_history served.1
       = conversation_history inst ++ [mkTurn User (message request) false]
     ∧ ai_calls served.1 = S (ai_calls inst)).
Proof.
  intros turn served error_msg. split.
  - intros Hp Hfail. unfold turn.
    rewrite (desktop_turn_failure dp text e Hp Hfail).
    unfold _on_ai_error, _save_conversation_history. simpl.
    rewrite <- !app_assoc. done.
  - intros Hfail. unfold served, chat. simpl. rewrite Hfail. done.
Qed.

End SessionFacts.

(** C9 (as stated, refuted): on the API server a failed model call leaves
    the history ending with the user's turn; no assistant turn with an
    error message is appended, the request is answered by an HTTP 500
    error. *)
Lemma chat_failure_appends_no_turn :
  (chat ascii_lower sample_search JsonModel.json_loads flaky_provider [] id
     sample_in sample_ne AddOk IoOk t1 sample_instance sample_request).2
  = inl (mkHTTPException 500 (lit "Internal server error: Connection error."))
  ∧ conversation_history
      (chat ascii_lower sample_search JsonModel.json_loads flaky_provider [] id
         sample_in sample_ne AddOk IoOk t1 sample_instance sample_request).1
    = [mkTurn User (lit "do you like tea?") false;
       mkTurn User (lit "and coffee?") false].
Proof. split; by vm_compute. Qed.

(** The desktop pet and the server against a provider whose first call
    fails and whose second call would succeed: the error is shown, the
    second call is never made. *)
Lemma model_failure_is_surfaced_witness :
  conversation_history
    (dp_instance
       (desktop_turn ascii_lower sample_search flaky_provider AddOk
          WriteOk WriteOk sample_desktop (lit "and coffee?")))
  = conversation_history (dp_instance sample_desktop)
    ++ [mkTurn User (lit "and coffee?") false;
        mkTurn Assistant
          (lit "Sorry, I encountered an error: " ++ lit "Error: "
           ++ lit "Connection error.") false]
  ∧ ai_calls
      (chat ascii_lower sample_search JsonModel.json_loads flaky_provider [] id
         sample_in sample_ne AddOk IoOk t1 sample_instance sample_request).1
    = 1%nat.
Proof.
  destruct (model_failure_is_surfaced ascii_lower sample_search
              JsonModel.json_loads flaky_provider [] id sample_in sample_ne
              AddOk IoOk t1 WriteOk WriteOk
              sample_desktop sample_instance sample_request
              (lit "and coffee?") (Exception (lit "Connection error.")))
    as [Hd Hs].
  split.
  - apply Hd; [reflexivity|]. intros; reflexivity.
  - apply Hs. intros; reflexivity.
Defined.

(* ================================================================== *)
(** * Further properties *)
(* ================================================================== *)

(** ** The update cadence over a run of conversations *)

(** X1: a profile update is due only at a positive conversation count
    that is a multiple of 5. *)
Theorem should_update_profile_multiple_of_5 (pm : ProfileManager) :
  should_update_profile pm = true →
  0 < conversation_count (profile pm)
  ∧ conversation_count (profile pm) mod 5 = 0.
Proof.
  unfold should_update_profile.
  set (c := conversation_count (profile pm)).
  destruct (Z.leb_spec c 0); [done|].
  destruct (Z.leb_spec c 20); [|destruct (Z.leb_spec c 50)];
    intros Hm%Z.eqb_eq; split; try lia.
  all: clearbody c; Z.div_mod_to_equations; lia.
Qed.

Lemma should_update_profile_multiple_of_5_witness :
  0 < conversation_count (profile (with_count 30 (fresh_manager t0)))
  ∧ conversation_count (profile (with_count 30 (fresh_manager t0))) mod 5 = 0.
Proof.
  apply (should_update_profile_multiple_of_5 (with_count 30 (fresh_manager t0))).
  reflexivity.
Defined.

Lemma after_conversations_count (n : nat) (pm : ProfileManager) :
  conversation_count (profile (after_conversations n pm))
  = conversation_count (profile pm) + Z.of_nat n.
Proof.
  unfold after_conversations. induction n as [|n IH]; [simpl; lia|].
  rewrite Nat.iter_succ. unfold increment_conversation_count at 1. simpl.
  rewrite IH. lia.
Qed.

Lemma should_update_profile_at (pm : ProfileManager) (k : Z) :
  conversation_count (profile pm) = k →
  (0 < k ≤ 20 ∧ k mod 5 = 0) ∨ (20 < k ≤ 50 ∧ k mod 10 = 0)
  ∨ (50 < k ∧ k mod 15 = 0) →
  should_update_profile pm = true.
Proof.
  intros Hk H. unfold should_update_profile. rewrite Hk.
  destruct H as [[? Hm]|[[? Hm]|[? Hm]]];
    destruct (Z.leb_spec k 0), (Z.leb_spec k 20), (Z.leb_spec k 50);
    try lia; by rewrite Hm.
Qed.

(** X2: the schedule never starves. From any non-negative conversation
    count, an update falls due within the next 15 conversations. *)
Theorem should_update_profile_within_15 (pm : ProfileManager) :
  0 ≤ conversation_count (profile pm) →
  ∃ n : nat, (1 ≤ n ≤ 15)%nat
             ∧ should_update_profile (after_conversations n pm) = true.
Proof.
  intros Hc. set (c := conversation_count (profile pm)) in *.
  assert (Hstep : ∀ k, c < k ≤ c + 15 →
            (0 < k ≤ 20 ∧ k mod 5 = 0) ∨ (20 < k ≤ 50 ∧ k mod 10 = 0)
            ∨ (50 < k ∧ k mod 15 = 0) →
            ∃ n : nat, (1 ≤ n ≤ 15)%nat
               ∧ should_update_profile (after_conversations n pm) = true).
  { intros k Hk Hdue. exists (Z.to_nat (k - c)). split; [lia|].
    apply (should_update_profile_at _ k); [|done].
    rewrite after_conversations_count. fold c. lia. }
  destruct (Z.lt_ge_cases c 20) as [H20|H20];
    [|destruct (Z.lt_ge_cases c 50) as [H50|H50]].
  - apply (Hstep (5 * (c / 5 + 1))).
    + pose proof (Z.div_mod c 5). pose proof (Z.mod_pos_bound c 5). lia.
    + left. split.
      * pose proof (Z.div_mod c 5). pose proof (Z.mod_pos_bound c 5). lia.
      * rewrite Z.mul_comm. apply Z.mod_mul. lia.
  - apply (Hstep (10 * (c / 10 + 1))).
    + pose proof (Z.div_mod c 10). pose proof (Z.mod_pos_bound c 10). lia.
    + right. left. split.
      * pose proof (Z.div_mod c 10). pose proof (Z.mod_pos_bound c 10). lia.
      * rewrite Z.mul_comm. apply Z.mod_mul. lia.
  - apply (Hstep (15 * (c / 15 + 1))).
    + pose proof (Z.div_mod c 15). pose proof (Z.mod_pos_bound c 15). lia.
    + right. right. split.
      * pose proof (Z.div_mod c 15). pose proof (Z.mod_pos_bound c 15). lia.
      * rewrite Z.mul_comm. apply Z.mod_mul. lia.
Qed.

Lemma should_update_profile_within_15_witness :
  ∃ n : nat, (1 ≤ n ≤ 15)%nat
    ∧ should_update_profile
        (after_conversations n (with_count 50 (fresh_manager t0))) = true.
Proof.
  apply (should_update_profile_within_15 (with_count 50 (fresh_manager t0))).
  simpl. lia.
Defined.

(** ** What a merge keeps and what it adds *)

Lemma update_profile_from_ai_fields
    (io : io_outcome) (now : pystr) (pm : ProfileManager) (e : ExtractionResult) :
  same_fields (merge_fields (profile pm) e).1
              (profile (update_profile_from_ai io now pm e).1)
  ∧ conversation_count (profile (update_profile_from_ai io now pm e).1)
    = conversation_count (profile pm)
  ∧ created_at (profile (update_profile_from_ai io now pm e).1)
    = created_at (profile pm)
  ∧ (last_updated (profile (update_profile_from_ai io now pm e).1)
     = last_updated (profile pm)
     ∨ last_updated (profile (update_profile_from_ai io now pm e).1) = now).
Proof.
  pose proof (merge_fields_meta (profile pm) e) as (Hc & Hl & Hcr).
  destruct (update_profile_from_ai_profile io now pm e) as [-> | ->].
  - repeat split; auto.
  - repeat split; auto.
Qed.

(** X3: a name, once present, is never overwritten by a merge; an absent
    name is set to the extracted one whenever that one is non-empty. *)
Theorem update_profile_from_ai_name
    (io : io_outcome) (now : pystr) (pm : ProfileManager) (e : ExtractionResult) :
  let p' := profile (update_profile_from_ai io now pm e).1 in
  (truthy_opt (name (profile pm)) = true → name p' = name (profile pm))
  ∧ (truthy_opt (name (profile pm)) = false →
     truthy_opt (ex_name e) = true → name p' = ex_name e).
Proof.
  intros p'.
  destruct (update_profile_from_ai_fields io now pm e) as ((Hn & _) & _).
  fold p' in Hn. rewrite <- Hn, merge_fields_unfold. cbv zeta. simpl.
  split.
  - intros ->. by rewrite andb_false_r.
  - by intros -> ->.
Qed.

Lemma update_profile_from_ai_name_witness :
  name (profile (update_profile_from_ai IoOk t2 alex_manager rich_extraction).1)
  = name (profile alex_manager).
Proof.
  destruct (update_profile_from_ai_name IoOk t2 alex_manager rich_extraction)
    as [H _].
  apply H. reflexivity.
Defined.

Lemma add_items_grows (new l : list pystr) :
  l `prefix_of` (add_items (l, false) new).1
  ∧ (∀ x, x ∈ (add_items (l, false) new).1
          ↔ x ∈ l ∨ (x ∈ new ∧ x ≠ [])).
Proof.
  destruct (add_items_char new l false) as (ext & -> & Hext & _ & Hcov).
  simpl. split; [by exists ext|].
  intros x. rewrite elem_of_app. split.
  - intros [?|Hx]; [by left|]. right.
    destruct (Hext x Hx) as (? & Ht & _). split; [done|]. by intros ->.
  - intros [?|[Hx Hne]]; [by left|].
    apply elem_of_app, Hcov; [done|]. by destruct x.
Qed.

(** X4: the lists of a profile only grow. After a merge each of
    personality_traits, goals and facts starts with the list it was, in
    the same order, and holds exactly the old items and the non-empty
    extracted ones. *)
Theorem update_profile_from_ai_lists
    (io : io_outcome) (now : pystr) (pm : ProfileManager) (e : ExtractionResult) :
  let p := profile pm in
  let p' := profile (update_profile_from_ai io now pm e).1 in
  (personality_traits p `prefix_of` personality_traits p'
   ∧ ∀ x, x ∈ personality_traits p'
          ↔ x ∈ personality_traits p ∨ (x ∈ ex_personality_traits e ∧ x ≠ []))
  ∧ (goals p `prefix_of` goals p'
     ∧ ∀ x, x ∈ goals p' ↔ x ∈ goals p ∨ (x ∈ ex_goals e ∧ x ≠ []))
  ∧ (facts p `prefix_of` facts p'
     ∧ ∀ x, x ∈ facts p' ↔ x ∈ facts p ∨ (x ∈ ex_facts e ∧ x ≠ [])).
Proof.
  intros p p'.
  destruct (update_profile_from_ai_fields io now pm e)
    as ((_ & Ht & _ & Hg & _ & Hf) & _).
  fold p' in Ht, Hg, Hf. rewrite <- Ht, <- Hg, <- Hf.
  rewrite merge_fields_unfold. cbv zeta. simpl.
  repeat split; apply add_items_grows.
Qed.

Lemma put_entries_lookup (new d : gmap pystr pystr) (k : pystr) :
  (put_entries (d, false) new).1 !! k
  = match new !! k with
    | Some v => if truthy k && truthy v then Some v else d !! k
    | None => d !! k
    end.
Proof.
  destruct (put_entries_char new d false) as [-> _].
  rewrite lookup_union.
  destruct (new !! k) as [v|] eqn:Hk.
  - destruct (truthy k) eqn:Htk, (truthy v) eqn:Htv; simpl.
    + rewrite (proj2 (map_lookup_filter_Some writable new k v)); [|done].
      by destruct (d !! k).
    + rewrite (proj2 (map_lookup_filter_None writable new k)).
      * by rewrite (left_id_L None (∪)).
      * right. intros y Hy [_ H2]. simpl in *. congruence.
    + rewrite (proj2 (map_lookup_filter_None writable new k)).
      * by rewrite (left_id_L None (∪)).
      * right. intros y Hy [H1 _]. simpl in *. congruence.
    + rewrite (proj2 (map_lookup_filter_None writable new k)).
      * by rewrite (left_id_L None (∪)).
      * right. intros y Hy [H1 _]. simpl in *. congruence.
  - rewrite (proj2 (map_lookup_filter_None writable new k)); [|by left].
    by rewrite (left_id_L None (∪)).
Qed.

(** X5: in preferences and important_dates the last extraction wins. After
    a merge a key holds the extracted value when the extraction binds that
    key with key and value both non-empty, and the value it held before
    otherwise; no key is ever removed. *)
Theorem update_profile_from_ai_dicts
    (io : io_outcome) (now : pystr) (pm : ProfileManager) (e : ExtractionResult)
    (k : pystr) :
  let p := profile pm in
  let p' := profile (update_profile_from_ai io now pm e).1 in
  preferences p' !! k
  = match ex_preferences e !! k with
    | Some v => if truthy k && truthy v then Some v else preferences p !! k
    | None => preferences p !! k
    end
  ∧ important_dates p' !! k
    = match ex_important_dates e !! k with
      | Some v => if truthy k && truthy v then Some v
                  else important_dates p !! k
      | None => important_dates p !! k
      end
  ∧ (is_Some (preferences p !! k) → is_Some (preferences p' !! k))
  ∧ (is_Some (important_dates p !! k) → is_Some (important_dates p' !! k)).
Proof.
  intros p p'.
  destruct (update_profile_from_ai_fields io now pm e)
    as ((_ & _ & Hpr & _ & Hd & _) & _).
  fold p' in Hpr, Hd. rewrite <- Hpr, <- Hd.
  rewrite merge_fields_unfold. cbv zeta. simpl.
  rewrite !put_entries_lookup. fold p.
  repeat split; try done.
  - intros Hs. destruct (ex_preferences e !! k) as [v|]; [|done].
    by destruct (truthy k && truthy v).
  - intros Hs. destruct (ex_important_dates e !! k) as [v|]; [|done].
    by destruct (truthy k && truthy v).
Qed.

Lemma update_profile_from_ai_dicts_witness :
  preferences
    (profile (update_profile_from_ai IoOk t2 alex_manager rich_extraction).1)
  !! lit "music" = Some (lit "indie rock").
Proof.
  destruct (update_profile_from_ai_dicts IoOk t2 alex_manager rich_extraction
              (lit "music")) as [H _].
  rewrite H. reflexivity.
Defined.

(** X6: a merge never touches conversation_count or created_at, and
    last_updated is either left as it was or set to the clock reading of
    the save. *)
Theorem update_profile_from_ai_metadata
    (io : io_outcome) (now : pystr) (pm : ProfileManager) (e : ExtractionResult) :
  let p' := profile (update_profile_from_ai io now pm e).1 in
  conversation_count p' = conversation_count (profile pm)
  ∧ created_at p' = created_at (profile pm)
  ∧ (last_updated p' = last_updated (profile pm) ∨ last_updated p' = now).
Proof. intros p'. apply update_profile_from_ai_fields. Qed.

Lemma nonempty_app_r {A} (l ext : list A) :
  nonempty ext = true → nonempty (l ++ ext) = true.
Proof. destruct l, ext; done. Qed.

(** X7: a merge that changed something leaves a profile that [is_empty]
    reports as not empty. *)
Theorem merge_fields_not_empty (p : UserProfile) (e : ExtractionResult) :
  (merge_fields p e).2 = true → is_empty (merge_fields p e).1 = false.
Proof.
  rewrite merge_fields_unfold. cbv zeta. simpl. unfold is_empty. simpl.
  destruct (add_items_char (ex_personality_traits e) (personality_traits p) false)
    as (et & -> & _).
  destruct (add_items_char (ex_goals e) (goals p) false) as (eg & -> & _).
  destruct (add_items_char (ex_facts e) (facts p) false) as (ef & -> & _).
  destruct (put_entries_char (ex_preferences e) (preferences p) false)
    as [Hpr ->].
  destruct (put_entries_char (ex_important_dates e) (important_dates p) false)
    as [Hd ->].
  simpl. rewrite !orb_true_iff.
  intros [[[[[Hn|Ht]|Hp]|Hg]|Hdd]|Hf].
  - rewrite Hn. apply andb_true_iff in Hn as [Hn _]. by rewrite Hn.
  - rewrite (nonempty_app_r _ _ Ht). simpl. by rewrite !andb_false_r.
  - apply negb_true_iff, bool_decide_eq_false in Hp.
    assert ((put_entries (preferences p, false) (ex_preferences e)).1 ≠ ∅)
      as Hne.
    { intros Hemp. apply Hp. rewrite Hemp. symmetry.
      rewrite Hpr in Hemp. apply map_eq. intros i. rewrite lookup_empty.
      apply (f_equal (λ m, m !! i)) in Hemp.
      rewrite lookup_union, lookup_empty in Hemp.
      destruct (filter writable (ex_preferences e) !! i),
        (preferences p !! i); done. }
    rewrite (bool_decide_eq_false_2 _ Hne). by rewrite !andb_false_r.
  - rewrite (nonempty_app_r _ _ Hg). simpl. by rewrite !andb_false_r.
  - apply negb_true_iff, bool_decide_eq_false in Hdd.
    assert ((put_entries (important_dates p, false) (ex_important_dates e)).1
            ≠ ∅) as Hne.
    { intros Hemp. apply Hdd. rewrite Hemp. symmetry.
      rewrite Hd in Hemp. apply map_eq. intros i. rewrite lookup_empty.
      apply (f_equal (λ m, m !! i)) in Hemp.
      rewrite lookup_union, lookup_empty in Hemp.
      destruct (filter writable (ex_important_dates e) !! i),
        (important_dates p !! i); done. }
    rewrite (bool_decide_eq_false_2 _ Hne). by rewrite !andb_false_r.
  - rewrite (nonempty_app_r _ _ Hf). simpl. by rewrite !andb_false_r.
Qed.

Lemma merge_fields_not_empty_witness :
  is_empty (merge_fields (empty_profile t0) alex_extraction).1 = false.
Proof.
  apply (merge_fields_not_empty (empty_profile t0) alex_extraction).
  reflexivity.
Defined.

(** ** The merge on untyped values, on text *)

Lemma foldr_pointwise {A B} (f g : A → B → B) (b : B) (l : list A) :
  (∀ x y, f x y = g x y) → foldr f b l = foldr g b l.
Proof. intros H. induction l as [|x l IH]; simpl; [done|]. by rewrite IH, H. Qed.

Lemma untyped_add_items_text (st : list pystr * bool) (new : list pystr) :
  Untyped.add_items truthy (λ x l, bool_decide (x ∈ l)) st new
  = add_items st new.
Proof. done. Qed.

Lemma untyped_put_entries_text (st : gmap pystr pystr * bool)
    (new : gmap pystr pystr) :
  Untyped.put_entries truthy (λ a b, bool_decide (a ≠ b)) st new
  = put_entries st new.
Proof.
  unfold Untyped.put_entries, put_entries. rewrite !map_fold_foldr.
  apply foldr_pointwise. intros [k v] [d u].
  unfold Untyped.put_entry, put_entry. simpl.
  destruct (d !! k) as [old|] eqn:Hk; simpl.
  - destruct (decide (old = v)) as [->|Hne].
    + rewrite bool_decide_eq_false_2 by (by intros ?).
      by rewrite bool_decide_eq_true_2.
    + rewrite bool_decide_eq_true_2 by done.
      rewrite (bool_decide_eq_false_2 (Some old = Some v)) by congruence.
      done.
  - done.
Qed.

(** On a profile and an extraction of text, with membership and
    inequality of texts for [in] and [!=], the merge on untyped values is
    the merge on text. *)
Lemma untyped_update_profile_from_ai_text
    (io : io_outcome) (now : pystr) (pm : ProfileManager)
    (e : ExtractionResult) :
  Untyped.update_profile_from_ai truthy (λ x l, bool_decide (x ∈ l))
    (λ a b, bool_decide (a ≠ b)) io now pm e
  = update_profile_from_ai io now pm e.
Proof.
  unfold Untyped.update_profile_from_ai, update_profile_from_ai.
  unfold Untyped.merge_fields, merge_fields.
  change (Untyped.truthy_opt truthy) with truthy_opt.
  destruct (if truthy_opt (ex_name e) then _ else _) as [name' u0].
  rewrite untyped_add_items_text.
  destruct (add_items _ (ex_personality_traits e)) as [traits' u1].
  rewrite untyped_put_entries_text.
  destruct (put_entries _ (ex_preferences e)) as [prefs' u2].
  rewrite untyped_add_items_text.
  destruct (add_items _ (ex_goals e)) as [goals' u3].
  rewrite untyped_put_entries_text.
  destruct (put_entries _ (ex_important_dates e)) as [dates' u4].
  rewrite untyped_add_items_text.
  reflexivity.
Qed.

(** ** A failed extraction and the profile *)

Lemma untyped_update_empty_extraction
    (py_in : json → list json → bool) (py_ne : json → json → bool)
    (io : io_outcome) (now : pystr) (pm : ProfileManager_ json) :
  Untyped.update_profile_from_ai json_truthy py_in py_ne io now pm
    (extraction_of _get_empty_extraction)
  = (pm, PyNone).
Proof.
  unfold Untyped.update_profile_from_ai, Untyped.merge_fields. simpl.
  unfold Untyped.put_entries. rewrite !map_fold_empty. simpl.
  by destruct pm as [[] ?].
Qed.

Section FailedExtraction.

Context (json_loads : pystr → result json).
Context (generate_response : nat → list Turn → pystr → option Z → result pystr).
Context (extraction_system_prompt : pystr)
        (extraction_user_prompt : pystr → pystr).
Context (py_in : json → list json → bool) (py_ne : json → json → bool).
Context (io : io_outcome) (now : pystr).

Lemma extract_user_info_empty (n : nat) (recent_messages : list Turn) :
  match generate_response n
          [mkTurn User (extraction_user_prompt (_format_messages recent_messages))
             false]
          extraction_system_prompt None with
  | inl _ => True
  | inr response =>
      ∀ text, text ∈ candidates response → no_object json_loads text
  end →
  extract_user_info json_loads generate_response
    extraction_system_prompt extraction_user_prompt n recent_messages
  = inr _get_empty_extraction.
Proof.
  unfold extract_user_info.
  destruct (generate_response _ _ _ _) as [e|response]; [done|].
  intros Hall. simpl.
  by destruct (_parse_json_response_no_object json_loads response Hall)
    as [->|[e ->]].
Qed.

(** X8: an extraction that fails never touches the profile. When the model
    call of the extractor raises, or its response yields no JSON object on
    any parse attempt, the guarded profile update of a turn leaves the
    profile manager exactly as it was: no field changes, [last_updated] is
    not refreshed and nothing is written. *)
Theorem run_profile_update_failed_extraction
    (n : nat) (pm : ProfileManager_ json) (recent_messages : list Turn) :
  match generate_response n
          [mkTurn User (extraction_user_prompt (_format_messages recent_messages))
             false]
          extraction_system_prompt None with
  | inl _ => True
  | inr response =>
      ∀ text, text ∈ candidates response → no_object json_loads text
  end →
  run_profile_update json_loads generate_response
    extraction_system_prompt extraction_user_prompt py_in py_ne io now
    n pm recent_messages
  = pm.
Proof.
  intros H. unfold run_profile_update.
  rewrite (extract_user_info_empty n recent_messages H).
  by rewrite untyped_update_empty_extraction.
Qed.

End FailedExtraction.

Lemma run_profile_update_failed_extraction_witness :
  run_profile_update JsonModel.json_loads (constant_provider broken_response)
    [] id sample_in sample_ne IoOk t2 0 (untyped alex_manager) []
  = untyped alex_manager
  ∧ run_profile_update JsonModel.json_loads failing_provider
      [] id sample_in sample_ne IoOk t2 0 (untyped alex_manager) []
    = untyped alex_manager.
Proof.
  split.
  - apply (run_profile_update_failed_extraction JsonModel.json_loads
             (constant_provider broken_response) [] id sample_in sample_ne
             IoOk t2 0 (untyped alex_manager) []).
    simpl. decide_no_object.
  - apply (run_profile_update_failed_extraction JsonModel.json_loads
             failing_provider [] id sample_in sample_ne IoOk t2 0
             (untyped alex_manager) []).
    exact I.
Defined.

(** ** The history window, further *)

Section HistoryWindow.

Context (lower : pystr → pystr).

Lemma last_turns_suffix (n : nat) (history : list Turn) :
  last_turns n history `suffix_of` history.
Proof. rewrite <- slice_last_last_turns. apply suffix_drop. Qed.

Lemma last_turns_last (n : nat) (history : list Turn) :
  (0 < n)%nat → last (last_turns n history) = last history.
Proof.
  intros Hn. rewrite <- slice_last_last_turns. unfold slice_last.
  rewrite !last_lookup, lookup_drop, length_drop. f_equal.
  destruct history; simpl; lia.
Qed.

Lemma spec_select_cases (history : list Turn) (msg : pystr) :
  ∃ n, (n = 3 ∨ n = 8 ∨ n = 15)%nat
       ∧ spec_select lower history msg = last_turns n history.
Proof.
  unfold spec_select. repeat case_match; eauto 6.
Qed.

(** X9: the window is a suffix of the history. Whatever the message, the
    selected turns are the history's last ones, in order and unchanged, at
    most 15 of them, and the most recent turn is always among them. *)
Theorem get_relevant_history_suffix (history : list Turn) (msg : pystr) :
  get_relevant_history lower history msg `suffix_of` history
  ∧ (length (get_relevant_history lower history msg) ≤ 15)%nat
  ∧ last (get_relevant_history lower history msg) = last history.
Proof.
  rewrite get_relevant_history_spec.
  destruct (spec_select_cases history msg) as (n & Hn & ->).
  split; [apply last_turns_suffix|]. split.
  - pose proof (last_turns_length n history). lia.
  - apply last_turns_last. lia.
Qed.

(** X10: the selector of the servers and the selector of the desktop pet
    return the same turns for every history and message: the length
    guards of the servers change nothing. *)
Theorem get_relevant_history_agree (history : list Turn) (msg : pystr) :
  get_relevant_history lower history msg
  = _get_relevant_history lower history msg.
Proof.
  by rewrite get_relevant_history_spec, _get_relevant_history_spec.
Qed.

End HistoryWindow.

(** ** The order and the content of the prompt sections *)

Lemma contains_startswith (w s : pystr) :
  startswith s w = true → contains w s = true.
Proof. intros H. destruct s; simpl in *; by rewrite H. Qed.

Lemma filter_head_split {A} (P : A → Prop) `{∀ x, Decision (P x)}
    (l : list A) (x : A) (r : list A) :
  filter P l = x :: r →
  ∃ l1 l2, l = l1 ++ x :: l2 ∧ Forall (λ y, ¬ P y) l1 ∧ P x.
Proof.
  induction l as [|y l IH]; [done|].
  rewrite filter_cons. destruct (decide (P y)) as [Hy|Hy].
  - intros [= -> <-]. by exists [], l.
  - intros Hf. destruct (IH Hf) as (l1 & l2 & -> & Hall & Hx).
    exists (y :: l1), l2. split; [done|]. split; [by constructor|done].
Qed.

Lemma memory_text_length (conv : Hit) : (length (memory_text conv) ≤ 230)%nat.
Proof.
  unfold memory_text. rewrite !length_app.
  repeat match goal with
         | |- context [length (lit ?s)] =>
             let n := eval vm_compute in (length (lit s)) in
             change (length (lit s)) with n
         end.
  change (length nl) with 1%nat.
  rewrite !length_take. lia.
Qed.

Lemma contains_label (w label v : pystr) :
  ends_outside w label = true → contains w label = false →
  contains w (label ++ v) = contains w v.
Proof.
  intros He Hl%contains_false_occurrences.
  rewrite !contains_occurrences, (occurrences_label w label v He), Hl. done.
Qed.

Lemma existsb_labeled (w label v : pystr) :
  truthy w = true →
  ends_outside w label = true → contains w label = false →
  existsb (contains w) (labeled label v) = contains w v.
Proof.
  intros Hw He Hl. unfold labeled. destruct v as [|a v]; simpl.
  - by destruct w.
  - change (label ++ a :: v) with (label ++ (a :: v)).
    rewrite (contains_label w label (a :: v) He Hl). apply orb_false_r.
Qed.

(** The test of the persona fallback, in terms of the configured
    texts. *)
Lemma persona_test (c : CharacterConfig) :
  existsb (contains (lit "Personality:"))
    ((critical_parts c).1 ++ character_parts c)
  = truthy (cfg_personality c) || persona_mentioned c.
Proof.
  rewrite existsb_app.
  assert (Hcrit : existsb (contains (lit "Personality:")) (critical_parts c).1
    = contains (lit "Personality:") (cfg_output_example c)
      || contains (lit "Personality:") (cfg_notes c)).
  { assert (Hhead : ∀ (title v : pystr),
      ends_outside (lit "Personality:") (critical_marker ++ title ++ nl) = true →
      contains (lit "Personality:") (critical_marker ++ title ++ nl) = false →
      contains (lit "Personality:") (critical_marker ++ title ++ nl ++ v)
      = contains (lit "Personality:") v).
    { intros title v He Hl.
      rewrite <- (contains_label _ _ v He Hl). by rewrite <- !app_assoc. }
    unfold critical_parts.
    destruct (cfg_output_example c) as [|a oe], (cfg_notes c) as [|b no];
      cbn [truthy fst existsb app]; rewrite ?Hhead by (by vm_compute);
      rewrite ?orb_false_r; done. }
  assert (Hpers : existsb (contains (lit "Personality:"))
                    (labeled (lit "Personality: ") (cfg_personality c))
                  = truthy (cfg_personality c)).
  { unfold labeled. destruct (cfg_personality c) as [|a p]; [done|].
    cbn [truthy existsb]. rewrite orb_false_r.
    apply contains_startswith. by vm_compute. }
  unfold character_parts, persona_mentioned.
  rewrite !existsb_app, Hcrit, Hpers.
  rewrite !existsb_labeled by (by vm_compute).
  cbn [existsb]. rewrite orb_false_r.
  destruct (truthy (cfg_personality c)),
    (contains (lit "Personality:") (cfg_output_example c)),
    (contains (lit "Personality:") (cfg_notes c)); simpl; done.
Qed.

Lemma startswith_differs (part m : pystr) :
  startswith part m = false → part ≠ m.
Proof.
  intros H ->. revert H. induction m as [|a m IH]; simpl; [done|].
  by rewrite N.eqb_refl.
Qed.

Lemma labeled_opening (m label v : pystr) :
  mismatch label m = true →
  Forall (λ part, startswith part m = false) (labeled label v).
Proof.
  intros H. unfold labeled. destruct (truthy v); [|constructor].
  apply Forall_singleton. by apply startswith_label_mismatch.
Qed.

Lemma critical_parts_opening (m : pystr) (c : CharacterConfig) :
  mismatch critical_marker m = true →
  Forall (λ part, startswith part m = false) (critical_parts c).1.
Proof.
  intros H. unfold critical_parts.
  destruct (truthy (cfg_output_example c)), (truthy (cfg_notes c));
    cbn [fst app];
    repeat (apply Forall_cons_2; [by apply startswith_label_mismatch|]);
    constructor.
Qed.

Lemma join_label_opening (m sep label z : pystr) (ps : list pystr) :
  mismatch label m = true →
  startswith (join sep ((label ++ z) :: ps)) m = false.
Proof.
  intros H. destruct (join_cons_app sep (label ++ z) ps) as [t ->].
  rewrite <- app_assoc. by apply startswith_label_mismatch.
Qed.

Lemma profile_parts_opening (m : pystr) (with_facts : bool)
    (pm : option ProfileManager) :
  mismatch (lit "User: ") m = true → mismatch (lit "Traits: ") m = true →
  mismatch (lit "Goals: ") m = true →
  mismatch (lit "Important facts: ") m = true →
  Forall (λ part, startswith part m = false) (profile_parts with_facts pm).
Proof.
  intros Hu Ht Hg Hf.
  destruct pm as [pm|]; [|constructor]. unfold profile_parts.
  destruct (truthy_opt (name (profile pm))),
    (nonempty (personality_traits (profile pm))),
    (nonempty (goals (profile pm))),
    (with_facts && nonempty (facts (profile pm))); cbn [app nonempty];
    first [ apply Forall_nil_2
          | apply Forall_singleton; by apply join_label_opening ].
Qed.

Section Persona.

Context (search : list MemoryEntry → pystr → nat → list Hit).

Lemma memory_parts_opening (m : pystr) (threshold : Q) (inst : Instance)
    (include_rag : bool) :
  mismatch (lit "Relevant memory:") m = true →
  Forall (λ part, startswith part m = false)
    (memory_parts search threshold inst include_rag).
Proof.
  intros H. unfold memory_parts. repeat case_match; try constructor;
    [|constructor]. unfold memory_text. by apply startswith_label_mismatch.
Qed.

(** Every section other than a persona opens with one of the fixed
    heads, hence with no text that differs from each of them at some
    position. *)
Lemma build_parts_opening (m : pystr) (threshold : Q) (with_facts : bool)
    (inst : Instance) (include_rag : bool) :
  let cm := config_manager inst in
  let c := load_character_config cm in
  Forall (λ head, mismatch head m = true) section_heads →
  Forall (λ part, startswith part m = false)
    (labeled (lit "Personality: ") (cfg_personality c)
     ++ fallback_parts cm ((critical_parts c).1 ++ character_parts c)) →
  Forall (λ part, startswith part m = false)
    (build_parts search threshold with_facts inst include_rag).
Proof.
  intros cm c Hheads Hpersona. unfold section_heads in Hheads.
  rewrite !Forall_cons in Hheads.
  destruct Hheads as (Hcr & Hb & Ht & Hp & Hwb & Hws & Hu & Hg & Hf & Hm & Hgl & _).
  apply Forall_app in Hpersona as [Hpers Hfall].
  unfold build_parts. fold cm c.
  pose proof (critical_parts_opening m c Hcr) as Hcp.
  destruct (critical_parts c) as [cp flag]. simpl in Hcp, Hfall.
  rewrite !Forall_app. repeat split; try done.
  - unfold character_parts. rewrite !Forall_app.
    repeat split; first [done | by apply labeled_opening].
  - by apply profile_parts_opening.
  - by apply memory_parts_opening.
  - unfold guideline_parts. destruct (negb flag); [|constructor].
    apply Forall_singleton. unfold guidelines_block.
    destruct (get_max_tokens cm <=? 100), (get_max_tokens cm <=? 200);
      by apply startswith_label_mismatch.
Qed.

(** X12: the persona of a prompt hangs on a substring test. A configured
    personality is shown as the section [Personality: ...] and the
    default sentence is then absent. Without one, the fallback (the simple
    personality, or else the default sentence) is shown when none of the
    other configured texts that precede it holds the text [Personality:];
    but when one of them does, the fallback is skipped and the prompt has
    no persona at all: no section opens with [Personality: ] and none is
    the default sentence. *)
Theorem build_parts_persona
    (threshold : Q) (with_facts : bool) (inst : Instance) (include_rag : bool) :
  let cm := config_manager inst in
  let c := load_character_config cm in
  let parts := build_parts search threshold with_facts inst include_rag in
  let fallback :=
    if truthy_opt (load_personality cm)
    then lit "Personality: " ++ default [] (load_personality cm)
    else default_persona in
  (truthy (cfg_personality c) = true →
     lit "Personality: " ++ cfg_personality c ∈ parts
     ∧ default_persona ∉ parts)
  ∧ (cfg_personality c = [] → persona_mentioned c = false →
       fallback ∈ parts)
  ∧ (cfg_personality c = [] → persona_mentioned c = true →
       ∀ part, part ∈ parts →
         startswith part (lit "Personality: ") = false
         ∧ part ≠ default_persona).
Proof.
  intros cm c parts fallback.
  pose proof (persona_test c) as Htest.
  assert (Hfb : fallback_parts cm ((critical_parts c).1 ++ character_parts c)
    = if truthy (cfg_personality c) || persona_mentioned c
      then [] else [fallback]).
  { unfold fallback_parts. rewrite Htest.
    destruct (truthy (cfg_personality c) || persona_mentioned c); [done|].
    simpl. unfold fallback. fold cm.
    by destruct (truthy_opt (load_personality cm)). }
  assert (Hin : ∀ part,
    part ∈ labeled (lit "Personality: ") (cfg_personality c)
           ++ fallback_parts cm ((critical_parts c).1 ++ character_parts c) →
    part ∈ parts).
  { intros part. unfold parts, build_parts. fold cm c.
    destruct (critical_parts c) as [cp flag]. simpl.
    unfold character_parts. rewrite !elem_of_app. tauto. }
  split; [|split].
  - intros Hp. split.
    + apply Hin. unfold labeled. rewrite Hp. apply elem_of_app. left. by left.
    + intros Hd.
      assert (Hall : Forall (λ part, startswith part default_persona = false)
                       parts).
      { apply build_parts_opening; [by repeat constructor|]. fold cm c.
        rewrite Hfb, Hp. simpl. rewrite app_nil_r.
        by apply labeled_opening. }
      rewrite Forall_forall in Hall.
      by apply (startswith_differs _ _ (Hall _ Hd)).
  - intros Hp Hm. apply Hin. rewrite Hfb, Hp, Hm. simpl. by left.
  - intros Hp Hm.
    assert (Hnone : labeled (lit "Personality: ") (cfg_personality c)
                    ++ fallback_parts cm
                         ((critical_parts c).1 ++ character_parts c) = []).
    { rewrite Hfb, Hp, Hm. done. }
    assert (H1 : Forall (λ part, startswith part (lit "Personality: ") = false)
                   parts).
    { apply build_parts_opening; [by repeat constructor|]. fold cm c.
      rewrite Hnone. constructor. }
    assert (H2 : Forall (λ part, startswith part default_persona = false)
                   parts).
    { apply build_parts_opening; [by repeat constructor|]. fold cm c.
      rewrite Hnone. constructor. }
    rewrite Forall_forall in H1, H2. intros part Hpart. split; [by apply H1|].
    by apply startswith_differs, H2.
Qed.

End Persona.

(** A backstory that mentions a personality, with no personality
    configured: the simple personality that is set is not shown, and the
    default sentence is not shown either. *)
Lemma build_parts_persona_witness :
  load_personality (config_manager shy_instance) = Some (lit "Calm and kind")
  ∧ ∀ part,
      part ∈ build_parts sample_search float_0_7 false shy_instance true →
      startswith part (lit "Personality: ") = false
      ∧ part ≠ default_persona.
Proof.
  split; [reflexivity|].
  destruct (build_parts_persona sample_search float_0_7 false shy_instance
              true) as (_ & _ & H).
  apply H; reflexivity.
Defined.

Section PromptSections.

Context (search : list MemoryEntry → pystr → nat → list Hit).

(** X11: the directive sections come first. The parts of every prompt are
    the sections that open with the CRITICAL marker, followed by sections
    none of which opens with it. *)
Theorem build_parts_directives_first
    (threshold : Q) (with_facts : bool) (inst : Instance) (include_rag : bool) :
  let c := load_character_config (config_manager inst) in
  ∃ rest,
    build_parts search threshold with_facts inst include_rag
    = (critical_parts c).1 ++ rest
    ∧ Forall (λ part, is_critical part = true) (critical_parts c).1
    ∧ Forall (λ part, is_critical part = false) rest.
Proof.
  intros c. unfold build_parts. fold c.
  assert (Hcrit : Forall (λ part, is_critical part = true) (critical_parts c).1).
  { unfold critical_parts.
    destruct (truthy (cfg_output_example c)), (truthy (cfg_notes c)); simpl;
      repeat constructor. }
  destruct (critical_parts c) as [cp flag]. simpl in *.
  eexists. rewrite <- !app_assoc. split; [done|]. split; [done|].
  rewrite !Forall_app. repeat split.
  - eapply Forall_impl; [apply character_parts_plain|]. by intros ? [? _].
  - eapply Forall_impl; [apply fallback_parts_plain|]. by intros ? [? _].
  - eapply Forall_impl; [apply profile_parts_plain|]. by intros ? [? _].
  - eapply Forall_impl; [apply memory_parts_plain|]. by intros ? [? _].
  - unfold guideline_parts. destruct (negb flag); repeat constructor.
    apply guidelines_block_is.
Qed.

(** X13: the retrieved-memory section is sound and bounded. There is at
    most one; it appears only when retrieval is on, a vector store exists
    and the last user message is non-empty; it renders the first hit of
    the search whose score exceeds the threshold; and it is at most 230
    characters long however long the stored texts are. *)
Theorem memory_parts_sound
    (threshold : Q) (inst : Instance) (include_rag : bool) :
  (length (memory_parts search threshold inst include_rag) ≤ 1)%nat
  ∧ ∀ part, part ∈ memory_parts search threshold inst include_rag →
      include_rag = true
      ∧ truthy (last_user_message (conversation_history inst)) = true
      ∧ (length part ≤ 230)%nat
      ∧ ∃ store before conv after,
          vector_store inst = Some store
          ∧ search store (last_user_message (conversation_history inst)) 2%nat
            = before ++ conv :: after
          ∧ Forall (λ h, score_gt (relevance_score h) threshold = false) before
          ∧ score_gt (relevance_score conv) threshold = true
          ∧ part = memory_text conv.
Proof.
  unfold memory_parts.
  destruct (vector_store inst) as [store|];
    [|split; [simpl; lia|intros ? []%elem_of_nil]].
  destruct include_rag; simpl;
    [|split; [simpl; lia|intros ? []%elem_of_nil]].
  destruct (nonempty (conversation_history inst));
    [|split; [simpl; lia|intros ? []%elem_of_nil]].
  destruct (truthy (last_user_message (conversation_history inst))) eqn:Hl;
    [|split; [simpl; lia|intros ? []%elem_of_nil]].
  destruct (high_relevance threshold _) as [|conv r] eqn:Hh;
    [split; [simpl; lia|intros ? []%elem_of_nil]|].
  split; [simpl; lia|].
  intros part ->%list_elem_of_singleton.
  split; [done|]. split; [done|]. split; [apply memory_text_length|].
  apply filter_head_split in Hh as (l1 & l2 & Hq & Hall & Hc).
  exists store, l1, conv, l2. repeat split; try done.
  eapply Forall_impl; [exact Hall|]. intros h Hn. by apply not_true_is_false.
Qed.

(** X14: the server's memory threshold is the stricter one. Every hit the
    server's prompt builder admits (score above 0.7) is admitted by the
    backend's (score above 0.6), so whenever the server shows a retrieved
    memory the backend shows one too. *)
Theorem memory_threshold_server_stricter (inst : Instance) (include_rag : bool) :
  (∀ hits, high_relevance float_0_7 hits
           `sublist_of` high_relevance float_0_6 hits)
  ∧ (memory_parts search float_0_7 inst include_rag ≠ [] →
     memory_parts search float_0_6 inst include_rag ≠ []).
Proof.
  assert (Hmono : ∀ h : Hit, score_gt (relevance_score h) float_0_7 = true →
                    score_gt (relevance_score h) float_0_6 = true).
  { intros h. unfold score_gt. rewrite !negb_true_iff.
    intros H7. apply not_true_is_false. intros H6.
    apply not_true_iff_false in H7. apply H7.
    apply Qle_bool_iff. apply Qle_bool_iff in H6.
    eapply Qle_trans; [exact H6|]. by apply Qle_bool_iff. }
  assert (Hsub : ∀ hits, high_relevance float_0_7 hits
                         `sublist_of` high_relevance float_0_6 hits).
  { intros hits. unfold high_relevance.
    induction hits as [|h hits IH]; [done|].
    rewrite !filter_cons.
    destruct (decide (score_gt (relevance_score h) float_0_7 = true)) as [H7|H7].
    - rewrite decide_True by by apply Hmono. by apply sublist_skip.
    - destruct (decide (score_gt (relevance_score h) float_0_6 = true));
        [by apply sublist_cons|done]. }
  split; [done|].
  unfold memory_parts.
  destruct (vector_store inst) as [store|]; [|done].
  destruct (include_rag && nonempty (conversation_history inst)); [|done].
  destruct (truthy (last_user_message (conversation_history inst))); [|done].
  specialize (Hsub (search store (last_user_message (conversation_history inst))
                      2%nat)).
  destruct (high_relevance float_0_7 _) as [|c7 r7]; [done|].
  destruct (high_relevance float_0_6 _) as [|c6 r6]; [|done].
  by apply sublist_nil_r in Hsub.
Qed.

End PromptSections.

Lemma memory_parts_sound_witness :
  (length (memory_text hit_high) ≤ 230)%nat.
Proof.
  destruct (memory_parts_sound sample_search float_0_6 sample_instance true)
    as [_ H].
  destruct (H (memory_text hit_high)) as (_ & _ & Hlen & _).
  - by left.
  - exact Hlen.
Defined.

Lemma memory_threshold_server_stricter_witness :
  memory_parts sample_search float_0_6 sample_instance true ≠ [].
Proof.
  destruct (memory_threshold_server_stricter sample_search sample_instance true)
    as [_ H].
  apply H. discriminate.
Defined.

(** ** A completed turn on the server *)

Lemma save_conversation_history_bound (history : list Turn) :
  (length (save_conversation_history history) ≤ 20)%nat
  ∧ save_conversation_history history `suffix_of` history.
Proof.
  unfold save_conversation_history, slice_last.
  destruct (Nat.ltb_spec 20 (length history)).
  - split; [rewrite length_drop; lia|apply suffix_drop].
  - split; [lia|done].
Qed.

Lemma trim_keeps_exchange (history : list Turn) (a b : Turn) :
  ∃ before,
    save_conversation_history (history ++ [a; b]) = before ++ [a; b].
Proof.
  unfold save_conversation_history, slice_last.
  destruct (Nat.ltb_spec 20 (length (history ++ [a; b]))) as [Hlt|Hge].
  - rewrite length_app in *. simpl in *.
    exists (drop (length history + 2 - 20) history).
    rewrite drop_app_le by lia. done.
  - by exists history.
Qed.

Lemma untyped_update_count {V} (bool_of : V → bool)
    (py_in : V → list V → bool) (py_ne : V → V → bool)
    (io : io_outcome) (now : pystr) (pm : ProfileManager_ V)
    (e : ExtractionResult_ V) :
  conversation_count
    (profile (Untyped.update_profile_from_ai bool_of py_in py_ne io now pm e).1)
  = conversation_count (profile pm).
Proof.
  unfold Untyped.update_profile_from_ai, Untyped.merge_fields.
  repeat case_match; simplify_eq; simpl; try done; by destruct io.
Qed.

Section ServerTurn.

Context (lower : pystr → pystr).
Context (search : list MemoryEntry → pystr → nat → list Hit).
Context (json_loads : pystr → result json).
Context (generate_response : nat → list Turn → pystr → option Z → result pystr).
Context (extraction_system_prompt : pystr)
        (extraction_user_prompt : pystr → pystr).
Context (py_in : json → list json → bool) (py_ne : json → json → bool).
Context (vs : add_outcome) (io : io_outcome) (now : pystr).

Lemma run_profile_update_count (n : nat) (pm : ProfileManager_ json)
    (recent_messages : list Turn) :
  conversation_count
    (profile (run_profile_update json_loads generate_response
                extraction_system_prompt extraction_user_prompt py_in py_ne
                io now n pm recent_messages))
  = conversation_count (profile pm).
Proof.
  unfold run_profile_update. destruct (extract_user_info _ _ _ _ _ _); [done|].
  apply untyped_update_count.
Qed.

(** X17: a completed server turn. When the model call succeeds, the
    request is answered with the generated text; the history kept for the
    user ends with the user's message followed by the response, holds at
    most 20 turns, and [message_count] is its length. *)
Theorem chat_completed (inst : Instance) (request : ChatRequest)
    (generated : pystr) :
  (∀ messages system_prompt max_tokens,
     generate_response (ai_calls inst) messages system_prompt max_tokens
     = inr generated) →
  let served :=
    chat lower search json_loads generate_response
      extraction_system_prompt extraction_user_prompt py_in py_ne vs io now
      inst request in
  conversation_history served.1
  = save_conversation_history
      (conversation_history inst
       ++ [mkTurn User (message request) false;
           mkTurn Assistant generated false])
  ∧ (∃ before,
       conversation_history served.1
       = before ++ [mkTurn User (message request) false;
                    mkTurn Assistant generated false])
  ∧ (length (conversation_history served.1) ≤ 20)%nat
  ∧ served.2
    = inr {| response := generated;
             conversation_id := user_id request;
             message_count := length (conversation_history served.1) |}.
Proof.
  intros Hok served.
  assert (Hh : conversation_history served.1
    = save_conversation_history
        (conversation_history inst
         ++ [mkTurn User (message request) false;
             mkTurn Assistant generated false])
    ∧ served.2
      = inr {| response := generated;
               conversation_id := user_id request;
               message_count := length (conversation_history served.1) |}).
  { unfold served, chat. simpl. rewrite Hok. rewrite <- !app_assoc. simpl.
    destruct (profile_manager inst) as [pm|]; simpl;
      [destruct (should_update_profile _)|]; simpl; done. }
  destruct Hh as [Hh Hr]. split; [done|]. split; [|split; [|done]].
  - rewrite Hh. apply trim_keeps_exchange.
  - rewrite Hh. apply save_conversation_history_bound.
Qed.

(** X18: the vector store is append-only, and a store that fails does
    not fail the turn. In a completed server turn, when [collection.add]
    works, exactly one entry is added after the stored ones, holding the
    user's message and the response, each cut to at most 500 characters;
    when it raises, the store is left as it was and the request is
    answered all the same. A turn whose model call fails leaves the store
    as it was. *)
Theorem chat_vector_store (inst : Instance) (request : ChatRequest) :
  let served :=
    chat lower search json_loads generate_response
      extraction_system_prompt extraction_user_prompt py_in py_ne vs io now
      inst request in
  (∀ generated,
     (∀ messages system_prompt max_tokens,
        generate_response (ai_calls inst) messages system_prompt max_tokens
        = inr generated) →
     (vs = AddOk →
      vector_store served.1
      = (λ store, store ++ [mkMemoryEntry (take 500 (message request))
                                          (take 500 generated)])
        <$> vector_store inst
      ∧ (length (take 500 (message request)) ≤ 500)%nat
      ∧ (length (take 500 generated) ≤ 500)%nat)
     ∧ (vs = AddRaises →
        vector_store served.1 = vector_store inst
        ∧ ∃ answer, served.2 = inr answer ∧ response answer = generated))
  ∧ (∀ e,
       (∀ messages system_prompt max_tokens,
          generate_response (ai_calls inst) messages system_prompt max_tokens
          = inl e) →
       vector_store served.1 = vector_store inst).
Proof.
  intros served. split.
  - intros generated Hok.
    assert (Hstore : vector_store served.1
      = (λ store, add_conversation vs store (message request) generated)
        <$> vector_store inst
      ∧ ∃ answer, served.2 = inr answer ∧ response answer = generated).
    { unfold served, chat.
      cbn -[Nat.leb Nat.ltb Nat.sub should_update_profile
            increment_conversation_count add_conversation].
      rewrite Hok. rewrite <- !app_assoc.
      cbn -[Nat.leb Nat.ltb Nat.sub should_update_profile
            increment_conversation_count add_conversation].
      assert (Hlook :
        (conversation_history inst
         ++ [mkTurn User (message request) false;
             mkTurn Assistant generated false])
        !! (length (conversation_history inst
                    ++ [mkTurn User (message request) false;
                        mkTurn Assistant generated false]) - 2)%nat
        = Some (mkTurn User (message request) false)).
      { rewrite length_app. simpl.
        replace (length (conversation_history inst) + 2 - 2)%nat
          with (length (conversation_history inst) + 0)%nat by lia.
        by rewrite lookup_app_r, Nat.add_0_r, Nat.sub_diag by lia. }
      assert (Hlen : (2 <=? length (conversation_history inst
         ++ [mkTurn User (message request) false;
             mkTurn Assistant generated false]))%nat = true).
      { apply Nat.leb_le. rewrite length_app. simpl. lia. }
      rewrite Hlen, Hlook.
      destruct (profile_manager inst) as [pm|];
        [destruct (should_update_profile _)|];
        (split; [by destruct (vector_store inst)|by eexists]). }
    destruct Hstore as [Hstore Hans]. split.
    + intros ->. split; [exact Hstore|rewrite !length_take; lia].
    + intros ->. split; [|exact Hans].
      rewrite Hstore. by destruct (vector_store inst).
  - intros e Hfail. unfold served, chat. simpl. by rewrite Hfail.
Qed.

(** X19: conversations are counted once, and only when completed. A
    completed server turn raises [conversation_count] by exactly one,
    whether or not a profile update ran, and calls the provider once, or
    twice when an update was due; a failed turn leaves the profile manager
    as it was. *)
Theorem chat_conversation_count (inst : Instance) (request : ChatRequest)
    (pm : ProfileManager) :
  profile_manager inst = Some pm →
  let served :=
    chat lower search json_loads generate_response
      extraction_system_prompt extraction_user_prompt py_in py_ne vs io now
      inst request in
  (∀ generated,
     (∀ messages system_prompt max_tokens,
        generate_response (ai_calls inst) messages system_prompt max_tokens
        = inr generated) →
     (∃ pm', profile_manager served.1 = Some pm'
             ∧ conversation_count (profile pm')
               = conversation_count (profile pm) + 1)
     ∧ ai_calls served.1
       = (if should_update_profile (increment_conversation_count pm)
          then 2 + ai_calls inst else 1 + ai_calls inst)%nat)
  ∧ (∀ e,
       (∀ messages system_prompt max_tokens,
          generate_response (ai_calls inst) messages system_prompt max_tokens
          = inl e) →
       profile_manager served.1 = Some (untyped pm)).
Proof.
  intros Hpm served. split.
  - intros generated Hok. unfold served, chat. simpl. rewrite Hok, Hpm.
    destruct (should_update_profile (increment_conversation_count pm)); simpl.
    + split; [|done]. eexists. split; [done|].
      by rewrite run_profile_update_count.
    + split; [|done]. by eexists.
  - intros e Hfail. unfold served, chat. simpl. rewrite Hfail.
    unfold untyped_instance. simpl. by rewrite Hpm.
Qed.

End ServerTurn.

Lemma chat_completed_witness :
  (chat ascii_lower sample_search JsonModel.json_loads
     (constant_provider (lit "Coffee is fine too.")) [] id
     sample_in sample_ne AddOk IoOk t1 sample_instance sample_request).2
  = inr {| response := lit "Coffee is fine too.";
           conversation_id := lit "user-1";
           message_count := 3 |}.
Proof.
  destruct (chat_completed ascii_lower sample_search JsonModel.json_loads
              (constant_provider (lit "Coffee is fine too.")) [] id
              sample_in sample_ne AddOk IoOk t1
              sample_instance sample_request (lit "Coffee is fine too."))
    as (_ & _ & _ & H).
  - intros; reflexivity.
  - rewrite H. reflexivity.
Defined.

Lemma chat_vector_store_witness :
  vector_store
    (chat ascii_lower sample_search JsonModel.json_loads
       (constant_provider (lit "Coffee is fine too.")) [] id
       sample_in sample_ne AddOk IoOk t1 sample_instance sample_request).1
  = Some [mkMemoryEntry (lit "and coffee?") (lit "Coffee is fine too.")]
  ∧ vector_store
      (chat ascii_lower sample_search JsonModel.json_loads
         (constant_provider (lit "Coffee is fine too.")) [] id
         sample_in sample_ne AddRaises IoOk t1 sample_instance
         sample_request).1
    = Some []
  ∧ vector_store
      (chat ascii_lower sample_search JsonModel.json_loads flaky_provider
         [] id sample_in sample_ne AddOk IoOk t1 sample_instance
         sample_request).1
    = Some [].
Proof.
  destruct (chat_vector_store ascii_lower sample_search JsonModel.json_loads
              (constant_provider (lit "Coffee is fine too.")) [] id
              sample_in sample_ne AddOk IoOk t1
              sample_instance sample_request) as [H1 _].
  destruct (chat_vector_store ascii_lower sample_search JsonModel.json_loads
              (constant_provider (lit "Coffee is fine too.")) [] id
              sample_in sample_ne AddRaises IoOk t1
              sample_instance sample_request) as [H2 _].
  destruct (chat_vector_store ascii_lower sample_search JsonModel.json_loads
              flaky_provider [] id sample_in sample_ne AddOk IoOk t1
              sample_instance sample_request)
    as [_ H3].
  split; [|split].
  - destruct (H1 (lit "Coffee is fine too.")) as [H _];
      [intros; reflexivity|].
    destruct (H eq_refl) as [-> _]. reflexivity.
  - destruct (H2 (lit "Coffee is fine too.")) as [_ H];
      [intros; reflexivity|].
    destruct (H eq_refl) as [-> _]. reflexivity.
  - rewrite (H3 (Exception (lit "Connection error.")));
      [reflexivity|intros; reflexivity].
Defined.

Lemma chat_conversation_count_witness :
  ∃ pm', profile_manager
           (chat ascii_lower sample_search JsonModel.json_loads
              (constant_provider (lit "Coffee is fine too.")) [] id
              sample_in sample_ne AddOk IoOk t1
              sample_instance sample_request).1 = Some pm'
         ∧ conversation_count (profile pm')
           = conversation_count (profile alex_manager) + 1.
Proof.
  destruct (chat_conversation_count ascii_lower sample_search
              JsonModel.json_loads
              (constant_provider (lit "Coffee is fine too.")) [] id
              sample_in sample_ne AddOk IoOk t1
              sample_instance sample_request alex_manager eq_refl) as [H _].
  destruct (H (lit "Coffee is fine too.")) as [Hc _];
    [intros; reflexivity|exact Hc].
Defined.

(** ** Turns of the desktop pet *)

Lemma load_after_save (history : list Turn) :
  load_conversation_history (Some (save_conversation_history history))
  = save_conversation_history history.
Proof.
  unfold load_conversation_history.
  destruct (save_conversation_history_bound history) as [Hlen _].
  by destruct (Nat.ltb_spec 20 (length (save_conversation_history history)));
    [lia|].
Qed.

Lemma deliver_shape (vs : add_outcome) (w : write_outcome) (dp : DesktopPet)
    (signal : worker_signal) :
  let dp' := deliver vs w dp signal in
  ∃ reply history,
    conversation_history (dp_instance dp') = history
    ∧ last history = Some (mkTurn Assistant reply false)
    ∧ chat_ui dp' = chat_ui dp ++ [(reply, false)]
    ∧ history_file dp'
      = (_save_json w (save_conversation_history history) (history_file dp)).1.
Proof.
  destruct signal as [generated|error]; simpl.
  - exists generated. eexists. split; [reflexivity|].
    unfold _on_ai_response. cbn -[Nat.leb Nat.ltb slice_last].
    split; [|done].
    destruct (Nat.ltb_spec 20
      (length (conversation_history (dp_instance dp)
               ++ [mkTurn Assistant generated false]))) as [Hlt|Hge].
    + unfold slice_last. rewrite length_app in *. simpl in *.
      rewrite drop_app_le by lia. by rewrite last_snoc.
    + by rewrite last_snoc.
  - exists (lit "Sorry, I encountered an error: " ++ error). eexists.
    split; [reflexivity|]. simpl. by rewrite last_snoc.
Qed.

(** X20: every signal of an [AIWorker] is answered by one reply. Whichever
    handler the signal reaches, and in whatever state, it shows exactly one
    assistant-side message in the chat window (the response or the error
    text), makes it the last turn of the history, and hands the last turns
    of the history, at most 20, to the history file. When the write works,
    the file holds them and they are what the next start loads; when the
    file cannot be opened it stays as it was; when the dump fails the file
    is unreadable and the next start loads an empty history. *)
Theorem deliver_replies (vs : add_outcome) (w : write_outcome)
    (dp : DesktopPet) (signal : worker_signal) :
  let dp' := deliver vs w dp signal in
  ∃ reply,
    chat_ui dp' = chat_ui dp ++ [(reply, false)]
    ∧ last (conversation_history (dp_instance dp'))
      = Some (mkTurn Assistant reply false)
    ∧ match w with
      | WriteOk =>
          ∃ stored,
            history_file dp' = Some stored
            ∧ stored `suffix_of` conversation_history (dp_instance dp')
            ∧ (length stored ≤ 20)%nat
            ∧ load_conversation_history (history_file dp') = stored
      | WriteOpenFails => history_file dp' = history_file dp
      | WriteDumpFails =>
          history_file dp' = None
          ∧ load_conversation_history (history_file dp') = []
      end.
Proof.
  intros dp'.
  destruct (deliver_shape vs w dp signal) as (reply & history & Hh & Hl & Hu & Hf).
  fold dp' in Hh, Hu, Hf. exists reply. rewrite Hh.
  split; [done|]. split; [done|]. rewrite Hf. destruct w; simpl; [|done|done].
  exists (save_conversation_history history). split; [done|].
  split; [apply save_conversation_history_bound|].
  split; [apply save_conversation_history_bound|apply load_after_save].
Qed.

Section DesktopFacts.

Context (lower : pystr → pystr).
Context (search : list MemoryEntry → pystr → nat → list Hit).
Context (generate_response : nat → list Turn → pystr → option Z → result pystr).
Context (vs : add_outcome) (w_sent w_done : write_outcome).

(** X21: without a provider the turn fails fast. When no AI provider is
    set, a user message is answered by the provider-not-initialized error
    turn, no provider call is made, and profile and vector store are left
    as they were. *)
Theorem desktop_turn_without_provider (dp : DesktopPet) (text : pystr) :
  has_ai_provider dp = false →
  let dp' :=
    desktop_turn lower search generate_response vs w_sent w_done dp text in
  conversation_history (dp_instance dp')
  = conversation_history (dp_instance dp)
    ++ [mkTurn User text false;
        mkTurn Assistant
          (lit "Sorry, I encountered an error: "
           ++ lit "AI provider not initialized. Please check your API key in settings.")
          false]
  ∧ ai_calls (dp_instance dp') = ai_calls (dp_instance dp)
  ∧ profile_manager (dp_instance dp') = profile_manager (dp_instance dp)
  ∧ vector_store (dp_instance dp') = vector_store (dp_instance dp).
Proof.
  intros Hp dp'. unfold dp', desktop_turn, _on_message_sent, AIWorker_run.
  cbn [has_ai_provider dp_instance _save_conversation_history].
  rewrite Hp. cbn. rewrite <- !app_assoc, Nat.add_0_r. done.
Qed.

End DesktopFacts.

Lemma desktop_turn_without_provider_witness :
  ai_calls
    (dp_instance
       (desktop_turn ascii_lower sample_search flaky_provider AddOk
          WriteOk WriteOk
          {| dp_instance := sample_instance;
             has_ai_provider := false;
             chat_ui := [];
             thinking_indicator := false;
             history_file := None;
             profile_workers := [] |} (lit "and coffee?")))
  = 0%nat.
Proof.
  destruct (desktop_turn_without_provider ascii_lower sample_search
              flaky_provider AddOk WriteOk WriteOk
              {| dp_instance := sample_instance;
                 has_ai_provider := false;
                 chat_ui := [];
                 thinking_indicator := false;
                 history_file := None;
                 profile_workers := [] |} (lit "and coffee?") eq_refl)
    as (_ & H & _).
  exact H.
Defined.

(** ** Proactive messages *)

Section ProactiveFacts.

Context (search : list MemoryEntry → pystr → nat → list Hit).
Context (generate_response : nat → list Turn → pystr → option Z → result pystr).
Context (w : write_outcome).

(** X23: a failed proactive message is dropped in silence. When the
    timer fires, a proactive message is due and the model call raises,
    nothing is shown in the chat window and neither the history nor the
    history file changes; only the provider call is spent. *)
Theorem proactive_tick_failure_silent
    (dp : DesktopPet) (minutes_silent : Z) (e : exn) :
  proactive_due dp minutes_silent = true →
  (∀ messages system_prompt max_tokens,
     generate_response (ai_calls (dp_instance dp)) messages system_prompt
       max_tokens = inl e) →
  let dp' := proactive_tick search generate_response w dp minutes_silent in
  chat_ui dp' = chat_ui dp
  ∧ conversation_history (dp_instance dp') = conversation_history (dp_instance dp)
  ∧ history_file dp' = history_file dp
  ∧ ai_calls (dp_instance dp') = S (ai_calls (dp_instance dp)).
Proof.
  intros Hdue Hfail dp'. unfold dp', proactive_tick, ProactiveWorker_run.
  rewrite Hdue.
  assert (has_ai_provider dp = true) as ->.
  { unfold proactive_due in Hdue.
    by apply andb_true_iff in Hdue as [[? _]%andb_true_iff _]. }
  rewrite Hfail. simpl. by rewrite Nat.add_1_r.
Qed.

End ProactiveFacts.

Lemma proactive_tick_failure_silent_witness :
  chat_ui (proactive_tick sample_search flaky_provider WriteOk
             sample_desktop 12)
  = chat_ui sample_desktop.
Proof.
  destruct (proactive_tick_failure_silent sample_search flaky_provider
              WriteOk sample_desktop 12 (Exception (lit "Connection error.")))
    as [H _]; [reflexivity|intros; reflexivity|exact H].
Defined.

(** ** Fenced responses and validation *)

Lemma lstrip_app (s t : pystr) :
  lstrip s ≠ [] → lstrip (s ++ t) = lstrip s ++ t.
Proof.
  induction s as [|c s IH]; [done|]. simpl.
  destruct (isspace c); [apply IH|done].
Qed.

Lemma lstrip_blank_snoc (s : pystr) (c : N) :
  isspace c = true → lstrip s = [] → lstrip (s ++ [c]) = [].
Proof.
  intros Hc. induction s as [|d s IH]; simpl; [by rewrite Hc|].
  destruct (isspace d); [apply IH|done].
Qed.

Lemma strip_snoc_space (s : pystr) (c : N) :
  isspace c = true → strip (s ++ [c]) = strip s.
Proof.
  intros Hc. unfold strip.
  destruct (lstrip s) as [|d r] eqn:Hl.
  - by rewrite (lstrip_blank_snoc s c Hc Hl).
  - rewrite lstrip_app by by rewrite Hl.
    rewrite Hl, rev_app_distr. simpl. by rewrite Hc.
Qed.

Lemma strip_cons_space (s : pystr) (c : N) :
  isspace c = true → strip (c :: s) = strip s.
Proof. intros Hc. unfold strip. simpl. by rewrite Hc. Qed.

Lemma strip_between_marks (a b : N) (s : pystr) :
  isspace a = false → isspace b = false →
  strip (a :: s ++ [b]) = a :: s ++ [b].
Proof.
  intros Ha Hb. unfold strip. simpl. rewrite Ha.
  change (a :: s ++ [b]) with ((a :: s) ++ [b]).
  rewrite rev_app_distr. simpl. rewrite Hb.
  change (b :: rev s ++ [a]) with ([b] ++ rev (a :: s)).
  rewrite rev_app_distr, rev_involutive. done.
Qed.

Lemma startswith_app (p x : pystr) : startswith (p ++ x) p = true.
Proof.
  induction p as [|a p IH]; [by destruct x|]. simpl.
  by rewrite N.eqb_refl.
Qed.

Lemma endswith_app (x t : pystr) : endswith (x ++ t) t = true.
Proof. unfold endswith. rewrite rev_app_distr. apply startswith_app. Qed.

Lemma slice_drop_last_app (x t : pystr) :
  slice_drop_last (length t) (x ++ t) = x.
Proof.
  unfold slice_drop_last. rewrite length_app.
  replace (length x + length t - length t)%nat with (length x) by lia.
  by rewrite take_app_length.
Qed.

Lemma fenced_truthy (opening body : pystr) :
  opening = lit "```json" ∨ opening = lit "```" →
  strip (fenced opening body) = fenced opening body
  ∧ truthy (fenced opening body) = true.
Proof.
  intros [-> | ->]; unfold fenced.
  - split; [|done].
    replace (lit "```json" ++ nl ++ body ++ nl ++ lit "```")
      with (96%N :: (lit "``json" ++ nl ++ body ++ nl ++ lit "``") ++ [96%N])
      by (rewrite <- !app_assoc; reflexivity).
    by apply strip_between_marks.
  - split; [|done].
    replace (lit "```" ++ nl ++ body ++ nl ++ lit "```")
      with (96%N :: (lit "``" ++ nl ++ body ++ nl ++ lit "``") ++ [96%N])
      by (rewrite <- !app_assoc; reflexivity).
    by apply strip_between_marks.
Qed.

Lemma strip_fences_fenced (opening body : pystr) :
  opening = lit "```json" ∨ opening = lit "```" →
  strip_fences (fenced opening body) = strip body.
Proof.
  intros Ho. unfold strip_fences.
  destruct (fenced_truthy opening body Ho) as [-> _].
  assert (Hbody : ∀ inner,
    inner = nl ++ body ++ nl ++ lit "```" →
    strip (if endswith inner (lit "```") then slice_drop_last 3 inner
           else inner) = strip body).
  { intros inner ->.
    replace (nl ++ body ++ nl ++ lit "```")
      with ((nl ++ body ++ nl) ++ lit "```") by by rewrite <- !app_assoc.
    rewrite endswith_app.
    pose proof (slice_drop_last_app (nl ++ body ++ nl) (lit "```")) as Hd.
    change (length (lit "```")) with 3%nat in Hd. rewrite Hd.
    unfold nl. simpl. rewrite strip_cons_space by done.
    by rewrite strip_snoc_space. }
  destruct Ho as [-> | ->]; unfold fenced.
  - rewrite startswith_app. by apply Hbody.
  - replace (startswith (lit "```" ++ nl ++ body ++ nl ++ lit "```")
               (lit "```json")) with false by done.
    rewrite startswith_app. by apply Hbody.
Qed.

(** X24: fence markers are unwrapped. A response made of an opening fence
    (with or without the [json] tag), a line break, a body, a line break
    and a closing fence is read as the body with its surrounding
    whitespace removed; and when that text parses as a JSON object the
    result is the validated object, without any fallback. *)
Theorem _parse_json_response_fenced
    (json_loads : pystr → result json) (opening body : pystr)
    (members : list (pystr * json)) :
  opening = lit "```json" ∨ opening = lit "```" →
  json_loads (strip body) = inr (JObj members) →
  strip_fences (fenced opening body) = strip body
  ∧ _parse_json_response json_loads (fenced opening body)
    = _validate_extraction (JObj members).
Proof.
  intros Ho Hj. split; [by apply strip_fences_fenced|].
  unfold _parse_json_response.
  destruct (fenced_truthy opening body Ho) as [Hs Ht].
  rewrite Hs, Ht. simpl.
  rewrite (strip_fences_fenced opening body Ho).
  unfold parse_attempt. by rewrite Hj.
Qed.

Lemma _parse_json_response_fenced_witness :
  _parse_json_response JsonModel.json_loads
    (fenced (lit "```json") (litq " {^name^: ^Al^} "))
  = _validate_extraction (JObj [(lit "name", JStr (lit "Al"))]).
Proof.
  apply (_parse_json_response_fenced JsonModel.json_loads (lit "```json")
           (litq " {^name^: ^Al^} ") [(lit "name", JStr (lit "Al"))]).
  - by left.
  - reflexivity.
Defined.

(** An extraction whose name is a string or falsy, written back as a JSON
    object, validates to itself. *)
Lemma revalidate (r : RawExtraction) :
  json_truthy (raw_name r)
  && negb (if raw_name r is JStr _ then true else false) = false →
  _validate_extraction (raw_as_object r) = inr r.
Proof.
  destruct r as [n t p g d f]. simpl raw_name. intros Hn.
  unfold raw_as_object, _validate_extraction, get_list, get_dict.
  replace (dict_get _ (lit "name")) with (Some n) by reflexivity.
  replace (dict_get _ (lit "personality_traits")) with (Some (JArr t))
    by reflexivity.
  replace (dict_get _ (lit "preferences")) with (Some (JObj p)) by reflexivity.
  replace (dict_get _ (lit "goals")) with (Some (JArr g)) by reflexivity.
  replace (dict_get _ (lit "important_dates")) with (Some (JObj d))
    by reflexivity.
  replace (dict_get _ (lit "facts")) with (Some (JArr f)) by reflexivity.
  simpl default. rewrite Hn. reflexivity.
Qed.

(** X25: validation tolerates and normalises. Every parsed object is
    accepted; the validated name is a string or a falsy value; an object
    with none of the six keys validates to the empty extraction; and a
    validated extraction, validated again, comes back unchanged. *)
Theorem _validate_extraction_normalises (members : list (pystr * json)) :
  ∃ r, _validate_extraction (JObj members) = inr r
       ∧ (json_truthy (raw_name r) = true → ∃ s, raw_name r = JStr s)
       ∧ ((∀ key, key ∈ extraction_keys → dict_get members key = None) →
          r = _get_empty_extraction)
       ∧ _validate_extraction (raw_as_object r) = inr r.
Proof.
  eexists. split; [reflexivity|]. split; [|split].
  - simpl. destruct (default JNull (dict_get members (lit "name")))
      as [| | | s | |] eqn:Hn; simpl; try done.
    + by destruct b.
    + destruct (mantissa_zero lexeme) eqn:Hz; simpl; [by rewrite Hz|done].
    + rewrite andb_false_r. eauto.
    + by destruct items.
    + by destruct members0.
  - intros Hnone. unfold get_list, get_dict.
    rewrite !Hnone by (apply (bool_decide_unpack _); by vm_compute).
    done.
  - apply revalidate. simpl raw_name.
    destruct (default JNull (dict_get members (lit "name")))
      as [| [|] | lexeme | s | [|] | [|]]; simpl; try done.
    + destruct (mantissa_zero lexeme) eqn:Hz; simpl; [by rewrite Hz|done].
    + rewrite andb_false_r. simpl. by rewrite andb_false_r.
Qed.

Lemma _validate_extraction_normalises_witness :
  ∃ r, _validate_extraction (JObj [(lit "mood", JStr (lit "fine"))]) = inr r
       ∧ r = _get_empty_extraction.
Proof.
  destruct (_validate_extraction_normalises [(lit "mood", JStr (lit "fine"))])
    as (r & Hr & _ & Hempty & _).
  exists r. split; [exact Hr|]. apply Hempty.
  intros key Hk. vm_compute in Hk.
  repeat (apply elem_of_cons in Hk as [-> | Hk]; [reflexivity|]).
  by apply elem_of_nil in Hk.
Defined.
